(** * WebProcessingServiceCatalogFunction: the WPS client of the catalog

    A shallow embedding of [WebProcessingServiceCatalogFunction] (the
    parameter converters, the metadata loader and the Execute response
    handler) and of [PointParameter], followed by the properties the
    specification states about them.

    Conventions.
    - [undefined] is [None]; [isDefined v] is [v !== undefined].
    - A JavaScript [number] that holds a coordinate is a binary64 [float].
    - A call that may throw returns a [Completion].
    - Calls that leave the class (network, workbench, timers, catalog items)
      are recorded as [Event]s; what the outside world answers is supplied
      by the caller as a list of [Round]s.
    - Code the class imports but that is not part of the two source files
      is gathered in the class [Externals]; the constructor of the
      parameter classes is modelled from the specification
      ([newParameter]).
    - The values set on the parameter objects, which [functionParameters]
      keeps alive, are part of the state of the function
      ([keptValues]). *)

From Stdlib Require Import String Ascii List ZArith Bool Lia.
From Stdlib Require Import Floats.PrimFloat Floats.FloatOps Floats.SpecFloat.
From Stdlib Require Import DecimalString.
Import ListNotations.

Set Warnings "-register-all".

Open Scope string_scope.
Open Scope Z_scope.

(* ================================================================== *)
(** ** JavaScript strings *)

Module JsString.

(** The quotation mark, U+0022. *)
Definition dquote : string := String "034"%char EmptyString.

(** [s.indexOf(searchString)], scanning from position [pos]. *)
Fixpoint indexOfFrom (searchString s : string) (pos : Z) : Z :=
  if prefix searchString s then pos
  else match s with
       | EmptyString => -1
       | String _ s' => indexOfFrom searchString s' (pos + 1)
       end.

Definition indexOf (s searchString : string) : Z :=
  indexOfFrom searchString s 0.

(** [s.lastIndexOf(searchString)]. *)
Fixpoint lastIndexOfFrom (searchString s : string) (pos : Z) : Z :=
  match s with
  | EmptyString => if prefix searchString s then pos else -1
  | String _ s' =>
      let later := lastIndexOfFrom searchString s' (pos + 1) in
      if later =? -1
      then (if prefix searchString s then pos else -1)
      else later
  end.

Definition lastIndexOf (s searchString : string) : Z :=
  lastIndexOfFrom searchString s 0.

(** [s.substring(start)]: a negative start counts as 0, a start past the
    end gives the empty string. *)
Definition substringFrom (s : string) (start : Z) : string :=
  let n := Z.to_nat (Z.max 0 start) in
  substring n (String.length s - n) s.

(** [s] between quotation marks. *)
Definition quoted (s : string) : string := dquote ++ s ++ dquote.

(** [t] occurs somewhere in [s]. *)
Definition Contains (s t : string) : Prop :=
  exists before after, s = before ++ t ++ after.

(** [a || b] on strings: the empty string and [undefined] are falsy. *)
Definition orElse (a b : option string) : option string :=
  match a with
  | Some EmptyString | None => b
  | Some _ => a
  end.

End JsString.

(* ================================================================== *)
(** ** Completions: a value, or a thrown exception *)

Record TerriaError := {
  title : string;
  message : string
}.

Inductive Exception :=
| ThrowTerriaError (e : TerriaError)
| ThrowTypeError (what : string).

(** [Untyped] marks a call whose argument lies outside the type the source
    casts it to ([<RectangleParameter>functionParameter] and the like); the
    model gives such a call no behaviour. *)
Inductive Completion (A : Type) :=
| Normal (a : A)
| Throw (e : Exception)
| Untyped.

Arguments Normal {A} a.
Arguments Throw {A} e.
Arguments Untyped {A}.

Definition bind {A B : Type} (c : Completion A) (k : A -> Completion B)
  : Completion B :=
  match c with
  | Normal a => k a
  | Throw e => Throw e
  | Untyped => Untyped
  end.

Notation "x <- c ;; k" := (bind c (fun x => k))
  (at level 61, c at next level, right associativity).

(** [array.map(f)] where [f] may throw: the first throw ends the loop. *)
Fixpoint mapM {A B : Type} (f : A -> Completion B) (l : list A)
  : Completion (list B) :=
  match l with
  | [] => Normal []
  | a :: rest =>
      b <- f a ;;
      bs <- mapM f rest ;;
      Normal (b :: bs)
  end.

Definition isDefined {A : Type} (v : option A) : bool :=
  match v with Some _ => true | None => false end.

(** [T | T[]], as xml2json produces for a repeated element. *)
Inductive OneOrMany (A : Type) :=
| One (a : A)
| Many (l : list A).

Arguments One {A} a.
Arguments Many {A} l.

(** [Array.isArray(v) || isObservableArray(v) ? v : [v]] *)
Definition asArray {A : Type} (v : OneOrMany A) : list A :=
  match v with
  | Many l => l
  | One a => [a]
  end.

Inductive Nullable (A : Type) :=
| Null
| NonNull (a : A).

Arguments Null {A}.
Arguments NonNull {A} a.

(* ================================================================== *)
(** ** JSON values *)

Inductive JsonValue :=
| JNull
| JBool (b : bool)
| JNumber (x : float)
| JString (s : string)
| JArray (items : list JsonValue)
| JObject (members : list (string * JsonValue)).

(* ================================================================== *)
(** ** The WPS documents, as [xml2json] hands them over *)

Record AllowedValues_t := {
  Value : option (OneOrMany string)
}.

Record LiteralData_t := {
  AllowedValues : option AllowedValues_t;
  AllowedValue : option AllowedValues_t;
  AnyValue : option string
}.

Record Format_t := { Schema : option string }.
Record ComplexDefault_t := { Format : option Format_t }.
Record ComplexData_t := { Default : option ComplexDefault_t }.

Record BoundingBoxDefault_t := { Default_CRS : option string }.
(** [Supported.CRS] is declared [string[]], but xml2json hands a lone
    child over unwrapped and the code does not wrap it. *)
Record BoundingBoxSupported_t := {
  Supported_CRS : option (OneOrMany string)
}.
Record BoundingBoxData_t := {
  BoundingBox_Default : option BoundingBoxDefault_t;
  Supported : option BoundingBoxSupported_t
}.

Record Input := {
  Identifier : option string;
  Name : option string;
  Abstract : option string;
  LiteralData : option LiteralData_t;
  ComplexData : option ComplexData_t;
  BoundingBoxData : option BoundingBoxData_t;
  minOccurs : option Z
}.

Record DataInputs_t := { DataInputs_Input : option (OneOrMany Input) }.

Record ProcessDescription_t := {
  DataInputs : option DataInputs_t;
  pd_storeSupported : option string;
  pd_statusSupported : option string
}.

(** The parts of an ExecuteResponse that [handleExecuteResponse] reads. *)
Record Exception_t := {
  ExceptionText : option string;
  Exception_Exception : option string
}.
Record ExceptionReport_t := { Exception_ : option Exception_t }.
Record ProcessFailed_t := { ExceptionReport : option ExceptionReport_t }.

Record Status_t := {
  ProcessFailed : option ProcessFailed_t;
  ProcessSucceeded : option string
}.

Record Json := {
  ProcessDescription : option ProcessDescription_t;
  Status : option Status_t;
  statusLocation : option string
}.

(** An XML document: the class looks at the root element's local name only,
    everything else is read through [xml2json]. *)
Inductive XmlElement :=
| Element (name : string) (attributes : list (string * string))
          (children : list XmlElement).

Definition localName (e : XmlElement) : string :=
  match e with Element name _ _ => name end.

Record XmlDocument := { documentElement : option XmlElement }.

(* ================================================================== *)
(** ** The catalog function and its parameters *)

Record CartographicPoint := {
  longitude : float;
  latitude : float;
  height : float
}.

Record Rectangle := {
  west : float;
  south : float;
  east : float;
  north : float
}.

(** [parameter.value], whatever the class. *)
Inductive Value_t :=
| VString (s : string)
| VPoint (p : CartographicPoint)
| VLine (l : list (list float))
| VPolygon (l : list (list (list float)))
| VRectangle (r : Rectangle)
| VGeoJson (g : Nullable JsonValue).

Record Terria := { supportEmail : string }.

(** The catalog function.  [functionParameters] is kept alive, so that
    what the UI sets on the parameter objects persists: [keptValues] is
    the value each of these objects holds now, by its position in
    [functionParameters] ([None], or no entry, for a value not set). *)
Record WebProcessingServiceCatalogFunction := {
  url : option string;
  identifier : option string;
  cf_name : option string;
  terria : Terria;
  processDescription : option ProcessDescription_t;
  keptValues : list (option Value_t)
}.

(** The job that stands for a running process on the workbench. *)
Record CatalogFunctionJob := {
  job_uniqueId : string;
  job_name : option string;
  job_description : option string
}.

(** The entries of the converter registry; a parameter refers to the
    converter that made it through one of these. *)
Inductive ConverterRef :=
| RefLiteralData
| RefDateTime
| RefPoint
| RefLine
| RefPolygon
| RefRectangle
| RefGeoJsonGeometry.

(** [FunctionParameterOptions] *)
Record Options := {
  opt_id : string;
  opt_name : option string;
  opt_description : option string;
  opt_isRequired : option bool;
  opt_converter : option ConverterRef
}.

Record RegionTypeParameter_t := {
  rt_id : string;
  rt_name : string;
  rt_description : string;
  rt_converter : option ConverterRef
}.

Record RegionParameter_t := {
  rp_id : string;
  rp_name : string;
  regionProvider : RegionTypeParameter_t;
  rp_converter : option ConverterRef
}.

(** The parameter classes, each with the type of value it holds. *)
Inductive ParameterKind :=
| EnumerationParameter (possibleValues : list string) (v : option string)
| StringParameter (v : option string)
| DateTimeParameter (v : option string)
| PointParameter (v : option CartographicPoint)
| LineParameter (v : option (list (list float)))
| PolygonParameter (v : option (list (list (list float))))
| RectangleParameter (crs : string) (v : option Rectangle)
| GeoJsonParameter (regionParameter : RegionParameter_t)
                   (v : option (Nullable JsonValue)).

Record FunctionParameter := {
  catalogFunction : WebProcessingServiceCatalogFunction;
  id : string;
  name : option string;
  description : option string;
  isRequired : option bool;
  converter : option ConverterRef;
  kind : ParameterKind
}.

Definition value (p : FunctionParameter) : option Value_t :=
  match kind p with
  | EnumerationParameter _ v | StringParameter v | DateTimeParameter v =>
      option_map VString v
  | PointParameter v => option_map VPoint v
  | LineParameter v => option_map VLine v
  | PolygonParameter v => option_map VPolygon v
  | RectangleParameter _ v => option_map VRectangle v
  | GeoJsonParameter _ v => option_map VGeoJson v
  end.

(** [WpsInputData], with the promise already awaited. *)
Record WpsInputData := {
  inputValue : option string;
  inputType : string
}.

Record WpsInput := {
  wi_inputIdentifier : string;
  wi_inputValue : string;
  wi_inputType : string
}.

(** [ParameterTraits] and the result item built by [createCatalogItem]. *)
Record ParameterTraits := {
  pt_name : option string;
  pt_value : string;
  pt_geoJsonFeature : option JsonValue
}.

Record WebProcessingServiceCatalogItem := {
  item_uniqueId : string;
  item_name : option string;
  item_description : option string;
  item_wpsResponse : option Json;
  item_parameters : list ParameterTraits
}.

(** What leaves the class. *)
Inductive Event :=
| RunLater (milliseconds : Z)
| GetXml (location : string)
| SetLoadPromise (job : CatalogFunctionJob) (location : string)
| SetErrorOnPendingItem (job : CatalogFunctionJob) (text : option string)
| LoadMapItems (item : WebProcessingServiceCatalogItem)
| WorkbenchAdd (item : WebProcessingServiceCatalogItem)
| WorkbenchRemove (job : CatalogFunctionJob).

(** One turn of the outside world while a poll is pending: what
    [loadXML] settles with, and whether the workbench still holds the
    pending job when that reply is handled. *)
Record Round := {
  reply : Completion (option XmlDocument);
  workbenchContains : bool
}.

(** How a call of an async method ends, as far as the rounds given go. *)
Inductive Settled :=
| Fulfilled
| Rejected (e : Exception)
| Unmodelled
| AwaitingReply.

(** Code that the class imports from outside the two source files. *)
Class Externals := {
  (** [xml2json(xml)] *)
  xml2json : XmlDocument -> Json;
  (** [i18next.t(key, options)] *)
  i18next_t : string -> list (string * option string) -> string;
  (** [new URI(url).query(parameters).toString()] *)
  URI_query : string -> list (string * string) -> string;
  proxyCatalogItemUrl :
    WebProcessingServiceCatalogFunction -> string -> string -> string;
  (** [Reproject.crsStringToCode] and [Reproject.TERRIA_CRS] *)
  crsStringToCode : string -> option string;
  TERRIA_CRS : string;
  (** [CesiumMath.toDegrees] *)
  toDegrees : float -> float;
  (** A finite number written as text (string concatenation, JSON). *)
  numberToString : float -> string;
  (** [p.formatValueAsString()] *)
  formatValueAsString : FunctionParameter -> string;
  (** [p.geoJsonFeature] of the classes other than [PointParameter] *)
  inheritedGeoJsonFeature : FunctionParameter -> option JsonValue;
  DateTimeParameter_formatValueForUrl : string -> Completion (option string);
  LineParameter_formatValueForUrl :
    option (list (list float)) -> Completion (option string);
  PolygonParameter_formatValueForUrl :
    option (list (list (list float))) -> Completion (option string);
  (** [GeoJsonParameter.getProcessedValue] *)
  getProcessedValue :
    FunctionParameter -> JsonValue -> Completion (option WpsInputData);
  (** What the constructor of a parameter makes of the name, the
      description and the isRequired of its options. *)
  parameterName : Options -> option string;
  parameterDescription : Options -> option string;
  parameterIsRequired : Options -> option bool;
  (** How [item.loadMapItems()] settles. *)
  loadMapItems : WebProcessingServiceCatalogItem -> Completion unit
}.

(** Modelled from the spec: the constructor of FunctionParameter and of its
    subclasses, [new Klass(catalogFunction, options)], whose files are not
    among the sources.  A parameter is a typed value holder: it is built
    for a catalog function, with the id and the converter of its options,
    and starts without a value ([k] is the class with the fields the
    subclass adds).  What becomes of the name, the description and the
    isRequired of the options is left to [Externals]. *)
Definition newParameter {ext : Externals}
  (cf : WebProcessingServiceCatalogFunction)
  (options : Options) (k : ParameterKind) : FunctionParameter :=
  {| catalogFunction := cf;
     id := opt_id options;
     name := parameterName options;
     description := parameterDescription options;
     isRequired := parameterIsRequired options;
     converter := opt_converter options;
     kind := k |}.

(** [parameter.value = v] on an object of class [k]: the class with that
    value, when the value is of the class's type. *)
Definition withValue (v : Value_t) (k : ParameterKind)
  : option ParameterKind :=
  match k, v with
  | EnumerationParameter possibleValues _, VString s =>
      Some (EnumerationParameter possibleValues (Some s))
  | StringParameter _, VString s => Some (StringParameter (Some s))
  | DateTimeParameter _, VString s => Some (DateTimeParameter (Some s))
  | PointParameter _, VPoint c => Some (PointParameter (Some c))
  | LineParameter _, VLine l => Some (LineParameter (Some l))
  | PolygonParameter _, VPolygon l => Some (PolygonParameter (Some l))
  | RectangleParameter crs _, VRectangle r =>
      Some (RectangleParameter crs (Some r))
  | GeoJsonParameter regionParameter _, VGeoJson g =>
      Some (GeoJsonParameter regionParameter (Some g))
  | _, _ => None
  end.

Definition setKind (p : FunctionParameter) (k : ParameterKind)
  : FunctionParameter :=
  {| catalogFunction := catalogFunction p;
     id := id p;
     name := name p;
     description := description p;
     isRequired := isRequired p;
     converter := converter p;
     kind := k |}.

(** The parameter objects with the values kept on them.  A kept value
    that is not of its parameter's type is outside the types of the
    source. *)
Fixpoint keepValues (values : list (option Value_t))
  (parameters : list FunctionParameter)
  : Completion (list FunctionParameter) :=
  match parameters, values with
  | [], _ => Normal []
  | _, [] => Normal parameters
  | p :: rest, None :: later =>
      kept <- keepValues later rest ;;
      Normal (p :: kept)
  | p :: rest, Some v :: later =>
      match withValue v (kind p) with
      | Some k =>
          kept <- keepValues later rest ;;
          Normal (setKind p k :: kept)
      | None => Untyped
      end
  end.

(* ================================================================== *)
(** ** [JSON.stringify] *)

Module JSON.

Definition hexDigit (n : nat) : string :=
  match n with
  | 0 => "0" | 1 => "1" | 2 => "2" | 3 => "3" | 4 => "4" | 5 => "5"
  | 6 => "6" | 7 => "7" | 8 => "8" | 9 => "9" | 10 => "a" | 11 => "b"
  | 12 => "c" | 13 => "d" | 14 => "e" | _ => "f"
  end%nat.

(** One character of a quoted JSON string. *)
Definition quoteChar (c : ascii) : string :=
  let n := nat_of_ascii c in
  if (n =? 34)%nat then "\" ++ JsString.dquote
  else if (n =? 92)%nat then "\\"
  else if (n =? 8)%nat then "\b"
  else if (n =? 9)%nat then "\t"
  else if (n =? 10)%nat then "\n"
  else if (n =? 12)%nat then "\f"
  else if (n =? 13)%nat then "\r"
  else if (n <? 32)%nat
       then "\u00" ++ hexDigit (n / 16) ++ hexDigit (n mod 16)
  else String c EmptyString.

Fixpoint quoteChars (s : string) : string :=
  match s with
  | EmptyString => EmptyString
  | String c rest => quoteChar c ++ quoteChars rest
  end.

Definition quote (s : string) : string :=
  JsString.dquote ++ quoteChars s ++ JsString.dquote.

(** A number: text for a finite one, [null] for NaN and the infinities. *)
Definition number {ext : Externals} (x : float) : string :=
  if is_finite x then numberToString x else "null".

Fixpoint stringify {ext : Externals} (v : JsonValue) : string :=
  match v with
  | JNull => "null"
  | JBool b => if b then "true" else "false"
  | JNumber x => number x
  | JString s => quote s
  | JArray items =>
      "[" ++
      (fix elements (l : list JsonValue) : string :=
         match l with
         | [] => EmptyString
         | x :: rest =>
             stringify x ++
             match rest with [] => EmptyString | _ => "," ++ elements rest end
         end) items
      ++ "]"
  | JObject members =>
      "{" ++
      (fix properties (l : list (string * JsonValue)) : string :=
         match l with
         | [] => EmptyString
         | (key, x) :: rest =>
             quote key ++ ":" ++ stringify x ++
             match rest with [] => EmptyString | _ => "," ++ properties rest end
         end) members
      ++ "}"
  end.

End JSON.

(* ================================================================== *)
(** ** PointParameter *)

Module PointParameter.

(** Get feature as geojson for display on map. *)
Definition getGeoJsonFeature {ext : Externals} (value : CartographicPoint)
  : JsonValue :=
  let coordinates :=
    [ toDegrees (longitude value);
      toDegrees (latitude value);
      height value ] in
  JObject
    [ ("type", JString "Feature");
      ("geometry",
        JObject [ ("type", JString "Point");
                  ("coordinates", JArray (map JNumber coordinates)) ]);
      ("properties", JObject []) ].

(** Process value so that it can be used in an URL. *)
Definition formatValueForUrl {ext : Externals} (value : CartographicPoint)
  : string :=
  JSON.stringify
    (JObject [ ("type", JString "FeatureCollection");
               ("features", JArray [getGeoJsonFeature value]) ]).

(** The computed property [geoJsonFeature] of an instance whose value is
    [this_value]. *)
Definition geoJsonFeature {ext : Externals} (this_value : option CartographicPoint)
  : option JsonValue :=
  match this_value with
  | Some v => Some (getGeoJsonFeature v)
  | None => None
  end.

End PointParameter.

(* ================================================================== *)
(** ** WebProcessingServiceCatalogFunction *)

(** A converter of the registry.  [ref] is the identity of the object, the
    value a parameter's [converter] field holds. *)
Record ParameterConverter := {
  ref : ConverterRef;
  inputToParameter :
    WebProcessingServiceCatalogFunction -> Input -> Options ->
    option FunctionParameter;
  parameterToInput : FunctionParameter -> Completion (option WpsInputData)
}.

(** A parameter class handed to [simpleGeoJsonDataConverter]: its
    constructor and its static [formatValueForUrl]. *)
Record ParameterClass := {
  construct :
    WebProcessingServiceCatalogFunction -> Options -> FunctionParameter;
  formatValueForUrl : option Value_t -> Completion (option string)
}.

Section WebProcessingService.

Context {ext : Externals}.

Definition mailto (wps : WebProcessingServiceCatalogFunction) : string :=
  "<a href=" ++ JsString.dquote ++ "mailto:" ++ supportEmail (terria wps)
  ++ JsString.dquote ++ ">" ++ supportEmail (terria wps) ++ "</a>.".

Definition invalidWpsServerError
  (wps : WebProcessingServiceCatalogFunction) (endpoint : string)
  : TerriaError :=
  {| title := i18next_t "models.webProcessingService.invalidWPSServerTitle" [];
     message :=
       i18next_t "models.webProcessingService.invalidWPSServerMessage"
         [ ("name", cf_name wps);
           ("email", Some (mailto wps));
           ("endpoint", Some endpoint) ] |}.

Definition throwInvalidWpsServerError {A : Type}
  (wps : WebProcessingServiceCatalogFunction) (endpoint : string)
  : Completion A :=
  Throw (ThrowTerriaError (invalidWpsServerError wps endpoint)).

(* ------------------------------------------------------------------ *)
(** *** The converters *)

Definition LiteralDataConverter : ParameterConverter :=
  {| ref := RefLiteralData;
     inputToParameter := fun catalogFunction input options =>
       match LiteralData input with
       | None => None
       | Some literalData =>
           let allowedValues :=
             match AllowedValues literalData with
             | Some a => Some a
             | None => AllowedValue literalData
             end in
           match allowedValues with
           | Some {| Value := Some values |} =>
               Some (newParameter catalogFunction options
                       (EnumerationParameter (asArray values) None))
           | _ =>
               if isDefined (AnyValue literalData)
               then Some (newParameter catalogFunction options
                            (StringParameter None))
               else None
           end
       end;
     parameterToInput := fun parameter =>
       match kind parameter with
       | EnumerationParameter _ v | StringParameter v | DateTimeParameter v =>
           Normal (Some {| inputValue := v; inputType := "LiteralData" |})
       | _ => Untyped
       end |}.

(** [input.ComplexData.Default.Format.Schema], [None] as soon as one of
    the four is undefined. *)
Definition complexDataSchema (input : Input) : option string :=
  match ComplexData input with
  | None => None
  | Some complexData =>
      match Default complexData with
      | None => None
      | Some default =>
          match Format default with
          | None => None
          | Some format => Schema format
          end
      end
  end.

Definition DateTimeConverter : ParameterConverter :=
  {| ref := RefDateTime;
     inputToParameter := fun catalogFunction input options =>
       match complexDataSchema input with
       | None => None
       | Some schema =>
           if negb (schema =? "http://www.w3.org/TR/xmlschema-2/#dateTime")%string
           then None
           else Some (newParameter catalogFunction options
                        (DateTimeParameter None))
       end;
     parameterToInput := fun parameter =>
       match kind parameter with
       | EnumerationParameter _ v | StringParameter v | DateTimeParameter v =>
           let text :=
             match JsString.orElse v (Some EmptyString) with
             | Some s => s
             | None => EmptyString
             end in
           inputValue <- DateTimeParameter_formatValueForUrl text ;;
           Normal (Some {| inputType := "ComplexData";
                           inputValue := inputValue |})
       | _ => Untyped
       end |}.

Definition simpleGeoJsonDataConverter (schemaType : string)
  (klass : ParameterClass) (self : ConverterRef) : ParameterConverter :=
  {| ref := self;
     inputToParameter := fun catalogFunction input options =>
       match complexDataSchema input with
       | None => None
       | Some schema =>
           if negb (JsString.indexOf schema
                      "http://geojson.org/geojson-spec.html#" =? 0)
           then None
           else if negb (JsString.substringFrom schema
                           (JsString.lastIndexOf schema "#" + 1)
                         =? schemaType)%string
           then None
           else Some (construct klass catalogFunction options)
       end;
     parameterToInput := fun parameter =>
       inputValue <- formatValueForUrl klass (value parameter) ;;
       Normal (Some {| inputType := "ComplexData";
                       inputValue := inputValue |}) |}.

(** The three classes passed to [simpleGeoJsonDataConverter].  Reading
    [value.longitude] of an undefined value is a TypeError. *)
Definition PointParameter_class : ParameterClass :=
  {| construct := fun cf options =>
       newParameter cf options (PointParameter None);
     formatValueForUrl := fun v =>
       match v with
       | Some (VPoint p) => Normal (Some (PointParameter.formatValueForUrl p))
       | None =>
           Throw (ThrowTypeError
                    "Cannot read property 'longitude' of undefined")
       | Some _ => Untyped
       end |}.

Definition LineParameter_class : ParameterClass :=
  {| construct := fun cf options =>
       newParameter cf options (LineParameter None);
     formatValueForUrl := fun v =>
       match v with
       | Some (VLine l) => LineParameter_formatValueForUrl (Some l)
       | None => LineParameter_formatValueForUrl None
       | Some _ => Untyped
       end |}.

Definition PolygonParameter_class : ParameterClass :=
  {| construct := fun cf options =>
       newParameter cf options (PolygonParameter None);
     formatValueForUrl := fun v =>
       match v with
       | Some (VPolygon l) => PolygonParameter_formatValueForUrl (Some l)
       | None => PolygonParameter_formatValueForUrl None
       | Some _ => Untyped
       end |}.

Definition PointConverter : ParameterConverter :=
  simpleGeoJsonDataConverter "point" PointParameter_class RefPoint.

Definition LineConverter : ParameterConverter :=
  simpleGeoJsonDataConverter "linestring" LineParameter_class RefLine.

Definition PolygonConverter : ParameterConverter :=
  simpleGeoJsonDataConverter "polygon" PolygonParameter_class RefPolygon.

(** [code === Reproject.TERRIA_CRS] *)
Definition isTerriaCrs (code : option string) : bool :=
  match code with
  | Some c => (c =? TERRIA_CRS)%string
  | None => false
  end.

(** The loop over [Supported.CRS]: the first entry whose code is Terria's. *)
Fixpoint firstTerriaCrs (supported : list string) : option string :=
  match supported with
  | [] => None
  | crs :: rest =>
      if isTerriaCrs (crsStringToCode crs) then Some crs
      else firstTerriaCrs rest
  end.

(** [CRS[i]] for [i] below [CRS.length]: the entries of an array, the
    characters of a string. *)
Definition indexed (crs : OneOrMany string) : list string :=
  match crs with
  | Many entries => entries
  | One text =>
      map (fun c => String c EmptyString) (list_ascii_of_string text)
  end.

Definition supportedCrsList (b : BoundingBoxData_t) : option (list string) :=
  match Supported b with
  | None => None
  | Some s => option_map indexed (Supported_CRS s)
  end.

Definition RectangleConverter : ParameterConverter :=
  {| ref := RefRectangle;
     inputToParameter := fun catalogFunction input options =>
       match BoundingBoxData input with
       | None => None
       | Some boundingBoxData =>
           match BoundingBox_Default boundingBoxData with
           | None => None
           | Some default =>
               match Default_CRS default with
               | None => None
               | Some defaultCrs =>
                   let code := crsStringToCode defaultCrs in
                   let usedCrs := defaultCrs in
                   let '(code, usedCrs) :=
                     if negb (isTerriaCrs code)
                     then match supportedCrsList boundingBoxData with
                          | None => (code, usedCrs)
                          | Some supported =>
                              match firstTerriaCrs supported with
                              | Some crs => (Some TERRIA_CRS, crs)
                              | None => (code, usedCrs)
                              end
                          end
                     else (code, usedCrs) in
                   if negb (isDefined code) then None
                   else Some (newParameter catalogFunction options
                                (RectangleParameter usedCrs None))
               end
           end
       end;
     parameterToInput := fun functionParameter =>
       match kind functionParameter with
       | RectangleParameter crs v =>
           match v with
           | None => Normal None
           | Some value =>
               let '(bboxMinCoord1, bboxMinCoord2,
                     bboxMaxCoord1, bboxMaxCoord2, urn) :=
                 if negb (JsString.indexOf crs "crs84" =? -1)
                 then (toDegrees (west value), toDegrees (south value),
                       toDegrees (east value), toDegrees (north value),
                       "urn:ogc:def:crs:OGC:1.3:CRS84")
                 else (toDegrees (south value), toDegrees (west value),
                       toDegrees (north value), toDegrees (east value),
                       "urn:ogc:def:crs:EPSG:6.6:4326") in
               Normal (Some
                 {| inputType := "BoundingBoxData";
                    inputValue := Some
                      (numberToString bboxMinCoord1 ++ "," ++
                       numberToString bboxMinCoord2 ++ "," ++
                       numberToString bboxMaxCoord1 ++ "," ++
                       numberToString bboxMaxCoord2 ++ "," ++
                       urn) |})
           end
       | _ => Untyped
       end |}.

Definition GeoJsonGeometryConverter : ParameterConverter :=
  {| ref := RefGeoJsonGeometry;
     inputToParameter := fun catalogFunction input options =>
       match complexDataSchema input with
       | None => None
       | Some schema =>
           if negb (JsString.indexOf schema
                      "http://geojson.org/geojson-spec.html#" =? 0)
           then None
           else
             let regionTypeParameter :=
               {| rt_id := "regionType";
                  rt_name := "Region Type";
                  rt_description := "The type of region to analyze.";
                  rt_converter := None |} in
             let regionParameter :=
               {| rp_id := "regionParameter";
                  rp_name := "Region Parameter";
                  regionProvider := regionTypeParameter;
                  rp_converter := None |} in
             Some (newParameter catalogFunction options
                     (GeoJsonParameter regionParameter None))
       end;
     parameterToInput := fun parameter =>
       match kind parameter with
       | GeoJsonParameter _ v =>
           match v with
           | None | Some Null => Normal None
           | Some (NonNull g) => getProcessedValue parameter g
           end
       | _ => Untyped
       end |}.

Definition parameterConverters : list ParameterConverter :=
  [ LiteralDataConverter;
    DateTimeConverter;
    PointConverter;
    LineConverter;
    PolygonConverter;
    RectangleConverter;
    GeoJsonGeometryConverter ].

(** The object a parameter's [converter] field points at. *)
Definition converterOf (r : ConverterRef) : ParameterConverter :=
  match r with
  | RefLiteralData => LiteralDataConverter
  | RefDateTime => DateTimeConverter
  | RefPoint => PointConverter
  | RefLine => LineConverter
  | RefPolygon => PolygonConverter
  | RefRectangle => RectangleConverter
  | RefGeoJsonGeometry => GeoJsonGeometryConverter
  end.

(* ------------------------------------------------------------------ *)
(** *** The class *)

Definition proxyCacheDuration : string := "1d".

(** Returns the proxied URL for the DescribeProcess endpoint. *)
Definition describeProcessUrl (this : WebProcessingServiceCatalogFunction)
  : option string :=
  match url this, identifier this with
  | Some u, Some ident =>
      let uri :=
        URI_query u [ ("service", "WPS");
                      ("request", "DescribeProcess");
                      ("version", "1.0.0");
                      ("Identifier", ident) ] in
      Some (proxyCatalogItemUrl this uri proxyCacheDuration)
  | _, _ => None
  end.

(** Returns the proxied URL for the Execute endpoint. *)
Definition executeUrl (this : WebProcessingServiceCatalogFunction)
  : option string :=
  match url this with
  | None => None
  | Some u =>
      let uri :=
        URI_query u [ ("service", "WPS");
                      ("request", "Execute");
                      ("version", "1.0.0") ] in
      Some (proxyCatalogItemUrl this uri proxyCacheDuration)
  end.

(** The document, unless
    [!isDefined(xml) || !isDefined(xml.documentElement) ||
     xml.documentElement.localName !== rootName]. *)
Definition documentWithRoot (rootName : string) (xml : option XmlDocument)
  : option XmlDocument :=
  match xml with
  | None => None
  | Some doc =>
      match documentElement doc with
      | None => None
      | Some root =>
          if negb (localName root =? rootName)%string then None
          else Some doc
      end
  end.

(** [this.processDescription = pd]: the function parameters are computed
    anew from it, as new objects with no value kept yet. *)
Definition setProcessDescription
  (this : WebProcessingServiceCatalogFunction)
  (pd : option ProcessDescription_t) : WebProcessingServiceCatalogFunction :=
  {| url := url this;
     identifier := identifier this;
     cf_name := cf_name this;
     terria := terria this;
     processDescription := pd;
     keptValues := [] |}.

(** [forceLoadMetadata]: [loaded] is what [getXml] settles with.  The
    result is the requests made and the catalog function afterwards. *)
Definition forceLoadMetadata (this : WebProcessingServiceCatalogFunction)
  (loaded : Completion (option XmlDocument))
  : list Event * Completion WebProcessingServiceCatalogFunction :=
  match describeProcessUrl this with
  | None => ([], Normal this)
  | Some describeProcessUrl =>
      ([GetXml describeProcessUrl],
       xml <- loaded ;;
       match documentWithRoot "ProcessDescriptions" xml with
       | None => throwInvalidWpsServerError this "DescribeProcess"
       | Some doc =>
           let json := xml2json doc in
           if negb (isDefined (ProcessDescription json))
           then Throw (ThrowTerriaError
                  {| title := i18next_t
                       "models.webProcessingService.processDescriptionErrorTitle" [];
                     message := i18next_t
                       "models.webProcessingService.processDescriptionErrorMessage" [] |})
           else Normal (setProcessDescription this (ProcessDescription json))
       end)
  end.

(** Indicates if the output can be stored by the WPS server and be
    accessed via a URL. *)
Definition storeSupported (this : WebProcessingServiceCatalogFunction) : bool :=
  match processDescription this with
  | None => false
  | Some pd =>
      match pd_storeSupported pd with
      | Some s => (s =? "true")%string
      | None => false
      end
  end.

(** Indicates if Execute operation can return just the status information
    and perform the actual operation asynchronously. *)
Definition statusSupported (this : WebProcessingServiceCatalogFunction) : bool :=
  match processDescription this with
  | None => false
  | Some pd =>
      match pd_statusSupported pd with
      | Some s => (s =? "true")%string
      | None => false
      end
  end.

(** Return the inputs in the processDescription *)
Definition inputs (this : WebProcessingServiceCatalogFunction)
  : Completion (list Input) :=
  match processDescription this with
  | None => Normal []
  | Some pd =>
      match DataInputs pd with
      | Some {| DataInputs_Input := Some input |} => Normal (asArray input)
      | _ =>
          Throw (ThrowTerriaError
            {| title := i18next_t
                 "models.webProcessingService.processInputErrorTitle" [];
               message := i18next_t
                 "models.webProcessingService.processInputErrorMessage" [] |})
      end
  end.

(** The loop of [convertInputToParameter] over the registry. *)
Fixpoint firstParameter (catalogFunction : WebProcessingServiceCatalogFunction)
  (input : Input) (options : ParameterConverter -> Options)
  (converters : list ParameterConverter) : option FunctionParameter :=
  match converters with
  | [] => None
  | converter :: rest =>
      match inputToParameter converter catalogFunction input
              (options converter) with
      | Some parameter => Some parameter
      | None => firstParameter catalogFunction input options rest
      end
  end.

Definition optionsFor (input : Input) (identifier : string)
  (converter : ParameterConverter) : Options :=
  let isRequired :=
    match minOccurs input with
    | Some n => n >? 0
    | None => false
    end in
  {| opt_id := identifier;
     opt_name := Name input;
     opt_description := Abstract input;
     opt_isRequired := Some isRequired;
     opt_converter := Some (ref converter) |}.

Definition convertInputToParameter
  (this catalogFunction : WebProcessingServiceCatalogFunction)
  (input : Input) : option FunctionParameter :=
  match Identifier input with
  | None => None
  | Some identifier =>
      firstParameter catalogFunction input (optionsFor input identifier)
        parameterConverters
  end.

(** [`The parameter ${input.Identifier} is not a supported type of
    parameter.`] *)
Definition unsupportedParameterError (input : Input) : TerriaError :=
  {| title := "Unsupported parameter type";
     message :=
       "The parameter " ++
       match Identifier input with Some i => i | None => "undefined" end ++
       " is not a supported type of parameter." |}.

(** Maps the input to function parameters.

    We keepAlive because the parameter properties could be modified by
    UI that can come and go, but we want those modifications to persist:
    the objects made from the inputs are returned with the values kept
    on them. *)
Definition functionParameters (this : WebProcessingServiceCatalogFunction)
  : Completion (list FunctionParameter) :=
  inputs <- inputs this ;;
  parameters <-
    mapM (fun input =>
            match convertInputToParameter this this input with
            | Some parameter => Normal parameter
            | None => Throw (ThrowTerriaError (unsupportedParameterError input))
            end)
         inputs ;;
  keepValues (keptValues this) parameters.

(** Performs the Execute request for the WPS process.  Nothing follows
    the guard in the source. *)
Definition invoke (this : WebProcessingServiceCatalogFunction)
  : list Event * Settled :=
  if negb (isDefined (identifier this)) || negb (isDefined (executeUrl this))
  then ([], Fulfilled)
  else ([], Fulfilled).

Definition convertParameterToInput (parameter : FunctionParameter)
  : Completion (option WpsInput) :=
  match converter parameter with
  | None =>
      Throw (ThrowTypeError
               "Cannot read property 'parameterToInput' of undefined")
  | Some r =>
      result <- parameterToInput (converterOf r) parameter ;;
      match result with
      | None => Normal None
      | Some result =>
          match inputValue result with
          | None => Normal None
          | Some inputValue =>
              Normal (Some {| wi_inputIdentifier := id parameter;
                              wi_inputValue := inputValue;
                              wi_inputType := inputType result |})
          end
      end
  end.

(** [p.geoJsonFeature] *)
Definition geoJsonFeature (p : FunctionParameter) : option JsonValue :=
  match kind p with
  | PointParameter v => PointParameter.geoJsonFeature v
  | _ => inheritedGeoJsonFeature p
  end.

Definition createCatalogItem (this : WebProcessingServiceCatalogFunction)
  (pendingItem : CatalogFunctionJob) (wpsResponse : Json)
  : Completion WebProcessingServiceCatalogItem :=
  let id := "result-" ++ job_uniqueId pendingItem in
  parameters <- functionParameters this ;;
  let parameterTraits :=
    map (fun p =>
           {| pt_name := name p;
              pt_value := formatValueAsString p;
              pt_geoJsonFeature := geoJsonFeature p |})
        parameters in
  Normal {| item_uniqueId := id;
            item_name := job_name pendingItem;
            item_description := job_description pendingItem;
            item_wpsResponse := Some wpsResponse;
            item_parameters := parameterTraits |}.

Definition invalidResponseError (this : WebProcessingServiceCatalogFunction)
  : TerriaError :=
  {| title := i18next_t
       "models.webProcessingService.invalidResponseErrorTitle" [];
     message := i18next_t
       "models.webProcessingService.invalidResponseErrorMessage"
       [ ("name", cf_name this); ("email", Some (mailto this)) ] |}.

Definition rejectedBy {A : Type} (c : Completion A) : Settled :=
  match c with
  | Normal _ => Fulfilled
  | Throw e => Rejected e
  | Untyped => Unmodelled
  end.

(** Handle the Execute response.

    [xml] is the document received and [contains] whether the workbench
    holds [pendingItem] at that moment; [rounds] is what the outside
    world does at each later poll.  The result is what the call did, in
    order, and how its promise settles.  The load of the result item is
    awaited: when it is rejected the call is rejected with it, before
    the workbench is touched. *)
Fixpoint handleExecuteResponse (this : WebProcessingServiceCatalogFunction)
  (rounds : list Round) (xml : option XmlDocument)
  (pendingItem : CatalogFunctionJob) (contains : bool)
  : list Event * Settled :=
  match documentWithRoot "ExecuteResponse" xml with
  | None =>
      ([], rejectedBy (@throwInvalidWpsServerError unit this "ExecuteResponse"))
  | Some doc =>
        let json := xml2json doc in
        match Status json with
        | None => ([], Rejected (ThrowTerriaError (invalidResponseError this)))
        | Some status =>
            match ProcessFailed status with
            | Some failed =>
                let e :=
                  match ExceptionReport failed with
                  | Some report => Exception_ report
                  | None => None
                  end in
                let text :=
                  JsString.orElse
                    (match e with Some e => ExceptionText e | None => None end)
                    (match e with Some e => Exception_Exception e | None => None end) in
                ([SetErrorOnPendingItem pendingItem text], Fulfilled)
            | None =>
                if isDefined (ProcessSucceeded status) then
                  match createCatalogItem this pendingItem json with
                  | Normal item =>
                      match loadMapItems item with
                      | Normal _ =>
                          ([LoadMapItems item; WorkbenchAdd item;
                            WorkbenchRemove pendingItem], Fulfilled)
                      | failure => ([LoadMapItems item], rejectedBy failure)
                      end
                  | failure => ([], rejectedBy failure)
                  end
                else
                  match statusLocation json with
                  | Some location =>
                      if contains then
                        let scheduled :=
                          [RunLater 500; GetXml location;
                           SetLoadPromise pendingItem location] in
                        match rounds with
                        | [] => (scheduled, AwaitingReply)
                        | round :: later =>
                            match reply round with
                            | Normal xml' =>
                                let '(events, settled) :=
                                  handleExecuteResponse this later xml'
                                    pendingItem (workbenchContains round) in
                                ((scheduled ++ events)%list, settled)
                            | failure => (scheduled, rejectedBy failure)
                            end
                        end
                      else ([], Fulfilled)
                  | None => ([], Fulfilled)
                  end
            end
        end
  end.

End WebProcessingService.

(* ================================================================== *)
(** ** Escaping text for HTML *)

(** [text.replace(/c/g, replacement)] for a pattern of one character. *)
Fixpoint replaceAll (c : ascii) (replacement : string) (text : string)
  : string :=
  match text with
  | EmptyString => EmptyString
  | String x rest =>
      (if Ascii.eqb x c then replacement else String x EmptyString)
      ++ replaceAll c replacement rest
  end.

Definition htmlEscapeText (text : string) : string :=
  replaceAll ">" "&gt;"
    (replaceAll "<" "&lt;"
       (replaceAll "&" "&amp;" text)).

(* ================================================================== *)
(** ** A concrete outside world, for the examples *)

Definition childNamed (name : string) (children : list XmlElement)
  : option XmlElement :=
  find (fun c => (localName c =? name)%string) children.

Definition attributeNamed (name : string) (attributes : list (string * string))
  : option string :=
  option_map snd (find (fun kv => (fst kv =? name)%string) attributes).

(** Three inputs: a free-text literal, a bounding box and a point. *)
Definition distanceInput : Input :=
  {| Identifier := Some "distance";
     Name := Some "Distance";
     Abstract := None;
     LiteralData := Some {| AllowedValues := None;
                            AllowedValue := None;
                            AnyValue := Some EmptyString |};
     ComplexData := None;
     BoundingBoxData := None;
     minOccurs := Some 1 |}.

Definition extentInput : Input :=
  {| Identifier := Some "extent";
     Name := Some "Extent";
     Abstract := None;
     LiteralData := None;
     ComplexData := None;
     BoundingBoxData :=
       Some {| BoundingBox_Default :=
                 Some {| Default_CRS := Some "urn:ogc:def:crs:OGC:1.3:crs84" |};
               Supported := None |};
     minOccurs := Some 0 |}.

Definition locationInput : Input :=
  {| Identifier := Some "location";
     Name := None;
     Abstract := None;
     LiteralData := None;
     ComplexData :=
       Some {| Default := Some {| Format := Some
                 {| Schema := Some "http://geojson.org/geojson-spec.html#point" |} |} |};
     BoundingBoxData := None;
     minOccurs := None |}.

(** An input in an encoding no converter knows. *)
Definition gmlInput : Input :=
  {| Identifier := Some "zones";
     Name := None;
     Abstract := None;
     LiteralData := None;
     ComplexData :=
       Some {| Default := Some {| Format := Some
                 {| Schema := Some "http://schemas.opengis.net/gml/3.1.1/base/gml.xsd" |} |} |};
     BoundingBoxData := None;
     minOccurs := None |}.

Definition sampleProcessDescription : ProcessDescription_t :=
  {| DataInputs := Some {| DataInputs_Input :=
                             Some (Many [distanceInput; extentInput; locationInput]) |};
     pd_storeSupported := Some "true";
     pd_statusSupported := Some "true" |}.

(** Reads the few elements the class looks at off the document. *)
Definition sample_xml2json (doc : XmlDocument) : Json :=
  match documentElement doc with
  | None => {| ProcessDescription := None; Status := None; statusLocation := None |}
  | Some (Element _ attributes children) =>
      {| ProcessDescription :=
           match childNamed "ProcessDescription" children with
           | Some _ => Some sampleProcessDescription
           | None => None
           end;
         Status :=
           match childNamed "Status" children with
           | Some (Element _ _ inside) =>
               Some {| ProcessFailed :=
                         match childNamed "ProcessFailed" inside with
                         | Some _ => Some {| ExceptionReport := None |}
                         | None => None
                         end;
                       ProcessSucceeded :=
                         match childNamed "ProcessSucceeded" inside with
                         | Some _ => Some EmptyString
                         | None => None
                         end |}
           | None => None
           end;
         statusLocation := attributeNamed "statusLocation" attributes |}
  end.

Fixpoint sample_query (parameters : list (string * string)) : string :=
  match parameters with
  | [] => EmptyString
  | (k, v) :: rest =>
      k ++ "=" ++ v ++
      match rest with [] => EmptyString | _ => "&" ++ sample_query rest end
  end.

Definition sample_crsStringToCode (crs : string) : option string :=
  if (JsString.indexOf crs "EPSG:" =? 0) then Some crs
  else if negb (JsString.indexOf crs "crs84" =? -1) then Some "EPSG:4326"
  else None.

(** A positive number [m * 2^e] written out in full in decimal. *)
Definition sample_decimal (m : positive) (e : Z) : string :=
  if 0 <=? e
  then NilZero.string_of_uint (N.to_uint (Npos m * 2 ^ Z.to_N e))
  else
    let shared := N.gcd (Npos m) (2 ^ Z.to_N (- e)) in
    let numerator := (Npos m / shared)%N in
    let k := (Z.to_N (- e) - N.log2 shared)%N in
    let whole := (numerator / 2 ^ k)%N in
    let rest := (numerator mod 2 ^ k)%N in
    if (rest =? 0)%N then NilZero.string_of_uint (N.to_uint whole)
    else
      let digits := NilZero.string_of_uint (N.to_uint (rest * 5 ^ k)) in
      NilZero.string_of_uint (N.to_uint whole) ++ "." ++
      String.concat EmptyString
        (repeat "0" (N.to_nat k - String.length digits)) ++ digits.

Definition sample_numberToString (x : float) : string :=
  match Prim2SF x with
  | S754_zero _ => "0"
  | S754_infinity s => if s then "-Infinity" else "Infinity"
  | S754_nan => "NaN"
  | S754_finite s m e => (if s then "-" else EmptyString) ++ sample_decimal m e
  end.

#[export] Instance sampleExternals : Externals :=
  {| xml2json := sample_xml2json;
     i18next_t := fun key _ => key;
     URI_query := fun url parameters => url ++ "?" ++ sample_query parameters;
     proxyCatalogItemUrl := fun _ url _ => url;
     crsStringToCode := sample_crsStringToCode;
     TERRIA_CRS := "EPSG:4326";
     toDegrees := fun radians => (radians * (180 / 0x1.921fb54442d18p+1))%float;
     numberToString := sample_numberToString;
     formatValueAsString := fun p =>
       match value p with
       | Some (VString s) => s
       | _ => EmptyString
       end;
     inheritedGeoJsonFeature := fun _ => None;
     DateTimeParameter_formatValueForUrl := fun s => Normal (Some s);
     LineParameter_formatValueForUrl := fun _ => Normal None;
     PolygonParameter_formatValueForUrl := fun _ => Normal None;
     getProcessedValue := fun _ _ => Normal None;
     parameterName := fun options =>
       Some match opt_name options with
            | Some n => n
            | None => opt_id options
            end;
     parameterDescription := fun options =>
       Some match opt_description options with
            | Some d => d
            | None => EmptyString
            end;
     parameterIsRequired := opt_isRequired;
     loadMapItems := fun _ => Normal tt |}.

Definition sampleFunction : WebProcessingServiceCatalogFunction :=
  {| url := Some "http://example.com/wps";
     identifier := Some "buffer";
     cf_name := Some "Buffer";
     terria := {| supportEmail := "support@example.com" |};
     processDescription := Some sampleProcessDescription;
     keptValues := [] |}.

Definition sampleJob : CatalogFunctionJob :=
  {| job_uniqueId := "job-1";
     job_name := Some "Buffer 1";
     job_description := Some "Buffer around a point" |}.

(** ExecuteResponse documents: accepted (still running), succeeded,
    failed, one that carries both outcomes, and a foreign document. *)
Definition executeResponse (location : list (string * string))
  (outcome : list XmlElement) : XmlDocument :=
  {| documentElement :=
       Some (Element "ExecuteResponse" location
               [Element "Status" [] outcome]) |}.

Definition statusAt : list (string * string) :=
  [("statusLocation", "http://example.com/status/1")].

Definition acceptedResponse : XmlDocument :=
  executeResponse statusAt [Element "ProcessAccepted" [] []].

Definition startedResponse : XmlDocument :=
  executeResponse [("statusLocation", "http://example.com/status/2")]
    [Element "ProcessStarted" [] []].

Definition succeededResponse : XmlDocument :=
  executeResponse statusAt [Element "ProcessSucceeded" [] []].

Definition failedResponse : XmlDocument :=
  executeResponse statusAt [Element "ProcessFailed" [] []].


Definition exceptionReport : XmlDocument :=
  {| documentElement := Some (Element "ExceptionReport" [] []) |}.

Definition describeResponse : XmlDocument :=
  {| documentElement :=
       Some (Element "ProcessDescriptions" []
               [Element "ProcessDescription" [] []]) |}.

(** The whole globe, in radians, and the rectangle parameter the extent
    input gives once that value is set. *)
Definition wholeGlobe : Rectangle :=
  {| west := (- 0x1.921fb54442d18p+1)%float;
     south := (- 0x1.921fb54442d18p+0)%float;
     east := 0x1.921fb54442d18p+1%float;
     north := 0x1.921fb54442d18p+0%float |}.

Definition extentOptions : Options :=
  {| opt_id := "extent";
     opt_name := Some "Extent";
     opt_description := None;
     opt_isRequired := Some false;
     opt_converter := Some RefRectangle |}.

Definition extentParameter (v : option Rectangle) : FunctionParameter :=
  newParameter sampleFunction extentOptions
    (RectangleParameter "urn:ogc:def:crs:OGC:1.3:crs84" v).

(** The item that stands for the result of the sample job. *)
Definition sampleResultItem : WebProcessingServiceCatalogItem :=
  {| item_uniqueId := "result-job-1";
     item_name := Some "Buffer 1";
     item_description := Some "Buffer around a point";
     item_wpsResponse :=
       Some {| ProcessDescription := None;
               Status := Some {| ProcessFailed := None;
                                 ProcessSucceeded := Some EmptyString |};
               statusLocation := Some "http://example.com/status/1" |};
     item_parameters :=
       [ {| pt_name := Some "Distance";
            pt_value := EmptyString;
            pt_geoJsonFeature := None |};
         {| pt_name := Some "Extent";
            pt_value := EmptyString;
            pt_geoJsonFeature := None |};
         {| pt_name := Some "location";
            pt_value := EmptyString;
            pt_geoJsonFeature := None |} ] |}.

(** The sample function after a distance and a location have been chosen
    in the UI. *)
Definition valuedFunction : WebProcessingServiceCatalogFunction :=
  {| url := url sampleFunction;
     identifier := identifier sampleFunction;
     cf_name := cf_name sampleFunction;
     terria := terria sampleFunction;
     processDescription := processDescription sampleFunction;
     keptValues :=
       [ Some (VString "2.5");
         None;
         Some (VPoint {| longitude := 0.5; latitude := 0.25;
                         height := 0 |}) ] |}.




(** A bounding box offered in a projected CRS by default, with Terria's
    CRS among the supported ones. *)
Definition projectedExtentInput : Input :=
  {| Identifier := Some "extent";
     Name := Some "Extent";
     Abstract := None;
     LiteralData := None;
     ComplexData := None;
     BoundingBoxData :=
       Some {| BoundingBox_Default :=
                 Some {| Default_CRS := Some "EPSG:3857" |};
               Supported :=
                 Some {| Supported_CRS :=
                           Some (Many [ "EPSG:28355"; "EPSG:4326";
                                        "urn:ogc:def:crs:OGC:1.3:crs84" ]) |} |};
     minOccurs := Some 0 |}.

(** The same bounding box from a service that supports one other CRS,
    Terria's: xml2json hands the lone [CRS] child over as a string. *)
Definition loneCrsExtentInput : Input :=
  {| Identifier := Some "extent";
     Name := Some "Extent";
     Abstract := None;
     LiteralData := None;
     ComplexData := None;
     BoundingBoxData :=
       Some {| BoundingBox_Default :=
                 Some {| Default_CRS := Some "EPSG:3857" |};
               Supported :=
                 Some {| Supported_CRS := Some (One "EPSG:4326") |} |};
     minOccurs := Some 0 |}.

(** The sample function with a process whose second input is GML. *)
Definition gmlFunction : WebProcessingServiceCatalogFunction :=
  setProcessDescription sampleFunction
    (Some {| DataInputs :=
               Some {| DataInputs_Input :=
                         Some (Many [distanceInput; gmlInput; extentInput]) |};
             pd_storeSupported := None;
             pd_statusSupported := None |}).

(** The parameters of the sample function, as made from its inputs. *)
Definition sampleParameters : list FunctionParameter :=
  [ newParameter sampleFunction
      (optionsFor distanceInput "distance" LiteralDataConverter)
      (StringParameter None);
    newParameter sampleFunction
      (optionsFor extentInput "extent" RectangleConverter)
      (RectangleParameter "urn:ogc:def:crs:OGC:1.3:crs84" None);
    newParameter sampleFunction
      (optionsFor locationInput "location" PointConverter)
      (PointParameter None) ].

(* ================================================================== *)
(** ** Vocabulary of the properties *)

(** The parameter classes. *)
Inductive Variant :=
| Enumeration
| FreeText
| DateTime
| Point
| Line
| Polygon
| BoundingBox
| GeoJson.

Definition variantOf (k : ParameterKind) : Variant :=
  match k with
  | EnumerationParameter _ _ => Enumeration
  | StringParameter _ => FreeText
  | DateTimeParameter _ => DateTime
  | PointParameter _ => Point
  | LineParameter _ => Line
  | PolygonParameter _ => Polygon
  | RectangleParameter _ _ => BoundingBox
  | GeoJsonParameter _ _ => GeoJson
  end.

(** The variants each registry entry constructs. *)
Definition variantsOf (r : ConverterRef) : list Variant :=
  match r with
  | RefLiteralData => [Enumeration; FreeText]
  | RefDateTime => [DateTime]
  | RefPoint => [Point]
  | RefLine => [Line]
  | RefPolygon => [Polygon]
  | RefRectangle => [BoundingBox]
  | RefGeoJsonGeometry => [GeoJson]
  end.

(** A parameter with its value taken away: what it was when created. *)
Definition clearKind (k : ParameterKind) : ParameterKind :=
  match k with
  | EnumerationParameter possibleValues _ =>
      EnumerationParameter possibleValues None
  | StringParameter _ => StringParameter None
  | DateTimeParameter _ => DateTimeParameter None
  | PointParameter _ => PointParameter None
  | LineParameter _ => LineParameter None
  | PolygonParameter _ => PolygonParameter None
  | RectangleParameter crs _ => RectangleParameter crs None
  | GeoJsonParameter regionParameter _ => GeoJsonParameter regionParameter None
  end.

Definition clearValue (p : FunctionParameter) : FunctionParameter :=
  {| catalogFunction := catalogFunction p;
     id := id p;
     name := name p;
     description := description p;
     isRequired := isRequired p;
     converter := converter p;
     kind := clearKind (kind p) |}.

(** The wire type the specification gives for each converter. *)
Definition wireType (r : ConverterRef) : string :=
  match r with
  | RefLiteralData => "LiteralData"
  | RefDateTime | RefPoint | RefLine | RefPolygon | RefGeoJsonGeometry =>
      "ComplexData"
  | RefRectangle => "BoundingBoxData"
  end.

(** The input encodings, in the specification's words: LiteralData with
    enumerations, the dateTime ComplexData schema, a GeoJSON geometry
    ComplexData schema, BoundingBoxData. *)
Definition hasEnumeration (input : Input) : bool :=
  match LiteralData input with
  | None => false
  | Some literalData =>
      match AllowedValues literalData with
      | Some a => isDefined (Value a)
      | None => false
      end
      || match AllowedValue literalData with
         | Some a => isDefined (Value a)
         | None => false
         end
  end.

Definition hasSchema (test : string -> bool) (input : Input) : bool :=
  match complexDataSchema input with
  | Some schema => test schema
  | None => false
  end.

Definition listedEncoding (input : Input) : bool :=
  hasEnumeration input
  || hasSchema (String.eqb "http://www.w3.org/TR/xmlschema-2/#dateTime") input
  || hasSchema (prefix "http://geojson.org/geojson-spec.html#") input
  || isDefined (BoundingBoxData input).

(** LiteralData that allows any value: not in the specification's list. *)
Definition hasAnyValue (input : Input) : bool :=
  match LiteralData input with
  | None => false
  | Some literalData => isDefined (AnyValue literalData)
  end.

(** The root element of [xml] is missing or is not called [rootName]. *)
Definition MissingOrForeignRoot (rootName : string) (xml : option XmlDocument)
  : Prop :=
  match xml with
  | None => True
  | Some doc =>
      match documentElement doc with
      | None => True
      | Some root => localName root <> rootName
      end
  end.

Section StatusDocuments.

Context {ext : Externals}.

(** [doc] is an ExecuteResponse whose Status is [status]. *)
Definition ExecuteResponseWith (doc : XmlDocument) (status : Status_t) : Prop :=
  (exists root, documentElement doc = Some root
                /\ localName root = "ExecuteResponse")
  /\ Status (xml2json doc) = Some status.

(** A status document that is not final: neither outcome in its Status. *)
Definition NonTerminal (doc : XmlDocument) : Prop :=
  exists status,
    ExecuteResponseWith doc status
    /\ ProcessFailed status = None
    /\ ProcessSucceeded status = None.

(** A non-final status document that says where to ask next. *)
Definition PollAt (doc : XmlDocument) (location : string) : Prop :=
  NonTerminal doc /\ statusLocation (xml2json doc) = Some location.

(** A final document: its Status holds ProcessSucceeded or ProcessFailed. *)
Definition Terminal (doc : XmlDocument) : Prop :=
  exists status,
    ExecuteResponseWith doc status
    /\ (ProcessFailed status <> None \/ ProcessSucceeded status <> None).

End StatusDocuments.

(** The part of the input that the converter's wire type refers to. *)
Definition encodingPresent (r : ConverterRef) (input : Input) : bool :=
  match r with
  | RefLiteralData => isDefined (LiteralData input)
  | RefRectangle => isDefined (BoundingBoxData input)
  | RefDateTime | RefPoint | RefLine | RefPolygon | RefGeoJsonGeometry =>
      isDefined (complexDataSchema input)
  end.

(** What one character becomes when text is escaped in a single pass. *)
Definition escapedChar (c : ascii) : string :=
  if Ascii.eqb c "&" then "&amp;"
  else if Ascii.eqb c "<" then "&lt;"
  else if Ascii.eqb c ">" then "&gt;"
  else String c EmptyString.

Fixpoint escapedChars (text : string) : string :=
  match text with
  | EmptyString => EmptyString
  | String c rest => escapedChar c ++ escapedChars rest
  end.

(** The characters of a text. *)
Definition chars (text : string) : list ascii := list_ascii_of_string text.

(** What one poll leaves behind: a timer, a GET, the promise kept on the
    job. *)
Definition pollEvents (job : CatalogFunctionJob) (location : string)
  : list Event :=
  [RunLater 500; GetXml location; SetLoadPromise job location].

(** The ways a run of the handler can end: without an effect, with the
    job marked as failed, with a result item whose load was only called,
    or with the result item loaded and put in the job's place. *)
Inductive Ending (job : CatalogFunctionJob) : list Event -> Prop :=
| EndsQuietly : Ending job []
| EndsFailed (text : option string) :
    Ending job [SetErrorOnPendingItem job text]
| EndsUnloaded (item : WebProcessingServiceCatalogItem) :
    item_uniqueId item = "result-" ++ job_uniqueId job ->
    item_name item = job_name job ->
    item_description item = job_description job ->
    Ending job [LoadMapItems item]
| EndsSucceeded (item : WebProcessingServiceCatalogItem) :
    item_uniqueId item = "result-" ++ job_uniqueId job ->
    item_name item = job_name job ->
    item_description item = job_description job ->
    Ending job [LoadMapItems item; WorkbenchAdd item; WorkbenchRemove job].

(** A round in which the reply arrives while the job is on the workbench. *)
Definition repliedOnWorkbench (doc : XmlDocument) : Round :=
  {| reply := Normal (Some doc); workbenchContains := true |}.

(* ================================================================== *)
(** ** Properties *)

(** *** String searches *)

Lemma append_assoc (a b c : string) : (a ++ b) ++ c = a ++ (b ++ c).
Proof.
  induction a as [|x a IH]; simpl; [reflexivity | now rewrite IH].
Qed.

Lemma append_nil_r (s : string) : s ++ EmptyString = s.
Proof.
  induction s as [|x s IH]; simpl; [reflexivity | now rewrite IH].
Qed.

Lemma prefix_iff_append (t s : string) :
  prefix t s = true <-> exists after, s = t ++ after.
Proof.
  revert s; induction t as [|a t IH]; intros s.
  - split; [intros _; exists s; reflexivity | intros _; now destruct s].
  - destruct s as [|b s]; simpl.
    + split; [discriminate | intros [after Hs]; discriminate].
    + destruct (ascii_dec a b) as [->|Hab].
      * rewrite IH. split; intros [after Hs]; exists after.
        -- now rewrite Hs.
        -- now injection Hs.
      * split; [discriminate | intros [after Hs]; injection Hs; congruence].
Qed.

Lemma indexOfFrom_bounds (t s : string) (pos : Z) :
  JsString.indexOfFrom t s pos = -1 \/ pos <= JsString.indexOfFrom t s pos.
Proof.
  revert pos; induction s as [|c s IH]; intros pos;
    cbn [JsString.indexOfFrom].
  - destruct (prefix t EmptyString); [right; lia | now left].
  - destruct (prefix t (String c s)); [right; lia |].
    destruct (IH (pos + 1)) as [E|L]; [now left | right; lia].
Qed.

Lemma indexOf_zero_iff (s t : string) :
  JsString.indexOf s t = 0 <-> prefix t s = true.
Proof.
  unfold JsString.indexOf.
  destruct s as [|c s]; cbn [JsString.indexOfFrom].
  - destruct (prefix t EmptyString); split; (reflexivity || discriminate).
  - destruct (prefix t (String c s)); [split; reflexivity |].
    split; [|discriminate].
    destruct (indexOfFrom_bounds t s (0 + 1)) as [E|L]; lia.
Qed.

Lemma indexOfFrom_found (t s : string) (pos : Z) :
  0 <= pos ->
  JsString.indexOfFrom t s pos <> -1 <-> JsString.Contains s t.
Proof.
  revert pos; induction s as [|c s IH]; intros pos Hpos.
  - cbn [JsString.indexOfFrom]. destruct (prefix t EmptyString) eqn:P.
    + split; [intros _ | lia].
      apply prefix_iff_append in P. destruct P as [after P].
      exists EmptyString, after. exact P.
    + split; [congruence |].
      intros [before [after E]].
      destruct before; [|discriminate].
      assert (prefix t EmptyString = true) by
        (apply prefix_iff_append; exists after; exact E).
      congruence.
  - cbn [JsString.indexOfFrom]. destruct (prefix t (String c s)) eqn:P.
    + split; [intros _ | lia].
      apply prefix_iff_append in P. destruct P as [after P].
      exists EmptyString, after. exact P.
    + rewrite (IH (pos + 1)) by lia.
      split; intros [before [after E]].
      * exists (String c before), after. simpl. now rewrite E.
      * destruct before as [|b before].
        -- assert (prefix t (String c s) = true) by
             (apply prefix_iff_append; exists after; exact E).
           congruence.
        -- exists before, after. simpl in E. now injection E.
Qed.

Lemma indexOf_found_iff (s t : string) :
  JsString.indexOf s t <> -1 <-> JsString.Contains s t.
Proof. apply indexOfFrom_found. lia. Qed.

Lemma indexOf_missing_iff (s t : string) :
  JsString.indexOf s t = -1 <-> ~ JsString.Contains s t.
Proof.
  rewrite <- indexOf_found_iff.
  destruct (Z.eq_dec (JsString.indexOf s t) (-1)); split; intros; lia.
Qed.

(** Both sides are texts built from literals and a few unknown pieces:
    bring them to the same shape. *)
Ltac same_text :=
  cbv -[append]; repeat rewrite append_assoc; repeat rewrite append_nil_r;
  cbn [append]; reflexivity.

Section Properties.

Context {ext : Externals}.

(* ------------------------------------------------------------------ *)
(** *** PointParameter *)

(** C8. For every cartographic point, [formatValueForUrl] is the JSON text
    of a FeatureCollection whose [features] array holds exactly one
    feature, a Point whose coordinates are the longitude and the latitude
    taken through [toDegrees] and then the height as it is; the
    [geoJsonFeature] property of a point parameter is that feature when the
    value is defined and undefined when it is not. *)
Theorem point_formatValueForUrl_feature_collection (value : CartographicPoint) :
  let feature :=
    JObject
      [ ("type", JString "Feature");
        ("geometry",
          JObject
            [ ("type", JString "Point");
              ("coordinates",
                JArray [ JNumber (toDegrees (longitude value));
                         JNumber (toDegrees (latitude value));
                         JNumber (height value) ]) ]);
        ("properties", JObject []) ] in
  PointParameter.getGeoJsonFeature value = feature
  /\ PointParameter.formatValueForUrl value
     = JSON.stringify
         (JObject [ ("type", JString "FeatureCollection");
                    ("features", JArray [feature]) ])
  /\ PointParameter.formatValueForUrl value
     = String.concat EmptyString
         [ "{"; JsString.quoted "type"; ":"; JsString.quoted "FeatureCollection";
           ","; JsString.quoted "features"; ":[{";
           JsString.quoted "type"; ":"; JsString.quoted "Feature"; ",";
           JsString.quoted "geometry"; ":{";
           JsString.quoted "type"; ":"; JsString.quoted "Point"; ",";
           JsString.quoted "coordinates"; ":[";
           JSON.number (toDegrees (longitude value)); ",";
           JSON.number (toDegrees (latitude value)); ",";
           JSON.number (height value);
           "]},"; JsString.quoted "properties"; ":{}}]}" ]
  /\ (forall p : FunctionParameter,
        kind p = PointParameter (Some value) ->
        geoJsonFeature p = Some feature)
  /\ (forall p : FunctionParameter,
        kind p = PointParameter None ->
        geoJsonFeature p = None).
Proof.
  cbv zeta. repeat split.
  - unfold PointParameter.formatValueForUrl, PointParameter.getGeoJsonFeature.
    cbn [JSON.stringify map].
    generalize (JSON.number (toDegrees (longitude value)))
               (JSON.number (toDegrees (latitude value)))
               (JSON.number (height value)).
    intros lon lat h. same_text.
  - intros p Hk. unfold geoJsonFeature. rewrite Hk. reflexivity.
  - intros p Hk. unfold geoJsonFeature. rewrite Hk. reflexivity.
Qed.

(* ------------------------------------------------------------------ *)
(** *** RectangleConverter *)

(** C10. The axis order of a serialized bounding box depends on the CRS
    string alone.  With a defined value and a CRS that contains [crs84],
    the text is west, south, east, north in degrees followed by the CRS84
    URN; with any other CRS it is south, west, north, east followed by the
    EPSG 6.6 URN of code 4326; with an undefined value nothing is
    returned. *)
Theorem rectangle_parameterToInput_axis_order
  (p : FunctionParameter) (crs : string) (v : option Rectangle) :
  kind p = RectangleParameter crs v ->
  (v = None -> parameterToInput RectangleConverter p = Normal None)
  /\ (forall r, v = Some r -> JsString.Contains crs "crs84" ->
        parameterToInput RectangleConverter p
        = Normal (Some
            {| inputType := "BoundingBoxData";
               inputValue := Some
                 (numberToString (toDegrees (west r)) ++ "," ++
                  numberToString (toDegrees (south r)) ++ "," ++
                  numberToString (toDegrees (east r)) ++ "," ++
                  numberToString (toDegrees (north r)) ++ "," ++
                  "urn:ogc:def:crs:OGC:1.3:CRS84") |}))
  /\ (forall r, v = Some r -> ~ JsString.Contains crs "crs84" ->
        parameterToInput RectangleConverter p
        = Normal (Some
            {| inputType := "BoundingBoxData";
               inputValue := Some
                 (numberToString (toDegrees (south r)) ++ "," ++
                  numberToString (toDegrees (west r)) ++ "," ++
                  numberToString (toDegrees (north r)) ++ "," ++
                  numberToString (toDegrees (east r)) ++ "," ++
                  "urn:ogc:def:crs:EPSG:6.6:4326") |})).
Proof.
  intros Hk. unfold RectangleConverter. cbn [parameterToInput]. rewrite Hk.
  split; [|split].
  - intros ->. reflexivity.
  - intros r -> Hin. apply indexOf_found_iff in Hin.
    destruct (JsString.indexOf crs "crs84" =? -1) eqn:E.
    + apply Z.eqb_eq in E. contradiction.
    + reflexivity.
  - intros r -> Hout. apply indexOf_missing_iff in Hout.
    rewrite Hout. reflexivity.
Qed.

(* ------------------------------------------------------------------ *)
(** *** The converter registry *)

Ltac split_matches H :=
  repeat match type of H with
         | context [match ?x with _ => _ end] =>
             destruct x eqn:?; try discriminate H
         end.

Lemma registry_cases (c : ParameterConverter) :
  In c parameterConverters ->
  c = LiteralDataConverter \/ c = DateTimeConverter \/ c = PointConverter
  \/ c = LineConverter \/ c = PolygonConverter \/ c = RectangleConverter
  \/ c = GeoJsonGeometryConverter.
Proof.
  unfold parameterConverters. simpl. intuition auto.
Qed.

Lemma converterOf_ref (c : ParameterConverter) :
  In c parameterConverters -> converterOf (ref c) = c.
Proof.
  intros Hin. apply registry_cases in Hin.
  repeat destruct Hin as [->|Hin]; try subst c; reflexivity.
Qed.

(** What a converter of the registry returns is a freshly built parameter
    of one of its variants, carrying the options it was given. *)
Lemma created_parameter (c : ParameterConverter)
  (cf : WebProcessingServiceCatalogFunction) (input : Input)
  (options : Options) (p : FunctionParameter) :
  In c parameterConverters ->
  inputToParameter c cf input options = Some p ->
  exists k, p = newParameter cf options k
            /\ clearKind k = k
            /\ In (variantOf k) (variantsOf (ref c)).
Proof.
  intros Hin Hc. apply registry_cases in Hin.
  repeat destruct Hin as [->|Hin]; try subst c;
    unfold LiteralDataConverter, DateTimeConverter, PointConverter,
      LineConverter, PolygonConverter, simpleGeoJsonDataConverter,
      RectangleConverter, GeoJsonGeometryConverter in Hc;
    cbn [inputToParameter construct PointParameter_class
         LineParameter_class PolygonParameter_class] in Hc;
    split_matches Hc; injection Hc as <-;
    eexists; (split; [reflexivity | split; [reflexivity | simpl; auto]]).
Qed.

Lemma firstParameter_iff (cf : WebProcessingServiceCatalogFunction)
  (input : Input) (options : ParameterConverter -> Options)
  (converters : list ParameterConverter) (p : FunctionParameter) :
  firstParameter cf input options converters = Some p <->
  exists i c,
    nth_error converters i = Some c
    /\ inputToParameter c cf input (options c) = Some p
    /\ forall j earlier,
         (j < i)%nat -> nth_error converters j = Some earlier ->
         inputToParameter earlier cf input (options earlier) = None.
Proof.
  induction converters as [|c0 rest IH]; cbn [firstParameter].
  - split; [discriminate |].
    intros (i & c & Hnth & _). destruct i; discriminate.
  - destruct (inputToParameter c0 cf input (options c0)) as [p0|] eqn:E0.
    + split.
      * intros [= ->]. exists 0%nat, c0. repeat split; auto.
        intros j earlier Hj. lia.
      * intros (i & c & Hnth & Hacc & Hearlier).
        destruct i as [|i].
        -- injection Hnth as <-. congruence.
        -- specialize (Hearlier 0%nat c0 ltac:(lia) eq_refl). congruence.
    + rewrite IH. split.
      * intros (i & c & Hnth & Hacc & Hearlier).
        exists (S i), c. repeat split; auto.
        intros [|j] earlier Hj Hn.
        -- injection Hn as <-. exact E0.
        -- apply (Hearlier j); [lia | exact Hn].
      * intros (i & c & Hnth & Hacc & Hearlier).
        destruct i as [|i].
        -- injection Hnth as <-. congruence.
        -- exists i, c. repeat split; auto.
           intros j earlier Hj Hn. apply (Hearlier (S j)); [lia | exact Hn].
Qed.

(** C6. [convertInputToParameter] walks the registry in its fixed order,
    LiteralData, DateTime, Point, Line, Polygon, Rectangle, GeoJSON
    geometry, and returns what the first accepting converter produced.  So
    a converted input has exactly one owner, the earliest entry that
    accepts it: the parameter is of one of that entry's variants and
    points back at it.  An input without Identifier yields nothing. *)
Theorem convertInputToParameter_first_match
  (this cf : WebProcessingServiceCatalogFunction) (input : Input) :
  map ref parameterConverters
  = [ RefLiteralData; RefDateTime; RefPoint; RefLine; RefPolygon;
      RefRectangle; RefGeoJsonGeometry ]
  /\ (Identifier input = None -> convertInputToParameter this cf input = None)
  /\ (forall identifier p,
        Identifier input = Some identifier ->
        (convertInputToParameter this cf input = Some p <->
         exists i c,
           nth_error parameterConverters i = Some c
           /\ inputToParameter c cf input (optionsFor input identifier c)
              = Some p
           /\ forall j earlier,
                (j < i)%nat ->
                nth_error parameterConverters j = Some earlier ->
                inputToParameter earlier cf input
                  (optionsFor input identifier earlier) = None))
  /\ (forall identifier p,
        Identifier input = Some identifier ->
        convertInputToParameter this cf input = Some p ->
        exists! i, exists c,
          nth_error parameterConverters i = Some c
          /\ inputToParameter c cf input (optionsFor input identifier c)
             = Some p
          /\ (forall j earlier,
                (j < i)%nat ->
                nth_error parameterConverters j = Some earlier ->
                inputToParameter earlier cf input
                  (optionsFor input identifier earlier) = None)
          /\ converter p = Some (ref c)
          /\ In (variantOf (kind p)) (variantsOf (ref c))).
Proof.
  split; [reflexivity |].
  split; [intros Hid; unfold convertInputToParameter; now rewrite Hid |].
  split.
  - intros identifier p Hid. unfold convertInputToParameter. rewrite Hid.
    apply firstParameter_iff.
  - intros identifier p Hid Hp.
    unfold convertInputToParameter in Hp. rewrite Hid in Hp.
    apply firstParameter_iff in Hp.
    destruct Hp as (i & c & Hnth & Hacc & Hearlier).
    exists i. split.
    + exists c. repeat split; auto.
      * destruct (created_parameter c cf input _ p
                    (nth_error_In _ _ Hnth) Hacc) as (k & -> & _ & _).
        reflexivity.
      * destruct (created_parameter c cf input _ p
                    (nth_error_In _ _ Hnth) Hacc) as (k & -> & _ & Hv).
        exact Hv.
    + intros i' (c' & Hnth' & Hacc' & Hearlier' & _).
      destruct (Nat.lt_trichotomy i i') as [Hlt|[Heq|Hgt]]; [|exact Heq|].
      * specialize (Hearlier' i c Hlt Hnth). congruence.
      * specialize (Hearlier i' c' Hgt Hnth'). congruence.
Qed.

(* ------------------------------------------------------------------ *)
(** *** Supported encodings *)

Lemma accepted_encoding (c : ParameterConverter)
  (cf : WebProcessingServiceCatalogFunction) (input : Input)
  (options : Options) (p : FunctionParameter) :
  In c parameterConverters ->
  inputToParameter c cf input options = Some p ->
  listedEncoding input = true \/ hasAnyValue input = true.
Proof.
  intros Hin Hc. apply registry_cases in Hin.
  unfold listedEncoding, hasAnyValue, hasEnumeration, hasSchema.
  repeat destruct Hin as [->|Hin]; try subst c;
    unfold LiteralDataConverter, DateTimeConverter, PointConverter,
      LineConverter, PolygonConverter, simpleGeoJsonDataConverter,
      RectangleConverter, GeoJsonGeometryConverter in Hc;
    cbn [inputToParameter] in Hc.
  - (* LiteralData *)
    destruct (LiteralData input) as [literalData|]; [|discriminate].
    destruct (AllowedValues literalData) as [[[values|]]|];
      cbn [Value isDefined orb]; auto.
    + destruct (AnyValue literalData); [now right | discriminate].
    + destruct (AllowedValue literalData) as [[[values|]]|];
        cbn [Value isDefined orb]; auto;
        (destruct (AnyValue literalData); [now right | discriminate]).
  - (* DateTime *)
    destruct (complexDataSchema input) as [schema|]; [|discriminate].
    destruct (schema =? _)%string eqn:E; [|discriminate].
    left. rewrite String.eqb_sym, E. now rewrite !orb_true_r.
  - (* Point *)
    destruct (complexDataSchema input) as [schema|]; [|discriminate].
    destruct (JsString.indexOf schema _ =? 0) eqn:E; [|discriminate].
    apply Z.eqb_eq, indexOf_zero_iff in E.
    left. rewrite E. now rewrite !orb_true_r.
  - (* Line *)
    destruct (complexDataSchema input) as [schema|]; [|discriminate].
    destruct (JsString.indexOf schema _ =? 0) eqn:E; [|discriminate].
    apply Z.eqb_eq, indexOf_zero_iff in E.
    left. rewrite E. now rewrite !orb_true_r.
  - (* Polygon *)
    destruct (complexDataSchema input) as [schema|]; [|discriminate].
    destruct (JsString.indexOf schema _ =? 0) eqn:E; [|discriminate].
    apply Z.eqb_eq, indexOf_zero_iff in E.
    left. rewrite E. now rewrite !orb_true_r.
  - (* Rectangle *)
    destruct (BoundingBoxData input); [|discriminate].
    left. now rewrite !orb_true_r.
  - (* GeoJSON geometry *)
    destruct (complexDataSchema input) as [schema|]; [|discriminate].
    destruct (JsString.indexOf schema _ =? 0) eqn:E; [|discriminate].
    apply Z.eqb_eq, indexOf_zero_iff in E.
    left. rewrite E. now rewrite !orb_true_r.
Qed.

Lemma converted_encoding
  (this cf : WebProcessingServiceCatalogFunction) (input : Input)
  (p : FunctionParameter) :
  convertInputToParameter this cf input = Some p ->
  listedEncoding input = true \/ hasAnyValue input = true.
Proof.
  unfold convertInputToParameter.
  destruct (Identifier input) as [identifier|]; [|discriminate].
  intros Hp. apply firstParameter_iff in Hp.
  destruct Hp as (i & c & Hnth & Hacc & _).
  exact (accepted_encoding c cf input _ p (nth_error_In _ _ Hnth) Hacc).
Qed.

Lemma mapM_first_throw {A B : Type} (f : A -> Completion B)
  (before : list A) (x : A) (after : list A) (e : Exception) :
  Forall (fun a => exists b, f a = Normal b) before ->
  f x = Throw e ->
  mapM f (before ++ x :: after)%list = Throw e.
Proof.
  intros Hbefore Hx.
  induction Hbefore as [|a before [b Hb] _ IH]; cbn [mapM app].
  - now rewrite Hx.
  - rewrite Hb. cbn [bind]. now rewrite IH.
Qed.

(** C3, as the code has it.  An input is converted only when it uses one
    of the listed encodings or is LiteralData that allows any value; such a
    literal with an Identifier and no enumeration becomes a string
    parameter; and when the first input that no converter accepts uses none
    of these encodings, computing [functionParameters] throws the
    Unsupported parameter type error whose message carries that input's
    Identifier. *)
Theorem functionParameters_supported_encodings
  (this : WebProcessingServiceCatalogFunction) :
  (forall cf input p,
      convertInputToParameter this cf input = Some p ->
      listedEncoding input = true \/ hasAnyValue input = true)
  /\ (forall cf input identifier,
        Identifier input = Some identifier ->
        hasEnumeration input = false ->
        hasAnyValue input = true ->
        convertInputToParameter this cf input
        = Some (newParameter cf
                  (optionsFor input identifier LiteralDataConverter)
                  (StringParameter None)))
  /\ (forall before input after,
        inputs this = Normal (before ++ input :: after)%list ->
        Forall (fun i => convertInputToParameter this this i <> None) before ->
        listedEncoding input = false ->
        hasAnyValue input = false ->
        functionParameters this
        = Throw (ThrowTerriaError
            {| title := "Unsupported parameter type";
               message :=
                 "The parameter " ++
                 match Identifier input with
                 | Some i => i
                 | None => "undefined"
                 end ++
                 " is not a supported type of parameter." |})).
Proof.
  split; [intros cf input p; apply converted_encoding |].
  split.
  - intros cf input identifier Hid Henum Hany.
    unfold convertInputToParameter. rewrite Hid.
    unfold parameterConverters. cbn [firstParameter].
    unfold LiteralDataConverter at 1. cbn [inputToParameter].
    unfold hasEnumeration in Henum. unfold hasAnyValue in Hany.
    destruct (LiteralData input) as [literalData|]; [|discriminate].
    destruct (AllowedValues literalData) as [[[values|]]|];
      cbn [Value isDefined orb] in Henum; try discriminate.
    + now rewrite Hany.
    + destruct (AllowedValue literalData) as [[[values|]]|];
        cbn [Value isDefined] in Henum; try discriminate;
        now rewrite Hany.
  - intros before input after Hinputs Hbefore Hlisted Hany.
    unfold functionParameters. rewrite Hinputs. cbn [bind].
    match goal with
    | |- bind ?m _ = Throw ?e =>
        assert (Hm : m = Throw e); [| now rewrite Hm]
    end.
    apply mapM_first_throw.
    + eapply Forall_impl; [|exact Hbefore].
      intros i Hi. cbv beta in Hi |- *.
      destruct (convertInputToParameter this this i) as [p|];
        [now exists p | congruence].
    + destruct (convertInputToParameter this this input) as [p|] eqn:E;
        [|reflexivity].
      apply converted_encoding in E. destruct E; congruence.
Qed.

(* ------------------------------------------------------------------ *)
(** *** From parameter back to input *)

Lemma accepted_input_present (c : ParameterConverter)
  (cf : WebProcessingServiceCatalogFunction) (input : Input)
  (options : Options) (p : FunctionParameter) :
  In c parameterConverters ->
  inputToParameter c cf input options = Some p ->
  encodingPresent (ref c) input = true.
Proof.
  intros Hin Hc. apply registry_cases in Hin.
  repeat destruct Hin as [->|Hin]; try subst c;
    unfold LiteralDataConverter, DateTimeConverter, PointConverter,
      LineConverter, PolygonConverter, simpleGeoJsonDataConverter,
      RectangleConverter, GeoJsonGeometryConverter in Hc |- *;
    cbn [inputToParameter ref encodingPresent] in Hc |- *;
    match type of Hc with
    | context [match ?x with _ => _ end] =>
        destruct x; [reflexivity | discriminate Hc]
    end.
Qed.

(** C7, as the code has it.  Take a parameter [p0] made by a converter [c]
    of the registry from an input, and [p], the same parameter with any
    value.  The input has the encoding [c] stands for.  The literal
    converter always returns an object of type LiteralData.  The
    dateTime, point, line and polygon converters always return an object
    of type ComplexData around the value as [formatValueForUrl] of their
    class serializes it: the dateTime converter for the value as a
    string, or the empty string without one; the point converter for the
    feature collection of the point, where reading an undefined value is
    a TypeError; the line and polygon converters for the value, defined
    or not.  The rectangle converter returns nothing without a value and
    an object of type BoundingBoxData with one; the GeoJSON geometry
    converter returns nothing for an undefined or null value and
    otherwise what [getProcessedValue] returns.  [convertParameterToInput]
    pairs the serialized value with the parameter's id and the converter's
    type, and returns nothing when the converter yields nothing or the
    serialized value is undefined. *)
Theorem parameterToInput_wire_type
  (c : ParameterConverter) (cf : WebProcessingServiceCatalogFunction)
  (input : Input) (options : Options) (p0 p : FunctionParameter) :
  In c parameterConverters ->
  opt_converter options = Some (ref c) ->
  inputToParameter c cf input options = Some p0 ->
  clearValue p = p0 ->
  encodingPresent (ref c) input = true
  /\ (forall result,
        ref c <> RefGeoJsonGeometry ->
        parameterToInput c p = Normal (Some result) ->
        inputType result = wireType (ref c))
  /\ (ref c = RefLiteralData ->
      exists v, parameterToInput c p
                = Normal (Some {| inputValue := v;
                                  inputType := "LiteralData" |}))
  /\ (ref c = RefDateTime ->
      parameterToInput c p
      = (serialized <-
           DateTimeParameter_formatValueForUrl
             match value p with
             | Some (VString text) => text
             | _ => EmptyString
             end ;;
         Normal (Some {| inputValue := serialized;
                         inputType := "ComplexData" |})))
  /\ (ref c = RefPoint ->
      (forall point,
          value p = Some (VPoint point) ->
          parameterToInput c p
          = Normal (Some {| inputValue :=
                              Some (PointParameter.formatValueForUrl point);
                            inputType := "ComplexData" |}))
      /\ (value p = None ->
          parameterToInput c p
          = Throw (ThrowTypeError
                     "Cannot read property 'longitude' of undefined")))
  /\ (ref c = RefLine ->
      parameterToInput c p
      = (serialized <-
           LineParameter_formatValueForUrl
             match value p with
             | Some (VLine line) => Some line
             | _ => None
             end ;;
         Normal (Some {| inputValue := serialized;
                         inputType := "ComplexData" |})))
  /\ (ref c = RefPolygon ->
      parameterToInput c p
      = (serialized <-
           PolygonParameter_formatValueForUrl
             match value p with
             | Some (VPolygon polygon) => Some polygon
             | _ => None
             end ;;
         Normal (Some {| inputValue := serialized;
                         inputType := "ComplexData" |})))
  /\ (ref c = RefRectangle ->
      (value p = None -> parameterToInput c p = Normal None)
      /\ (value p <> None ->
          exists text, parameterToInput c p
                       = Normal (Some {| inputValue := Some text;
                                         inputType := "BoundingBoxData" |})))
  /\ (ref c = RefGeoJsonGeometry ->
      parameterToInput c p
      = match value p with
        | Some (VGeoJson (NonNull g)) => getProcessedValue p g
        | _ => Normal None
        end)
  /\ (forall result text,
        parameterToInput c p = Normal (Some result) ->
        inputValue result = Some text ->
        convertParameterToInput p
        = Normal (Some {| wi_inputIdentifier := opt_id options;
                          wi_inputValue := text;
                          wi_inputType := inputType result |}))
  /\ (forall result,
        parameterToInput c p = Normal (Some result) ->
        inputValue result = None ->
        convertParameterToInput p = Normal None)
  /\ (parameterToInput c p = Normal None ->
      convertParameterToInput p = Normal None).
Proof.
  intros Hin Hopt Hc Hclear.
  pose proof (accepted_input_present c cf input options p0 Hin Hc) as Hpresent.
  pose proof (converterOf_ref c Hin) as Hof.
  destruct (created_parameter c cf input options p0 Hin Hc)
    as (k & Hp0 & _ & Hv).
  assert (Hkind : clearKind (kind p) = k)
    by (rewrite Hp0 in Hclear; now apply (f_equal kind) in Hclear).
  assert (Hconv : converter p = Some (ref c))
    by (rewrite Hp0 in Hclear; apply (f_equal converter) in Hclear;
        cbn in Hclear; congruence).
  assert (Hid : id p = opt_id options)
    by (rewrite Hp0 in Hclear; now apply (f_equal id) in Hclear).
  assert (Hvariant : In (variantOf (kind p)) (variantsOf (ref c)))
    by (rewrite <- Hkind in Hv; now destruct (kind p)).
  clear Hc Hclear Hp0 Hkind Hv Hopt.
  split; [exact Hpresent |].
  assert (Hback :
    (forall result text,
        parameterToInput c p = Normal (Some result) ->
        inputValue result = Some text ->
        convertParameterToInput p
        = Normal (Some {| wi_inputIdentifier := opt_id options;
                          wi_inputValue := text;
                          wi_inputType := inputType result |}))
    /\ (forall result,
          parameterToInput c p = Normal (Some result) ->
          inputValue result = None ->
          convertParameterToInput p = Normal None)
    /\ (parameterToInput c p = Normal None ->
        convertParameterToInput p = Normal None)).
  { unfold convertParameterToInput. rewrite Hconv, Hof, <- Hid.
    repeat split.
    - intros result text Hr Hv. rewrite Hr. cbn [bind]. now rewrite Hv.
    - intros result Hr Hv. rewrite Hr. cbn [bind]. now rewrite Hv.
    - intros Hr. rewrite Hr. reflexivity. }
  destruct Hback as (Hb1 & Hb2 & Hb3).
  assert (Hcomplex :
    (ref c = RefDateTime ->
      parameterToInput c p
      = (serialized <-
           DateTimeParameter_formatValueForUrl
             match value p with
             | Some (VString text) => text
             | _ => EmptyString
             end ;;
         Normal (Some {| inputValue := serialized;
                         inputType := "ComplexData" |})))
    /\ (ref c = RefPoint ->
        (forall point,
            value p = Some (VPoint point) ->
            parameterToInput c p
            = Normal (Some {| inputValue :=
                                Some (PointParameter.formatValueForUrl point);
                              inputType := "ComplexData" |}))
        /\ (value p = None ->
            parameterToInput c p
            = Throw (ThrowTypeError
                       "Cannot read property 'longitude' of undefined")))
    /\ (ref c = RefLine ->
        parameterToInput c p
        = (serialized <-
             LineParameter_formatValueForUrl
               match value p with
               | Some (VLine line) => Some line
               | _ => None
               end ;;
           Normal (Some {| inputValue := serialized;
                           inputType := "ComplexData" |})))
    /\ (ref c = RefPolygon ->
        parameterToInput c p
        = (serialized <-
             PolygonParameter_formatValueForUrl
               match value p with
               | Some (VPolygon polygon) => Some polygon
               | _ => None
               end ;;
           Normal (Some {| inputValue := serialized;
                           inputType := "ComplexData" |})))).
  { clear Hb1 Hb2 Hb3 Hconv Hid Hof Hpresent.
    pose proof (registry_cases c Hin) as Hcases.
    repeat destruct Hcases as [->|Hcases]; try subst c;
      unfold LiteralDataConverter, DateTimeConverter, PointConverter,
        LineConverter, PolygonConverter, simpleGeoJsonDataConverter,
        RectangleConverter, GeoJsonGeometryConverter in *;
      cbn [ref variantsOf parameterToInput] in *; unfold value;
      destruct (kind p) as [pv v|v|v|v|v|v|crs v|rp v];
      cbn [variantOf In] in Hvariant;
      try (exfalso; intuition discriminate);
      (split; [|split; [|split]]);
      intros Href; try discriminate Href;
      cbn [formatValueForUrl PointParameter_class LineParameter_class
           PolygonParameter_class];
      destruct v as [held|]; cbn [option_map bind];
      try reflexivity;
      try (split;
           [ intros point E; try discriminate E; injection E as <-;
             reflexivity
           | intros E; try discriminate E; reflexivity ]).
    destruct held; reflexivity. }
  destruct Hcomplex as (K1 & K2 & K3 & K4).
  assert (Hforward :
    (forall result,
        ref c <> RefGeoJsonGeometry ->
        parameterToInput c p = Normal (Some result) ->
        inputType result = wireType (ref c))
    /\ (ref c = RefLiteralData ->
        exists v, parameterToInput c p
                  = Normal (Some {| inputValue := v;
                                    inputType := "LiteralData" |}))
    /\ (ref c = RefRectangle ->
        (value p = None -> parameterToInput c p = Normal None)
        /\ (value p <> None ->
            exists text, parameterToInput c p
                         = Normal (Some {| inputValue := Some text;
                                           inputType := "BoundingBoxData" |})))
    /\ (ref c = RefGeoJsonGeometry ->
        parameterToInput c p
        = match value p with
          | Some (VGeoJson (NonNull g)) => getProcessedValue p g
          | _ => Normal None
          end));
    [| destruct Hforward as (F1 & F2 & F3 & F4);
       exact (conj F1 (conj F2 (conj K1 (conj K2 (conj K3 (conj K4
                (conj F3 (conj F4 (conj Hb1 (conj Hb2 Hb3))))))))))].
  clear Hb1 Hb2 Hb3 Hconv Hid Hof Hpresent K1 K2 K3 K4.
  apply registry_cases in Hin.
  repeat destruct Hin as [->|Hin]; try subst c;
    unfold LiteralDataConverter, DateTimeConverter, PointConverter,
      LineConverter, PolygonConverter, simpleGeoJsonDataConverter,
      RectangleConverter, GeoJsonGeometryConverter in *;
    cbn [ref variantsOf parameterToInput] in *; unfold value;
    destruct (kind p) as [pv v|v|v|v|v|v|crs v|rp v];
    cbn [variantOf In] in Hvariant;
    try (exfalso; intuition discriminate);
    (split; [|split; [|split]]);
    match goal with
    | |- forall result, _ -> _ -> _ => intros result Hne Hr
    | |- _ = _ -> _ =>
        let Href := fresh "Href" in intros Href; try discriminate Href
    | |- _ => idtac
    end;
    cbn [wireType formatValueForUrl PointParameter_class
         LineParameter_class PolygonParameter_class option_map] in *.
  - injection Hr as <-. reflexivity.
  - eexists. reflexivity.
  - injection Hr as <-. reflexivity.
  - eexists. reflexivity.
  - (* dateTime *)
    match type of Hr with
    | context [bind ?x _] => destruct x as [[s|]| |]
    end; cbn [bind] in Hr; try discriminate Hr;
      injection Hr as <-; reflexivity.
  - (* point *)
    destruct v as [pt|]; cbn [option_map bind] in Hr;
      [injection Hr as <-; reflexivity | discriminate Hr].
  - (* line *)
    destruct v as [l|]; cbn [option_map] in Hr;
      match type of Hr with
      | context [bind ?x _] => destruct x as [[s|]| |]
      end; cbn [bind] in Hr; try discriminate Hr;
      injection Hr as <-; reflexivity.
  - (* polygon *)
    destruct v as [l|]; cbn [option_map] in Hr;
      match type of Hr with
      | context [bind ?x _] => destruct x as [[s|]| |]
      end; cbn [bind] in Hr; try discriminate Hr;
      injection Hr as <-; reflexivity.
  - (* rectangle, with a result *)
    destruct v as [r|]; [|discriminate Hr].
    destruct (negb (JsString.indexOf crs "crs84" =? -1));
      injection Hr as <-; reflexivity.
  - (* rectangle, by value *)
    split.
    + destruct v; [discriminate | reflexivity].
    + destruct v as [r|]; [intros _ | intros Hn; now elim Hn].
      destruct (negb (JsString.indexOf crs "crs84" =? -1));
        eexists; reflexivity.
  - (* GeoJSON geometry *)
    congruence.
  - destruct v as [[|g]|]; reflexivity.
Qed.

(* ------------------------------------------------------------------ *)
(** *** The Execute response handler *)

Lemma documentWithRoot_foreign (rootName : string) (xml : option XmlDocument) :
  MissingOrForeignRoot rootName xml -> documentWithRoot rootName xml = None.
Proof.
  unfold MissingOrForeignRoot, documentWithRoot.
  destruct xml as [doc|]; [|reflexivity].
  destruct (documentElement doc) as [root|]; [|reflexivity].
  intros Hne. apply String.eqb_neq in Hne. now rewrite Hne.
Qed.

Lemma documentWithRoot_status (doc : XmlDocument) (status : Status_t) :
  ExecuteResponseWith doc status ->
  documentWithRoot "ExecuteResponse" (Some doc) = Some doc.
Proof.
  intros [(root & Hroot & Hname) _].
  unfold documentWithRoot. rewrite Hroot, Hname. reflexivity.
Qed.

(** One more turn of the loop: the reply of the first round is handled
    by the same function, with the rounds that remain. *)
Lemma handleExecuteResponse_poll
  (this : WebProcessingServiceCatalogFunction) (doc : XmlDocument)
  (location : string) (job : CatalogFunctionJob)
  (next : option XmlDocument) (nextContains : bool) (later : list Round) :
  PollAt doc location ->
  handleExecuteResponse this
    ({| reply := Normal next; workbenchContains := nextContains |} :: later)
    (Some doc) job true
  = (([RunLater 500; GetXml location; SetLoadPromise job location]
      ++ fst (handleExecuteResponse this later next job nextContains))%list,
     snd (handleExecuteResponse this later next job nextContains)).
Proof.
  intros [(status & Hdoc & Hfailed & Hsucceeded) Hlocation].
  cbn [handleExecuteResponse].
  rewrite (documentWithRoot_status doc status Hdoc).
  destruct Hdoc as [_ Hstatus].
  rewrite Hstatus, Hfailed, Hsucceeded, Hlocation.
  cbn [isDefined reply workbenchContains].
  destruct (handleExecuteResponse this later next job nextContains).
  reflexivity.
Qed.

(** A final document is dealt with on the spot: no timer, no request,
    whatever the rounds to come. *)
Lemma handleExecuteResponse_terminal
  (this : WebProcessingServiceCatalogFunction) (doc : XmlDocument)
  (job : CatalogFunctionJob) (contains : bool) (rounds : list Round) :
  Terminal doc ->
  handleExecuteResponse this rounds (Some doc) job contains
  = handleExecuteResponse this [] (Some doc) job contains
  /\ snd (handleExecuteResponse this [] (Some doc) job contains)
     <> AwaitingReply
  /\ Forall (fun e => match e with
                      | RunLater _ | GetXml _ | SetLoadPromise _ _ => False
                      | _ => True
                      end)
       (fst (handleExecuteResponse this [] (Some doc) job contains)).
Proof.
  intros (status & Hdoc & Houtcome).
  pose proof (documentWithRoot_status doc status Hdoc) as Hroot.
  destruct Hdoc as [_ Hstatus].
  destruct rounds as [|round later]; cbn [handleExecuteResponse];
    rewrite Hroot, Hstatus;
    (destruct (ProcessFailed status) as [failed|];
     [ repeat split; [discriminate | repeat constructor]
     | destruct (ProcessSucceeded status) as [outcome|];
       [ cbn [isDefined];
         destruct (createCatalogItem this job (xml2json doc)) as [item|e|];
         [destruct (loadMapItems item) | |];
         cbn [rejectedBy fst snd];
         repeat split; try discriminate; repeat constructor
       | destruct Houtcome; congruence ] ]).
Qed.

(** C9. Polling does not outlive the pending item.  When a status document
    with neither outcome arrives and the workbench no longer holds the
    pending job, the handler sets no timer and asks for nothing: the call
    is over, although no final document was seen. *)
Theorem polling_stops_without_pending_item
  (this : WebProcessingServiceCatalogFunction) (rounds : list Round)
  (doc : XmlDocument) (job : CatalogFunctionJob) :
  NonTerminal doc ->
  handleExecuteResponse this rounds (Some doc) job false = ([], Fulfilled).
Proof.
  intros (status & Hdoc & Hfailed & Hsucceeded).
  pose proof (documentWithRoot_status doc status Hdoc) as Hroot.
  destruct Hdoc as [_ Hstatus].
  destruct rounds; cbn [handleExecuteResponse];
    rewrite Hroot, Hstatus, Hfailed, Hsucceeded; cbn [isDefined];
    destruct (statusLocation (xml2json doc)); reflexivity.
Qed.

(** C1, as the code has it.  As long as the workbench holds the pending
    job, every status document with neither outcome that carries a
    statusLocation makes the handler wait 500 milliseconds, GET that
    location and handle the reply in the same way.  Over a run of such
    documents followed by a final one, that is one timer and one GET per
    document, each to the location the document before it gave, and then
    the handling of the final document, which polls no more. *)
Theorem polling_until_terminal
  (this : WebProcessingServiceCatalogFunction) (job : CatalogFunctionJob)
  (first : XmlDocument * string) (pending : list (XmlDocument * string))
  (final : XmlDocument) (finalContains : bool) (rest : list Round) :
  Forall (fun d => PollAt (fst d) (snd d)) (first :: pending) ->
  Terminal final ->
  let polls :=
    flat_map (fun d => [ RunLater 500; GetXml (snd d);
                         SetLoadPromise job (snd d) ])
             (first :: pending) in
  let rounds :=
    (map (fun d => {| reply := Normal (Some (fst d));
                      workbenchContains := true |}) pending
     ++ {| reply := Normal (Some final);
           workbenchContains := finalContains |} :: rest)%list in
  let ending := handleExecuteResponse this [] (Some final) job finalContains in
  handleExecuteResponse this rounds (Some (fst first)) job true
  = ((polls ++ fst ending)%list, snd ending)
  /\ snd ending <> AwaitingReply
  /\ Forall (fun e => match e with
                      | RunLater _ | GetXml _ | SetLoadPromise _ _ => False
                      | _ => True
                      end) (fst ending).
Proof.
  intros Hpolls Hfinal. cbv zeta.
  destruct (handleExecuteResponse_terminal this final job finalContains rest
              Hfinal) as (Hsame & Hsettled & Hquiet).
  split; [|split; assumption].
  revert first Hpolls.
  induction pending as [|second pending IH]; intros first Hpolls;
    inversion Hpolls as [|? ? Hfirst Hothers]; subst.
  - cbn [map app flat_map].
    rewrite (handleExecuteResponse_poll this (fst first) (snd first) job
               (Some final) finalContains rest Hfirst).
    rewrite Hsame. reflexivity.
  - cbn [map app].
    rewrite (handleExecuteResponse_poll this (fst first) (snd first) job
               (Some (fst second)) true _ Hfirst).
    rewrite (IH second Hothers).
    cbn [fst snd flat_map]. rewrite <- !app_assoc. reflexivity.
Qed.

(** C2. The root element of every XML response is checked by name, and
    a response that fails the check is refused with the one invalid WPS
    server error: [forceLoadMetadata] throws it, for the DescribeProcess
    endpoint, when the response is missing, has no root element or has a
    root not called ProcessDescriptions; [handleExecuteResponse] throws
    it, for the ExecuteResponse endpoint, when the response, first or
    polled, is missing, has no root element or has a root not called
    ExecuteResponse. *)
Theorem foreign_root_is_invalid_wps_server
  (this : WebProcessingServiceCatalogFunction) (job : CatalogFunctionJob)
  (describeUrl : string) (loaded response : option XmlDocument) :
  describeProcessUrl this = Some describeUrl ->
  MissingOrForeignRoot "ProcessDescriptions" loaded ->
  MissingOrForeignRoot "ExecuteResponse" response ->
  let invalid := fun endpoint =>
    ThrowTerriaError
      {| title :=
           i18next_t "models.webProcessingService.invalidWPSServerTitle" [];
         message :=
           i18next_t "models.webProcessingService.invalidWPSServerMessage"
             [ ("name", cf_name this);
               ("email", Some (mailto this));
               ("endpoint", Some endpoint) ] |} in
  forceLoadMetadata this (Normal loaded)
  = ([GetXml describeUrl], Throw (invalid "DescribeProcess"))
  /\ (forall rounds contains,
        handleExecuteResponse this rounds response job contains
        = ([], Rejected (invalid "ExecuteResponse")))
  /\ (forall doc location contains later,
        PollAt doc location ->
        handleExecuteResponse this
          ({| reply := Normal response; workbenchContains := contains |}
           :: later)
          (Some doc) job true
        = ([RunLater 500; GetXml location; SetLoadPromise job location],
           Rejected (invalid "ExecuteResponse"))).
Proof.
  intros Hurl Hloaded Hresponse. cbv zeta.
  assert (Hhandle : forall rounds contains,
             handleExecuteResponse this rounds response job contains
             = ([], Rejected (ThrowTerriaError
                                (invalidWpsServerError this "ExecuteResponse")))).
  { intros rounds contains.
    destruct rounds; cbn [handleExecuteResponse];
      rewrite (documentWithRoot_foreign _ _ Hresponse); reflexivity. }
  split; [|split].
  - unfold forceLoadMetadata. rewrite Hurl. cbn [bind].
    rewrite (documentWithRoot_foreign _ _ Hloaded). reflexivity.
  - exact Hhandle.
  - intros doc location contains later Hpoll.
    rewrite (handleExecuteResponse_poll this doc location job response
               contains later Hpoll).
    rewrite Hhandle. reflexivity.
Qed.


(** C5. What [invoke] does: whether or not the identifier and the Execute
    URL are defined, the call ends without a request or any other effect.
    With both defined, the Execute request its documentation announces is
    not made. *)
Theorem invoke_issues_no_request (this : WebProcessingServiceCatalogFunction) :
  invoke this = ([], Fulfilled).
Proof.
  unfold invoke.
  destruct (negb (isDefined (identifier this))
            || negb (isDefined (executeUrl this))); reflexivity.
Qed.

End Properties.

(* ================================================================== *)
(** ** The properties at work on the sample service *)

(** The polling theorem on a run of three documents: accepted, started,
    succeeded. *)
Lemma polling_until_terminal_witness :
  handleExecuteResponse sampleFunction
    [ {| reply := Normal (Some startedResponse); workbenchContains := true |};
      {| reply := Normal (Some succeededResponse); workbenchContains := true |} ]
    (Some acceptedResponse) sampleJob true
  = ([ RunLater 500; GetXml "http://example.com/status/1";
       SetLoadPromise sampleJob "http://example.com/status/1";
       RunLater 500; GetXml "http://example.com/status/2";
       SetLoadPromise sampleJob "http://example.com/status/2";
       LoadMapItems sampleResultItem; WorkbenchAdd sampleResultItem;
       WorkbenchRemove sampleJob ],
     Fulfilled).
Proof.
  assert (Hpoll : forall doc location kind,
             doc = executeResponse [("statusLocation", location)]
                     [Element kind [] []] ->
             kind = "ProcessAccepted" \/ kind = "ProcessStarted" ->
             PollAt doc location).
  { intros doc location kind -> Hkind.
    split; [|reflexivity].
    exists {| ProcessFailed := None; ProcessSucceeded := None |}.
    destruct Hkind as [-> | ->]; repeat split;
      eexists; split; reflexivity. }
  assert (Hfinal : Terminal succeededResponse).
  { exists {| ProcessFailed := None; ProcessSucceeded := Some EmptyString |}.
    split; [split; [eexists; split; reflexivity | reflexivity] |].
    right. discriminate. }
  assert (Hall : Forall (fun d => PollAt (fst d) (snd d))
                   [ (acceptedResponse, "http://example.com/status/1");
                     (startedResponse, "http://example.com/status/2") ]).
  { repeat constructor; cbn [fst snd].
    - apply (Hpoll _ _ "ProcessAccepted" eq_refl). now left.
    - apply (Hpoll _ _ "ProcessStarted" eq_refl). now right. }
  pose proof
    (polling_until_terminal sampleFunction sampleJob
       (acceptedResponse, "http://example.com/status/1")
       [(startedResponse, "http://example.com/status/2")]
       succeededResponse true [] Hall Hfinal) as Hrun.
  cbv zeta in Hrun. destruct Hrun as [Hrun _].
  etransitivity; [exact Hrun | vm_compute; reflexivity].
Defined.

(** C1 as stated fails: a status document with neither outcome and with a
    statusLocation, received when the workbench no longer holds the
    pending job, is followed by no timer and no GET. *)
Lemma no_poll_once_job_left_workbench :
  (exists status,
      Status (xml2json acceptedResponse) = Some status
      /\ ProcessFailed status = None
      /\ ProcessSucceeded status = None)
  /\ statusLocation (xml2json acceptedResponse)
     = Some "http://example.com/status/1"
  /\ handleExecuteResponse sampleFunction
       [ {| reply := Normal (Some succeededResponse);
            workbenchContains := false |} ]
       (Some acceptedResponse) sampleJob false
     = ([], Fulfilled).
Proof.
  split; [|split]; [|reflexivity | vm_compute; reflexivity].
  exists {| ProcessFailed := None; ProcessSucceeded := None |}.
  repeat split.
Qed.

(** The root check on a document that is an ExceptionReport. *)
Lemma foreign_root_is_invalid_wps_server_witness :
  forceLoadMetadata sampleFunction (Normal (Some exceptionReport))
  = ([GetXml "http://example.com/wps?service=WPS&request=DescribeProcess&version=1.0.0&Identifier=buffer"],
     Throw (ThrowTerriaError
              (invalidWpsServerError sampleFunction "DescribeProcess")))
  /\ handleExecuteResponse sampleFunction [] (Some exceptionReport)
       sampleJob true
     = ([], Rejected (ThrowTerriaError
                        (invalidWpsServerError sampleFunction
                           "ExecuteResponse"))).
Proof.
  assert (Hforeign : forall rootName,
             rootName <> "ExceptionReport" ->
             MissingOrForeignRoot rootName (Some exceptionReport)).
  { intros rootName Hne. cbn. congruence. }
  destruct (@foreign_root_is_invalid_wps_server sampleExternals
              sampleFunction sampleJob
              "http://example.com/wps?service=WPS&request=DescribeProcess&version=1.0.0&Identifier=buffer"
              (Some exceptionReport) (Some exceptionReport)
              ltac:(vm_compute; reflexivity)
              (Hforeign "ProcessDescriptions" ltac:(discriminate))
              (Hforeign "ExecuteResponse" ltac:(discriminate)))
    as (Hload & Hhandle & _).
  split; [exact Hload | exact (Hhandle [] true)].
Defined.

(** C3 as stated fails: the distance input is LiteralData that allows any
    value, none of the four listed encodings, yet it is converted, to a
    string parameter, and computing the function parameters of the
    sample process, which has it among its inputs, throws nothing. *)
Lemma anyValue_literal_is_converted :
  listedEncoding distanceInput = false
  /\ (exists p,
        convertInputToParameter sampleFunction sampleFunction distanceInput
        = Some p
        /\ kind p = StringParameter None)
  /\ inputs sampleFunction
     = Normal [distanceInput; extentInput; locationInput]
  /\ (exists parameters,
        functionParameters sampleFunction = Normal parameters
        /\ map kind parameters
           = [ StringParameter None;
               RectangleParameter "urn:ogc:def:crs:OGC:1.3:crs84" None;
               PointParameter None ]).
Proof.
  split; [reflexivity |].
  split; [eexists; split; [vm_compute; reflexivity | reflexivity] |].
  split; [reflexivity |].
  eexists; split; [vm_compute; reflexivity | reflexivity].
Qed.

(** The encodings theorem on a process whose second input is GML. *)
Lemma functionParameters_supported_encodings_witness :
  functionParameters
    (setProcessDescription sampleFunction
       (Some {| DataInputs :=
                  Some {| DataInputs_Input :=
                            Some (Many [distanceInput; gmlInput; extentInput]) |};
                pd_storeSupported := None;
                pd_statusSupported := None |}))
  = Throw (ThrowTerriaError
      {| title := "Unsupported parameter type";
         message := "The parameter zones is not a supported type of parameter." |}).
Proof.
  destruct (functionParameters_supported_encodings
              (setProcessDescription sampleFunction
                 (Some {| DataInputs :=
                            Some {| DataInputs_Input :=
                                      Some (Many [distanceInput; gmlInput;
                                                  extentInput]) |};
                          pd_storeSupported := None;
                          pd_statusSupported := None |})))
    as (_ & _ & Hthrows).
  apply (Hthrows [distanceInput] gmlInput [extentInput]).
  - reflexivity.
  - repeat constructor. vm_compute. discriminate.
  - reflexivity.
  - reflexivity.
Defined.



(** C5, at a function whose identifier and Execute URL are both defined. *)
Example invoke_sample_makes_no_request :
  identifier sampleFunction = Some "buffer"
  /\ executeUrl sampleFunction
     = Some "http://example.com/wps?service=WPS&request=Execute&version=1.0.0"
  /\ invoke sampleFunction = ([], Fulfilled).
Proof. repeat split. Qed.

(** The registry theorem on the point input: both the point converter and
    the GeoJSON geometry converter accept its schema, the earlier one
    owns it. *)
Lemma convertInputToParameter_first_match_witness :
  inputToParameter GeoJsonGeometryConverter sampleFunction locationInput
    (optionsFor locationInput "location" GeoJsonGeometryConverter) <> None
  /\ exists p,
       convertInputToParameter sampleFunction sampleFunction locationInput
       = Some p
       /\ converter p = Some RefPoint
       /\ kind p = PointParameter None.
Proof.
  split; [vm_compute; discriminate |].
  destruct (convertInputToParameter_first_match sampleFunction sampleFunction
              locationInput) as (_ & _ & Hiff & _).
  eexists. split.
  - apply (Hiff "location" _ eq_refl).
    exists 2%nat, PointConverter.
    split; [reflexivity |]. split; [vm_compute; reflexivity |].
    intros j earlier Hj Hnth.
    destruct j as [|[|j]]; [| |lia]; injection Hnth as <-;
      vm_compute; reflexivity.
  - split; reflexivity.
Defined.

(** C7 as stated fails: the rectangle parameter made from the extent
    input has no value yet, and serializing it through the converter that
    made it yields nothing, so no BoundingBoxData. *)
Lemma rectangle_without_value_yields_nothing :
  inputToParameter RectangleConverter sampleFunction extentInput extentOptions
  = Some (extentParameter None)
  /\ parameterToInput RectangleConverter (extentParameter None) = Normal None
  /\ convertParameterToInput (extentParameter None) = Normal None.
Proof. repeat split. Qed.

(** The wire type theorem on the extent parameter holding the whole
    globe, and on the location parameter holding a point. *)
Lemma parameterToInput_wire_type_witness :
  convertParameterToInput (extentParameter (Some wholeGlobe))
  = Normal (Some
      {| wi_inputIdentifier := "extent";
         wi_inputValue := "-180,-90,180,90,urn:ogc:def:crs:OGC:1.3:CRS84";
         wi_inputType := "BoundingBoxData" |})
  /\ parameterToInput PointConverter
       (newParameter sampleFunction
          (optionsFor locationInput "location" PointConverter)
          (PointParameter
             (Some {| longitude := 0.5; latitude := 0.25; height := 0 |})))
     = Normal (Some
         {| inputValue :=
              Some (PointParameter.formatValueForUrl
                      {| longitude := 0.5; latitude := 0.25; height := 0 |});
            inputType := "ComplexData" |}).
Proof.
  split.
  - destruct (parameterToInput_wire_type RectangleConverter sampleFunction
                extentInput extentOptions (extentParameter None)
                (extentParameter (Some wholeGlobe))
                ltac:(simpl; tauto) eq_refl eq_refl eq_refl)
      as (_ & _ & _ & _ & _ & _ & _ & _ & _ & Hpair & _).
    apply (Hpair
             {| inputValue :=
                  Some "-180,-90,180,90,urn:ogc:def:crs:OGC:1.3:CRS84";
                inputType := "BoundingBoxData" |}).
    + vm_compute. reflexivity.
    + reflexivity.
  - destruct (parameterToInput_wire_type PointConverter sampleFunction
                locationInput
                (optionsFor locationInput "location" PointConverter)
                (newParameter sampleFunction
                   (optionsFor locationInput "location" PointConverter)
                   (PointParameter None))
                (newParameter sampleFunction
                   (optionsFor locationInput "location" PointConverter)
                   (PointParameter
                      (Some {| longitude := 0.5; latitude := 0.25;
                               height := 0 |})))
                ltac:(simpl; tauto) eq_refl eq_refl eq_refl)
      as (_ & _ & _ & _ & Hpoint & _).
    destruct (Hpoint eq_refl) as [Hvalued _].
    exact (Hvalued _ eq_refl).
Defined.

(** The point theorem on a point half a radian east on the equator, ten
    metres up. *)
Example point_feature_sample :
  PointParameter.formatValueForUrl
    {| longitude := 0.5%float; latitude := 0%float; height := 10%float |}
  = String.concat EmptyString
      [ "{"; JsString.quoted "type"; ":"; JsString.quoted "FeatureCollection";
        ","; JsString.quoted "features"; ":[{";
        JsString.quoted "type"; ":"; JsString.quoted "Feature"; ",";
        JsString.quoted "geometry"; ":{";
        JsString.quoted "type"; ":"; JsString.quoted "Point"; ",";
        JsString.quoted "coordinates";
        ":[28.647889756541161432323860935866832733154296875,0,10]},";
        JsString.quoted "properties"; ":{}}]}" ].
Proof. vm_compute. reflexivity. Qed.

(** The polling stop theorem on the accepted response. *)
Lemma polling_stops_without_pending_item_witness :
  handleExecuteResponse sampleFunction
    [ {| reply := Normal (Some succeededResponse);
         workbenchContains := false |} ]
    (Some acceptedResponse) sampleJob false
  = ([], Fulfilled).
Proof.
  apply polling_stops_without_pending_item.
  exists {| ProcessFailed := None; ProcessSucceeded := None |}.
  repeat split. eexists; split; reflexivity.
Defined.

(** The bounding box theorem on the whole globe, in both axis orders. *)
Lemma rectangle_parameterToInput_axis_order_witness :
  parameterToInput RectangleConverter (extentParameter (Some wholeGlobe))
  = Normal (Some
      {| inputValue := Some "-180,-90,180,90,urn:ogc:def:crs:OGC:1.3:CRS84";
         inputType := "BoundingBoxData" |})
  /\ parameterToInput RectangleConverter
       (newParameter sampleFunction extentOptions
          (RectangleParameter "urn:ogc:def:crs:OGC:1.3:CRS84"
             (Some wholeGlobe)))
     = Normal (Some
         {| inputValue := Some "-90,-180,90,180,urn:ogc:def:crs:EPSG:6.6:4326";
            inputType := "BoundingBoxData" |}).
Proof.
  split.
  - destruct (rectangle_parameterToInput_axis_order
                (extentParameter (Some wholeGlobe)) _ _ eq_refl)
      as (_ & Hlonlat & _).
    rewrite (Hlonlat wholeGlobe eq_refl).
    + vm_compute. reflexivity.
    + exists "urn:ogc:def:crs:OGC:1.3:", EmptyString. reflexivity.
  - destruct (rectangle_parameterToInput_axis_order
                (newParameter sampleFunction extentOptions
                   (RectangleParameter "urn:ogc:def:crs:OGC:1.3:CRS84"
                      (Some wholeGlobe))) _ _ eq_refl)
      as (_ & _ & Hlatlon).
    rewrite (Hlatlon wholeGlobe eq_refl).
    + vm_compute. reflexivity.
    + apply indexOf_missing_iff. vm_compute. reflexivity.
Defined.

(** The string searches on the CRS and schema texts of the samples. *)
Example string_search_samples :
  JsString.indexOf "urn:ogc:def:crs:OGC:1.3:crs84" "crs84" = 24
  /\ JsString.indexOf "urn:ogc:def:crs:OGC:1.3:CRS84" "crs84" = -1
  /\ JsString.indexOf "http://geojson.org/geojson-spec.html#point"
       "http://geojson.org/geojson-spec.html#" = 0
  /\ JsString.lastIndexOf "http://geojson.org/geojson-spec.html#point" "#" = 36
  /\ JsString.substringFrom "http://geojson.org/geojson-spec.html#point" 37
     = "point"
  /\ JsString.substringFrom "point" (JsString.lastIndexOf "point" "#" + 1)
     = "point".
Proof. repeat split. Qed.

(** A point parameter that has no value yet: reading the longitude of
    the undefined value throws. *)
Example point_without_value_throws :
  convertInputToParameter sampleFunction sampleFunction locationInput
  = Some (newParameter sampleFunction
            (optionsFor locationInput "location" PointConverter)
            (PointParameter None))
  /\ convertParameterToInput
       (newParameter sampleFunction
          (optionsFor locationInput "location" PointConverter)
          (PointParameter None))
     = Throw (ThrowTypeError "Cannot read property 'longitude' of undefined").
Proof. split; vm_compute; reflexivity. Qed.

(* ================================================================== *)
(** ** Further properties: escaping text *)

Lemma replaceAll_app (c : ascii) (replacement a b : string) :
  replaceAll c replacement (a ++ b)
  = replaceAll c replacement a ++ replaceAll c replacement b.
Proof.
  induction a as [|x a IH]; cbn [replaceAll append]; [reflexivity |].
  now rewrite IH, append_assoc.
Qed.

Lemma escapedChar_cases (c : ascii) :
  (c = "&"%char /\ escapedChar c = "&amp;")
  \/ (c = "<"%char /\ escapedChar c = "&lt;")
  \/ (c = ">"%char /\ escapedChar c = "&gt;")
  \/ (c <> "&"%char /\ c <> "<"%char /\ c <> ">"%char
      /\ escapedChar c = String c EmptyString).
Proof.
  unfold escapedChar.
  destruct (Ascii.eqb_spec c "&"); [now left |].
  destruct (Ascii.eqb_spec c "<"); [now right; left |].
  destruct (Ascii.eqb_spec c ">"); [now right; right; left |].
  now right; right; right.
Qed.

Lemma htmlEscapeText_char (c : ascii) :
  htmlEscapeText (String c EmptyString) = escapedChar c.
Proof.
  destruct (escapedChar_cases c)
    as [[-> ->]|[[-> ->]|[[-> ->]|(Ha & Hl & Hg & ->)]]];
    try reflexivity.
  unfold htmlEscapeText. cbn [replaceAll append].
  apply Ascii.eqb_neq in Ha, Hl, Hg.
  rewrite Ha. cbn [replaceAll append]. rewrite Hl. cbn [replaceAll append].
  now rewrite Hg.
Qed.

Lemma htmlEscapeText_app (a b : string) :
  htmlEscapeText (a ++ b) = htmlEscapeText a ++ htmlEscapeText b.
Proof.
  unfold htmlEscapeText. now rewrite !replaceAll_app.
Qed.

Lemma htmlEscapeText_escapedChars (text : string) :
  htmlEscapeText text = escapedChars text.
Proof.
  induction text as [|c rest IH]; [reflexivity |].
  change (String c rest) with (String c EmptyString ++ rest).
  rewrite htmlEscapeText_app, htmlEscapeText_char, IH. reflexivity.
Qed.

(** X1. The three replacements, made one after the other over the whole text,
    come to the same as escaping each character once, on its own: the
    ampersands that the second and third pass write are not escaped again,
    and the result of a joined text is the join of the results. *)
Theorem htmlEscapeText_single_pass (text : string) :
  htmlEscapeText text = escapedChars text
  /\ forall more, htmlEscapeText (text ++ more)
                  = htmlEscapeText text ++ htmlEscapeText more.
Proof.
  split; [apply htmlEscapeText_escapedChars |].
  intros more. apply htmlEscapeText_app.
Qed.

Lemma chars_app (a b : string) : chars (a ++ b) = (chars a ++ chars b)%list.
Proof.
  unfold chars. induction a as [|x a IH]; cbn; [reflexivity | now rewrite IH].
Qed.

(** X2. Escaped text holds no angle bracket, and an ampersand in it always
    opens one of the three entities. *)
Theorem htmlEscapeText_no_markup (text : string) :
  ~ In "<"%char (chars (htmlEscapeText text))
  /\ ~ In ">"%char (chars (htmlEscapeText text))
  /\ forall before after,
       htmlEscapeText text = before ++ String "&" after ->
       prefix "amp;" after = true
       \/ prefix "lt;" after = true
       \/ prefix "gt;" after = true.
Proof.
  rewrite (htmlEscapeText_escapedChars text).
  assert (Hchar : forall c x, In x (chars (escapedChar c)) ->
                              x <> "<"%char /\ x <> ">"%char).
  { intros c x.
    destruct (escapedChar_cases c)
      as [[-> ->]|[[-> ->]|[[-> ->]|(Ha & Hl & Hg & ->)]]]; cbn;
      intros Hin;
      repeat (destruct Hin as [<-|Hin]; [split; congruence |]);
      contradiction. }
  assert (Hall : forall x, In x (chars (escapedChars text)) ->
                           x <> "<"%char /\ x <> ">"%char).
  { induction text as [|c rest IH]; cbn [escapedChars]; intros x.
    - cbn. contradiction.
    - rewrite chars_app, in_app_iff. intros [Hin|Hin]; eauto. }
  split; [intros Hin; now apply Hall in Hin |].
  split; [intros Hin; now apply Hall in Hin |].
  induction text as [|c rest IH]; cbn [escapedChars]; intros before after.
  - destruct before; discriminate.
  - assert (Hrest : forall x, In x (chars (escapedChars rest)) ->
                              x <> "<"%char /\ x <> ">"%char)
      by (intros x Hin; apply Hall; cbn [escapedChars];
          rewrite chars_app, in_app_iff; now right).
    specialize (IH Hrest).
    destruct (escapedChar_cases c)
      as [[-> ->]|[[-> ->]|[[-> ->]|(Ha & Hl & Hg & ->)]]];
      cbn [append]; intros E.
    + destruct before as [|b0 before]; cbn [append] in E.
      * injection E as <-. left.
        apply prefix_iff_append. eexists. reflexivity.
      * injection E as <- E.
        do 4 (destruct before as [|? before]; cbn [append] in E;
              [discriminate E | injection E as <- E]).
        eapply IH. exact E.
    + destruct before as [|b0 before]; cbn [append] in E.
      * injection E as <-. right; left.
        apply prefix_iff_append. eexists. reflexivity.
      * injection E as <- E.
        do 3 (destruct before as [|? before]; cbn [append] in E;
              [discriminate E | injection E as <- E]).
        eapply IH. exact E.
    + destruct before as [|b0 before]; cbn [append] in E.
      * injection E as <-. right; right.
        apply prefix_iff_append. eexists. reflexivity.
      * injection E as <- E.
        do 3 (destruct before as [|? before]; cbn [append] in E;
              [discriminate E | injection E as <- E]).
        eapply IH. exact E.
    + destruct before as [|b0 before]; cbn [append] in E.
      * injection E as -> _. congruence.
      * injection E as <- E. eapply IH. exact E.
Qed.

Lemma escapedChars_length (text : string) :
  (String.length text <= String.length (escapedChars text))%nat.
Proof.
  induction text as [|c rest IH]; cbn [escapedChars]; [apply le_n |].
  destruct (escapedChar_cases c)
    as [[-> ->]|[[-> ->]|[[-> ->]|(Ha & Hl & Hg & ->)]]];
    cbn [append String.length]; lia.
Qed.

(** X3. Text comes out of the escaping as it went in exactly when it holds
    none of the three characters. *)
Theorem htmlEscapeText_unchanged_iff (text : string) :
  htmlEscapeText text = text
  <-> (~ In "&"%char (chars text)
       /\ ~ In "<"%char (chars text)
       /\ ~ In ">"%char (chars text)).
Proof.
  rewrite (htmlEscapeText_escapedChars text).
  induction text as [|c rest IH]; cbn [escapedChars].
  - cbn. tauto.
  - unfold chars in *. cbn [list_ascii_of_string In].
    pose proof (escapedChars_length rest) as Hlen.
    destruct (escapedChar_cases c)
      as [[-> ->]|[[-> ->]|[[-> ->]|(Ha & Hl & Hg & ->)]]];
      cbn [append].
    + split; [|tauto]. intros E. injection E as E.
      apply (f_equal String.length) in E. cbn [String.length] in E. lia.
    + split; [discriminate | tauto].
    + split; [discriminate | tauto].
    + split.
      * intros E. injection E as E. apply IH in E.
        destruct E as (Ea & El & Eg).
        repeat split; intros [?|?]; congruence || tauto.
      * intros (Ea & El & Eg). f_equal. apply IH. tauto.
Qed.

(** X4. Two different texts are never escaped to the same text. *)
Theorem htmlEscapeText_injective (a b : string) :
  htmlEscapeText a = htmlEscapeText b -> a = b.
Proof.
  rewrite (htmlEscapeText_escapedChars a), (htmlEscapeText_escapedChars b).
  revert b. induction a as [|x a IH]; intros [|y b]; cbn [escapedChars].
  - reflexivity.
  - destruct (escapedChar_cases y)
      as [[-> ->]|[[-> ->]|[[-> ->]|(_ & _ & _ & ->)]]]; discriminate.
  - destruct (escapedChar_cases x)
      as [[-> ->]|[[-> ->]|[[-> ->]|(_ & _ & _ & ->)]]]; discriminate.
  - destruct (escapedChar_cases x)
      as [[-> ->]|[[-> ->]|[[-> ->]|(Ha & Hl & Hg & ->)]]];
      destruct (escapedChar_cases y)
        as [[-> ->]|[[-> ->]|[[-> ->]|(Ha' & Hl' & Hg' & ->)]]];
      cbn [append]; intros E; try discriminate E;
      try (injection E as E; f_equal; now apply IH);
      try (injection E as E' E; congruence).
    injection E as -> E. f_equal. now apply IH.
Qed.

(** The injectivity theorem on one text cut in two places. *)
Lemma htmlEscapeText_injective_witness :
  "a < b" ++ " & c" = "a <" ++ " b & c".
Proof.
  apply htmlEscapeText_injective. reflexivity.
Defined.

Example htmlEscapeText_sample :
  htmlEscapeText "a < b & c" = "a &lt; b &amp; c"
  /\ htmlEscapeText "a &lt; b" = "a &amp;lt; b"
  /\ htmlEscapeText "plain text" = "plain text".
Proof. repeat split. Qed.

(* ================================================================== *)
(** ** Further properties: the converters *)

Lemma contains_cons (c : ascii) (s : string) (x : ascii) :
  JsString.Contains (String c s) (String x EmptyString)
  <-> c = x \/ JsString.Contains s (String x EmptyString).
Proof.
  split.
  - intros ([|b before] & after & E); cbn [append] in E.
    + injection E as -> _. now left.
    + injection E as _ E. right. now exists before, after.
  - intros [->|(before & after & ->)].
    + now exists EmptyString, s.
    + now exists (String c before), after.
Qed.

Lemma not_contains_empty (x : ascii) :
  ~ JsString.Contains EmptyString (String x EmptyString).
Proof. intros ([|? ?] & after & E); discriminate E. Qed.

Lemma prefix_char (x : ascii) (s : string) :
  prefix (String x EmptyString) s = true <-> exists rest, s = String x rest.
Proof. apply prefix_iff_append. Qed.

(** Every text either holds no [x] or splits at its last [x]. *)
Lemma last_occurrence (x : ascii) (s : string) :
  ~ JsString.Contains s (String x EmptyString)
  \/ exists before after,
       s = before ++ String x after
       /\ ~ JsString.Contains after (String x EmptyString).
Proof.
  induction s as [|c s [IH|(before & after & -> & Hafter)]].
  - left. apply not_contains_empty.
  - destruct (ascii_dec c x) as [->|Hne].
    + right. exists EmptyString, s. split; [reflexivity | exact IH].
    + left. rewrite contains_cons. tauto.
  - right. exists (String c before), after. split; [reflexivity | exact Hafter].
Qed.

Lemma lastIndexOfFrom_missing (x : ascii) (s : string) (pos : Z) :
  ~ JsString.Contains s (String x EmptyString) ->
  JsString.lastIndexOfFrom (String x EmptyString) s pos = -1.
Proof.
  revert pos. induction s as [|c s IH]; intros pos Hno;
    cbn [JsString.lastIndexOfFrom].
  - reflexivity.
  - rewrite contains_cons in Hno.
    rewrite IH by tauto. cbn [Z.eqb Pos.eqb].
    destruct (prefix (String x EmptyString) (String c s)) eqn:P;
      [|reflexivity].
    apply prefix_char in P. destruct P as [rest P]. injection P as -> _.
    tauto.
Qed.

Lemma lastIndexOfFrom_last (x : ascii) (before after : string) (pos : Z) :
  0 <= pos ->
  ~ JsString.Contains after (String x EmptyString) ->
  JsString.lastIndexOfFrom (String x EmptyString)
    (before ++ String x after) pos
  = pos + Z.of_nat (String.length before).
Proof.
  revert pos. induction before as [|c before IH]; intros pos Hpos Hno;
    cbn [append JsString.lastIndexOfFrom String.length].
  - rewrite (lastIndexOfFrom_missing x after (pos + 1) Hno).
    cbn [Z.eqb Pos.eqb].
    assert (P : prefix (String x EmptyString) (String x after) = true)
      by (apply prefix_char; now exists after).
    rewrite P. cbn. lia.
  - rewrite IH by (lia || assumption).
    destruct (pos + 1 + Z.of_nat (String.length before) =? -1) eqn:E.
    + apply Z.eqb_eq in E. lia.
    + lia.
Qed.

Lemma substring_all (s : string) : substring 0 (String.length s) s = s.
Proof.
  induction s as [|c s IH]; cbn; [reflexivity | now rewrite IH].
Qed.

Lemma substring_skip (a b : string) :
  substring (String.length a) (String.length b) (a ++ b) = b.
Proof.
  induction a as [|c a IH]; cbn [append String.length substring];
    [apply substring_all | exact IH].
Qed.

Lemma length_append (a b : string) :
  String.length (a ++ b) = (String.length a + String.length b)%nat.
Proof.
  induction a as [|c a IH]; cbn; [reflexivity | now rewrite IH].
Qed.

Lemma substringFrom_app (a b : string) :
  JsString.substringFrom (a ++ b) (Z.of_nat (String.length a)) = b.
Proof.
  unfold JsString.substringFrom.
  rewrite Z.max_r by lia. rewrite Nat2Z.id, length_append.
  replace (String.length a + String.length b - String.length a)%nat
    with (String.length b) by lia.
  apply substring_skip.
Qed.

(** [s.substring(s.lastIndexOf(x) + 1)]: what follows the last [x], or
    the whole text when there is none. *)
Lemma after_last_split (x : ascii) (before after : string) :
  ~ JsString.Contains after (String x EmptyString) ->
  JsString.substringFrom (before ++ String x after)
    (JsString.lastIndexOf (before ++ String x after) (String x EmptyString) + 1)
  = after.
Proof.
  intros Hno. unfold JsString.lastIndexOf.
  rewrite (lastIndexOfFrom_last x before after 0) by (lia || assumption).
  replace (0 + Z.of_nat (String.length before) + 1)
    with (Z.of_nat (String.length (before ++ String x EmptyString)))
    by (rewrite length_append; cbn [String.length]; lia).
  replace (before ++ String x after)
    with ((before ++ String x EmptyString) ++ after)
    by (now rewrite append_assoc).
  apply substringFrom_app.
Qed.

Lemma after_last_whole (x : ascii) (s : string) :
  ~ JsString.Contains s (String x EmptyString) ->
  JsString.substringFrom s
    (JsString.lastIndexOf s (String x EmptyString) + 1)
  = s.
Proof.
  intros Hno. unfold JsString.lastIndexOf.
  rewrite (lastIndexOfFrom_missing x s 0 Hno).
  unfold JsString.substringFrom. cbn [Z.add Z.max Z.to_nat Z.compare].
  rewrite Nat.sub_0_r. apply substring_all.
Qed.

Section Converters.

Context {ext : Externals}.

(** X5. A converter made by [simpleGeoJsonDataConverter] for a schema type
    without [#] accepts exactly the inputs whose ComplexData schema starts
    with the GeoJSON address and ends with [#] and the schema type; what
    it returns is then the class instance built from the options. *)
Theorem simpleGeoJsonDataConverter_accepts_iff
  (schemaType : string) (klass : ParameterClass) (self : ConverterRef)
  (cf : WebProcessingServiceCatalogFunction) (input : Input)
  (options : Options) (p : FunctionParameter) :
  ~ JsString.Contains schemaType "#" ->
  (inputToParameter (simpleGeoJsonDataConverter schemaType klass self)
     cf input options = Some p
   <-> exists schema before,
         complexDataSchema input = Some schema
         /\ prefix "http://geojson.org/geojson-spec.html#" schema = true
         /\ schema = before ++ "#" ++ schemaType
         /\ p = construct klass cf options).
Proof.
  intros Hplain.
  unfold simpleGeoJsonDataConverter. cbn [inputToParameter].
  split.
  - destruct (complexDataSchema input) as [schema|]; [|discriminate].
    destruct (JsString.indexOf schema _ =? 0) eqn:Hprefix;
      cbn [negb]; [|discriminate].
    apply Z.eqb_eq, indexOf_zero_iff in Hprefix.
    destruct (String.eqb_spec
                (JsString.substringFrom schema
                   (JsString.lastIndexOf schema "#" + 1)) schemaType)
      as [Htail|]; cbn [negb]; [|discriminate].
    intros [= <-].
    destruct (last_occurrence "#" schema)
      as [Hnone|(before & after & -> & Hafter)].
    + exfalso. apply Hnone.
      apply prefix_iff_append in Hprefix. destruct Hprefix as [rest ->].
      exists "http://geojson.org/geojson-spec.html", rest. reflexivity.
    + rewrite (after_last_split "#" before after Hafter) in Htail.
      subst after. exists (before ++ "#" ++ schemaType), before.
      repeat split; assumption.
  - intros (schema & before & -> & Hprefix & -> & ->).
    apply indexOf_zero_iff in Hprefix. rewrite Hprefix. cbn [Z.eqb negb].
    cbn [append].
    rewrite (after_last_split "#" before schemaType Hplain).
    now rewrite String.eqb_refl.
Qed.

(** X6. The three geometry converters made by [simpleGeoJsonDataConverter]
    never accept the same input; an input one of them accepts is refused
    by the dateTime converter and would also be accepted by the GeoJSON
    geometry converter, so it is the registry order that gives it to
    the more specific one. *)
Theorem simple_converters_exclude_each_other
  (cf : WebProcessingServiceCatalogFunction) (input : Input)
  (c1 c2 : ParameterConverter) (options1 options2 options3 : Options) :
  In c1 [PointConverter; LineConverter; PolygonConverter] ->
  In c2 [PointConverter; LineConverter; PolygonConverter] ->
  inputToParameter c1 cf input options1 <> None ->
  (inputToParameter c2 cf input options2 <> None -> ref c1 = ref c2)
  /\ inputToParameter DateTimeConverter cf input options3 = None
  /\ inputToParameter GeoJsonGeometryConverter cf input options3 <> None.
Proof.
  intros H1 H2 Hacc.
  assert (Hshape : exists schema,
             complexDataSchema input = Some schema
             /\ JsString.indexOf schema
                  "http://geojson.org/geojson-spec.html#" = 0
             /\ In (JsString.substringFrom schema
                      (JsString.lastIndexOf schema "#" + 1),
                    ref c1)
                   [ ("point", RefPoint); ("linestring", RefLine);
                     ("polygon", RefPolygon) ]).
  { cbn [In] in H1.
    destruct H1 as [<-|[<-|[<-|[]]]];
      unfold PointConverter, LineConverter, PolygonConverter,
        simpleGeoJsonDataConverter in Hacc |- *;
      cbn [inputToParameter ref] in Hacc |- *;
      destruct (complexDataSchema input) as [schema|]; try congruence;
      exists schema;
      destruct (JsString.indexOf schema _ =? 0) eqn:Hprefix;
      cbn [negb] in Hacc; try congruence;
      apply Z.eqb_eq in Hprefix;
      match type of Hacc with
      | context [String.eqb ?a ?b] =>
          destruct (String.eqb_spec a b) as [->|]; cbn [negb] in Hacc;
          try congruence
      end;
      (split; [reflexivity | split; [exact Hprefix | cbn [In]; tauto]]). }
  destruct Hshape as (schema & Hschema & Hprefix & Htail).
  split; [|split].
  - intros Hacc2. cbn [In] in H2.
    destruct H2 as [<-|[<-|[<-|[]]]];
      unfold PointConverter, LineConverter, PolygonConverter,
        simpleGeoJsonDataConverter in Hacc2 |- *;
      cbn [inputToParameter ref] in Hacc2 |- *;
      rewrite Hschema, Hprefix in Hacc2; cbn [Z.eqb negb] in Hacc2;
      match type of Hacc2 with
      | context [String.eqb ?a ?b] =>
          destruct (String.eqb_spec a b) as [E|]; cbn [negb] in Hacc2;
          try congruence
      end;
      rewrite E in Htail; cbn [In] in Htail;
      destruct Htail as [Ht|[Ht|[Ht|[]]]]; congruence.
  - unfold DateTimeConverter. cbn [inputToParameter]. rewrite Hschema.
    destruct (String.eqb_spec schema
                "http://www.w3.org/TR/xmlschema-2/#dateTime") as [->|];
      [|reflexivity].
    vm_compute in Hprefix. discriminate Hprefix.
  - unfold GeoJsonGeometryConverter. cbn [inputToParameter].
    rewrite Hschema, Hprefix. cbn [Z.eqb negb]. discriminate.
Qed.

(** The first entry of a list of CRS texts whose code is Terria's. *)
Lemma firstTerriaCrs_spec (supported : list string) :
  match firstTerriaCrs supported with
  | Some crs =>
      exists earlier later,
        supported = (earlier ++ crs :: later)%list
        /\ crsStringToCode crs = Some TERRIA_CRS
        /\ Forall (fun s => crsStringToCode s <> Some TERRIA_CRS) earlier
  | None => Forall (fun s => crsStringToCode s <> Some TERRIA_CRS) supported
  end.
Proof.
  assert (Hcode : forall s, isTerriaCrs (crsStringToCode s) = true
                            <-> crsStringToCode s = Some TERRIA_CRS).
  { intros s. unfold isTerriaCrs.
    destruct (crsStringToCode s) as [code|]; [|split; discriminate].
    rewrite String.eqb_eq. split; congruence. }
  induction supported as [|s rest IH]; cbn [firstTerriaCrs].
  - constructor.
  - destruct (isTerriaCrs (crsStringToCode s)) eqn:E.
    + apply Hcode in E. exists [], rest. repeat split; auto.
    + assert (crsStringToCode s <> Some TERRIA_CRS)
        by (intros Hs; apply Hcode in Hs; congruence).
      destruct (firstTerriaCrs rest) as [crs|].
      * destruct IH as (earlier & later & -> & Hcrs & Hearlier).
        exists (s :: earlier), later. repeat split; auto.
      * constructor; assumption.
Qed.

Lemma isTerriaCrs_iff (s : string) :
  isTerriaCrs (crsStringToCode s) = true
  <-> crsStringToCode s = Some TERRIA_CRS.
Proof.
  unfold isTerriaCrs.
  destruct (crsStringToCode s) as [code|]; [|split; discriminate].
  rewrite String.eqb_eq. split; congruence.
Qed.

Lemma firstTerriaCrs_first (earlier : list string) (first : string)
  (later : list string) :
  Forall (fun s => crsStringToCode s <> Some TERRIA_CRS) earlier ->
  crsStringToCode first = Some TERRIA_CRS ->
  firstTerriaCrs (earlier ++ first :: later) = Some first.
Proof.
  intros Hearlier Hfirst.
  induction Hearlier as [|s earlier Hs _ IH]; cbn [app firstTerriaCrs].
  - apply isTerriaCrs_iff in Hfirst. now rewrite Hfirst.
  - destruct (isTerriaCrs (crsStringToCode s)) eqn:E; [|exact IH].
    apply isTerriaCrs_iff in E. contradiction.
Qed.

Lemma firstTerriaCrs_none (entries : list string) :
  Forall (fun s => crsStringToCode s <> Some TERRIA_CRS) entries ->
  firstTerriaCrs entries = None.
Proof.
  induction 1 as [|s entries Hs _ IH]; cbn [firstTerriaCrs];
    [reflexivity |].
  destruct (isTerriaCrs (crsStringToCode s)) eqn:E; [|exact IH].
  apply isTerriaCrs_iff in E. contradiction.
Qed.

(** X7. The rectangle converter accepts an input exactly when it has a
    default CRS and either that CRS has a code or the loop over
    [Supported.CRS] meets an entry with Terria's code.  The entries are
    the elements of [Supported.CRS] when it is an array; when it is a lone
    string, as for a single supported CRS, they are its characters, one
    at a time. *)
Theorem rectangle_accepts_iff
  (cf : WebProcessingServiceCatalogFunction) (input : Input)
  (options : Options) :
  inputToParameter RectangleConverter cf input options <> None
  <-> exists boundingBoxData default defaultCrs,
        BoundingBoxData input = Some boundingBoxData
        /\ BoundingBox_Default boundingBoxData = Some default
        /\ Default_CRS default = Some defaultCrs
        /\ (crsStringToCode defaultCrs <> None
            \/ (exists supported entries crs,
                   Supported boundingBoxData = Some supported
                   /\ Supported_CRS supported = Some (Many entries)
                   /\ In crs entries
                   /\ crsStringToCode crs = Some TERRIA_CRS)
            \/ (exists supported text c,
                   Supported boundingBoxData = Some supported
                   /\ Supported_CRS supported = Some (One text)
                   /\ In c (chars text)
                   /\ crsStringToCode (String c EmptyString)
                      = Some TERRIA_CRS)).
Proof.
  assert (Hvisited : forall b,
    (exists entries crs,
        supportedCrsList b = Some entries
        /\ In crs entries /\ crsStringToCode crs = Some TERRIA_CRS)
    <-> ((exists supported entries crs,
             Supported b = Some supported
             /\ Supported_CRS supported = Some (Many entries)
             /\ In crs entries
             /\ crsStringToCode crs = Some TERRIA_CRS)
         \/ (exists supported text c,
               Supported b = Some supported
               /\ Supported_CRS supported = Some (One text)
               /\ In c (chars text)
               /\ crsStringToCode (String c EmptyString)
                  = Some TERRIA_CRS))).
  { intros b. unfold supportedCrsList, indexed, chars. split.
    - intros (entries & crs & Hentries & Hin & Hcrs).
      destruct (Supported b) as [supported|]; [|discriminate].
      destruct (Supported_CRS supported) as [[text|several]|] eqn:Hlisted;
        cbn [option_map] in Hentries; [| |discriminate];
        injection Hentries as <-.
      + right. apply in_map_iff in Hin. destruct Hin as (c & <- & Hin).
        now exists supported, text, c.
      + left. now exists supported, several, crs.
    - intros [(supported & entries & crs & -> & -> & Hin & Hcrs)
             |(supported & text & c & -> & -> & Hin & Hcrs)];
        cbn [option_map].
      + now exists entries, crs.
      + eexists. exists (String c EmptyString).
        split; [reflexivity |]. split; [|exact Hcrs].
        apply in_map_iff. now exists c. }
  unfold RectangleConverter. cbn [inputToParameter].
  split.
  - destruct (BoundingBoxData input) as [b|]; [|congruence].
    destruct (BoundingBox_Default b) as [d|] eqn:Hd; [|congruence].
    destruct (Default_CRS d) as [defaultCrs|] eqn:Hc; [|congruence].
    intros Hacc. exists b, d, defaultCrs.
    split; [reflexivity | split; [exact Hd | split; [exact Hc |]]].
    destruct (isTerriaCrs (crsStringToCode defaultCrs)) eqn:Ht;
      cbn [negb] in Hacc.
    + left. unfold isTerriaCrs in Ht.
      destruct (crsStringToCode defaultCrs); [discriminate | discriminate].
    + destruct (supportedCrsList b) as [supported|] eqn:Hsupported.
      * pose proof (firstTerriaCrs_spec supported) as Hfirst.
        destruct (firstTerriaCrs supported) as [crs|].
        -- destruct Hfirst as (earlier & later & -> & Hcrs & _).
           right. apply Hvisited.
           exists (earlier ++ crs :: later)%list, crs.
           repeat split; auto. apply in_elt.
        -- left. destruct (crsStringToCode defaultCrs);
             [discriminate | cbn in Hacc; congruence].
      * left. destruct (crsStringToCode defaultCrs);
          [discriminate | cbn in Hacc; congruence].
  - intros (b & d & defaultCrs & -> & -> & -> & Hcode).
    rewrite <- Hvisited in Hcode.
    destruct (isTerriaCrs (crsStringToCode defaultCrs)) eqn:Ht; cbn [negb].
    + unfold isTerriaCrs in Ht.
      destruct (crsStringToCode defaultCrs); [discriminate | discriminate].
    + destruct (supportedCrsList b) as [supported|].
      * pose proof (firstTerriaCrs_spec supported) as Hfirst.
        destruct (firstTerriaCrs supported) as [crs|]; [discriminate |].
        destruct Hcode as [Hcode|(supported' & crs & [= <-] & Hin & Hcrs)].
        -- destruct (crsStringToCode defaultCrs);
             [discriminate | congruence].
        -- rewrite Forall_forall in Hfirst. now apply Hfirst in Hin.
      * destruct Hcode as [Hcode|(supported' & crs & Hs & _)];
          [|discriminate].
        destruct (crsStringToCode defaultCrs); [discriminate | congruence].
Qed.

(** X8. The CRS of a rectangle parameter always has a code, and it is
    determined by the input.  It is the default CRS when that one has
    Terria's code.  Otherwise it is the first entry with Terria's code
    that the loop over [Supported.CRS] meets, and the default CRS when
    [Supported.CRS] is absent or has no such entry.  The entries are the
    elements of an array and the characters of a lone string, so a
    single supported CRS is never taken.  The parameter starts without a
    value. *)
Theorem rectangle_parameter_crs
  (cf : WebProcessingServiceCatalogFunction) (input : Input)
  (options : Options) (p : FunctionParameter)
  (boundingBoxData : BoundingBoxData_t) (default : BoundingBoxDefault_t)
  (defaultCrs : string) :
  BoundingBoxData input = Some boundingBoxData ->
  BoundingBox_Default boundingBoxData = Some default ->
  Default_CRS default = Some defaultCrs ->
  inputToParameter RectangleConverter cf input options = Some p ->
  exists crs,
    p = newParameter cf options (RectangleParameter crs None)
    /\ crsStringToCode crs <> None
    /\ (crsStringToCode defaultCrs = Some TERRIA_CRS -> crs = defaultCrs)
    /\ (crsStringToCode defaultCrs <> Some TERRIA_CRS ->
        (forall supported entries earlier first later,
            Supported boundingBoxData = Some supported ->
            Supported_CRS supported = Some (Many entries) ->
            entries = (earlier ++ first :: later)%list ->
            Forall (fun s => crsStringToCode s <> Some TERRIA_CRS) earlier ->
            crsStringToCode first = Some TERRIA_CRS ->
            crs = first)
        /\ (forall supported entries,
              Supported boundingBoxData = Some supported ->
              Supported_CRS supported = Some (Many entries) ->
              Forall (fun s => crsStringToCode s <> Some TERRIA_CRS)
                entries ->
              crs = defaultCrs)
        /\ (forall supported text earlier first later,
              Supported boundingBoxData = Some supported ->
              Supported_CRS supported = Some (One text) ->
              chars text = (earlier ++ first :: later)%list ->
              Forall (fun c => crsStringToCode (String c EmptyString)
                               <> Some TERRIA_CRS) earlier ->
              crsStringToCode (String first EmptyString)
              = Some TERRIA_CRS ->
              crs = String first EmptyString)
        /\ (forall supported text,
              Supported boundingBoxData = Some supported ->
              Supported_CRS supported = Some (One text) ->
              Forall (fun c => crsStringToCode (String c EmptyString)
                               <> Some TERRIA_CRS) (chars text) ->
              crs = defaultCrs)
        /\ (Supported boundingBoxData = None -> crs = defaultCrs)
        /\ (forall supported,
              Supported boundingBoxData = Some supported ->
              Supported_CRS supported = None ->
              crs = defaultCrs)).
Proof.
  intros Hb Hd Hc. unfold RectangleConverter. cbn [inputToParameter].
  rewrite Hb, Hd, Hc.
  assert (Hterria : isTerriaCrs (crsStringToCode defaultCrs) = true
                    <-> crsStringToCode defaultCrs = Some TERRIA_CRS).
  { unfold isTerriaCrs.
    destruct (crsStringToCode defaultCrs) as [code|]; [|split; discriminate].
    rewrite String.eqb_eq. split; congruence. }
  assert (Hloop : forall crs,
    crs = match supportedCrsList boundingBoxData with
          | Some visited =>
              match firstTerriaCrs visited with
              | Some first => first
              | None => defaultCrs
              end
          | None => defaultCrs
          end ->
    (forall supported entries earlier first later,
        Supported boundingBoxData = Some supported ->
        Supported_CRS supported = Some (Many entries) ->
        entries = (earlier ++ first :: later)%list ->
        Forall (fun s => crsStringToCode s <> Some TERRIA_CRS) earlier ->
        crsStringToCode first = Some TERRIA_CRS ->
        crs = first)
    /\ (forall supported entries,
          Supported boundingBoxData = Some supported ->
          Supported_CRS supported = Some (Many entries) ->
          Forall (fun s => crsStringToCode s <> Some TERRIA_CRS) entries ->
          crs = defaultCrs)
    /\ (forall supported text earlier first later,
          Supported boundingBoxData = Some supported ->
          Supported_CRS supported = Some (One text) ->
          chars text = (earlier ++ first :: later)%list ->
          Forall (fun c => crsStringToCode (String c EmptyString)
                           <> Some TERRIA_CRS) earlier ->
          crsStringToCode (String first EmptyString) = Some TERRIA_CRS ->
          crs = String first EmptyString)
    /\ (forall supported text,
          Supported boundingBoxData = Some supported ->
          Supported_CRS supported = Some (One text) ->
          Forall (fun c => crsStringToCode (String c EmptyString)
                           <> Some TERRIA_CRS) (chars text) ->
          crs = defaultCrs)
    /\ (Supported boundingBoxData = None -> crs = defaultCrs)
    /\ (forall supported,
          Supported boundingBoxData = Some supported ->
          Supported_CRS supported = None ->
          crs = defaultCrs)).
  { intros crs ->. unfold supportedCrsList, indexed, chars.
    repeat split.
    - intros supported entries earlier first later -> -> -> Hearlier Hfirst.
      cbn [option_map].
      now rewrite (firstTerriaCrs_first earlier first later Hearlier Hfirst).
    - intros supported entries -> -> Hnone. cbn [option_map].
      now rewrite (firstTerriaCrs_none entries Hnone).
    - intros supported text earlier first later -> -> Hchars Hearlier Hfirst.
      cbn [option_map]. rewrite Hchars, map_app. cbn [map].
      rewrite (firstTerriaCrs_first _ (String first EmptyString) _);
        [reflexivity | | exact Hfirst].
      apply Forall_map. exact Hearlier.
    - intros supported text -> -> Hnone. cbn [option_map].
      rewrite (firstTerriaCrs_none _); [reflexivity |].
      apply Forall_map. exact Hnone.
    - now intros ->.
    - now intros supported -> ->. }
  destruct (isTerriaCrs (crsStringToCode defaultCrs)) eqn:Ht; cbn [negb].
  - assert (Hcode : crsStringToCode defaultCrs = Some TERRIA_CRS)
      by now apply Hterria.
    rewrite Hcode. cbn [isDefined negb]. intros [= <-].
    exists defaultCrs.
    split; [reflexivity |]. split; [congruence |].
    split; [reflexivity |]. intros Hnot. now elim Hnot.
  - assert (Hnot : crsStringToCode defaultCrs <> Some TERRIA_CRS)
      by (intros E; apply Hterria in E; congruence).
    specialize (Hloop _ eq_refl).
    destruct (supportedCrsList boundingBoxData) as [visited|].
    + pose proof (firstTerriaCrs_spec visited) as Hfirst.
      destruct (firstTerriaCrs visited) as [crs|].
      * cbn [isDefined negb]. intros [= <-].
        destruct Hfirst as (earlier & later & _ & Hcrs & _).
        exists crs.
        split; [reflexivity |]. split; [congruence |].
        split; [tauto |]. intros _. exact Hloop.
      * destruct (crsStringToCode defaultCrs) as [code|] eqn:Hcode;
          cbn [isDefined negb]; [|discriminate].
        intros [= <-]. exists defaultCrs.
        split; [reflexivity |]. split; [congruence |].
        split; [reflexivity |]. intros _. exact Hloop.
    + destruct (crsStringToCode defaultCrs) as [code|] eqn:Hcode;
        cbn [isDefined negb]; [|discriminate].
      intros [= <-]. exists defaultCrs.
      split; [reflexivity |]. split; [congruence |].
      split; [reflexivity |]. intros _. exact Hloop.
Qed.

End Converters.

(* ================================================================== *)
(** ** Further properties: from inputs to parameters and back *)

Lemma mapM_Forall2 {A B : Type} (f : A -> Completion B)
  (l : list A) (bs : list B) :
  mapM f l = Normal bs <-> Forall2 (fun a b => f a = Normal b) l bs.
Proof.
  revert bs. induction l as [|a l IH]; intros bs; cbn [mapM].
  - split.
    + intros [= <-]. constructor.
    + intros Hall. inversion Hall. reflexivity.
  - split.
    + destruct (f a) as [b| |] eqn:Ea; cbn [bind]; try discriminate.
      destruct (mapM f l) as [bs'| |] eqn:El; cbn [bind]; try discriminate.
      intros [= <-]. constructor; [exact Ea | now apply IH].
    + intros Hall. inversion Hall as [|? b ? bs' Ea Hrest]; subst.
      rewrite Ea. cbn [bind]. apply IH in Hrest. rewrite Hrest. reflexivity.
Qed.

Section Parameters.

Context {ext : Externals}.

(** What [convertInputToParameter] returns was built by a converter of
    the registry from the options the input gives. *)
Lemma converted_parameter
  (this cf : WebProcessingServiceCatalogFunction) (input : Input)
  (p : FunctionParameter) :
  convertInputToParameter this cf input = Some p ->
  exists identifier c k,
    Identifier input = Some identifier
    /\ In c parameterConverters
    /\ p = newParameter cf (optionsFor input identifier c) k
    /\ clearKind k = k
    /\ In (variantOf k) (variantsOf (ref c)).
Proof.
  unfold convertInputToParameter.
  destruct (Identifier input) as [identifier|]; [|discriminate].
  intros Hp. apply firstParameter_iff in Hp.
  destruct Hp as (i & c & Hnth & Hacc & _).
  pose proof (nth_error_In _ _ Hnth) as Hin.
  destruct (created_parameter c cf input _ p Hin Hacc) as (k & -> & Hk & Hv).
  now exists identifier, c, k.
Qed.

Lemma withValue_spec (v : Value_t) (p : FunctionParameter)
  (k : ParameterKind) :
  withValue v (kind p) = Some k ->
  clearValue (setKind p k) = clearValue p
  /\ value (setKind p k) = Some v.
Proof.
  unfold clearValue, value, setKind. cbn [kind catalogFunction id name
    description isRequired converter].
  destruct (kind p), v; cbn [withValue]; try discriminate;
    intros [= <-]; split; reflexivity.
Qed.

Lemma fresh_has_no_value (p : FunctionParameter) :
  clearValue p = p -> value p = None.
Proof.
  intros Hp. apply (f_equal kind) in Hp. unfold value.
  cbn [clearValue kind] in Hp.
  destruct (kind p); cbn [clearKind] in Hp; injection Hp as <-; reflexivity.
Qed.

(** The objects with the kept values are the fresh ones, each with the
    value kept for its position. *)
Lemma keepValues_spec (values : list (option Value_t))
  (fresh kept : list FunctionParameter) :
  Forall (fun p => clearValue p = p) fresh ->
  keepValues values fresh = Normal kept ->
  Forall2 (fun p q => clearValue q = p) fresh kept
  /\ forall i q,
       nth_error kept i = Some q ->
       value q = match nth_error values i with
                 | Some held => held
                 | None => None
                 end.
Proof.
  intros Hfresh. revert values kept.
  induction Hfresh as [|p fresh Hp Hrest IH]; intros values kept.
  - destruct values; cbn [keepValues]; intros [= <-];
      (split; [constructor | intros [|i] q; discriminate]).
  - destruct values as [|[v|] later]; cbn [keepValues].
    + intros [= <-]. split.
      * constructor; [exact Hp |].
        clear IH. induction Hrest; constructor; assumption.
      * intros i q Hq.
        assert (Hin : In q (p :: fresh)) by (eapply nth_error_In; exact Hq).
        assert (Hclear : clearValue q = q).
        { destruct Hin as [<-|Hin]; [exact Hp |].
          rewrite Forall_forall in Hrest. now apply Hrest. }
        rewrite (fresh_has_no_value q Hclear).
        now destruct i.
    + destruct (withValue v (kind p)) as [k|] eqn:Hk; [|discriminate].
      destruct (keepValues later fresh) as [rest| |] eqn:Hkept;
        cbn [bind]; try discriminate.
      intros [= <-].
      destruct (IH later rest Hkept) as [Hsame Hvalues].
      destruct (withValue_spec v p k Hk) as [Hclear Hvalue].
      split.
      * constructor; [congruence | exact Hsame].
      * intros [|i] q; cbn [nth_error].
        -- now intros [= <-].
        -- apply Hvalues.
    + destruct (keepValues later fresh) as [rest| |] eqn:Hkept;
        cbn [bind]; try discriminate.
      intros [= <-].
      destruct (IH later rest Hkept) as [Hsame Hvalues].
      split.
      * constructor; [exact Hp | exact Hsame].
      * intros [|i] q; cbn [nth_error].
        -- intros [= <-]. now apply fresh_has_no_value.
        -- apply Hvalues.
Qed.

Lemma keepValues_never_throws (values : list (option Value_t))
  (fresh : list FunctionParameter) (e : Exception) :
  keepValues values fresh <> Throw e.
Proof.
  revert values. induction fresh as [|p fresh IH]; intros values.
  - destruct values; discriminate.
  - destruct values as [|[v|] later]; cbn [keepValues]; [discriminate | |].
    + destruct (withValue v (kind p)); [|discriminate].
      specialize (IH later).
      destruct (keepValues later fresh); cbn [bind]; congruence.
    + specialize (IH later).
      destruct (keepValues later fresh); cbn [bind]; congruence.
Qed.

Lemma converted_is_fresh
  (this cf : WebProcessingServiceCatalogFunction) (input : Input)
  (p : FunctionParameter) :
  convertInputToParameter this cf input = Some p -> clearValue p = p.
Proof.
  intros Hp.
  destruct (converted_parameter this cf input p Hp)
    as (identifier & c & k & _ & _ & -> & Hk & _).
  unfold clearValue, newParameter. cbn. now rewrite Hk.
Qed.

Lemma converted_all_fresh
  (this : WebProcessingServiceCatalogFunction) (ins : list Input)
  (fresh : list FunctionParameter) :
  Forall2 (fun input p => convertInputToParameter this this input = Some p)
    ins fresh ->
  Forall (fun p => clearValue p = p) fresh.
Proof.
  induction 1 as [|input p ins fresh Hp _ IH]; constructor;
    [exact (converted_is_fresh this this input p Hp) | exact IH].
Qed.

Lemma functionParameters_converted
  (this : WebProcessingServiceCatalogFunction)
  (parameters : list FunctionParameter) :
  functionParameters this = Normal parameters <->
  exists ins fresh,
    inputs this = Normal ins
    /\ Forall2 (fun input p =>
                  convertInputToParameter this this input = Some p)
               ins fresh
    /\ keepValues (keptValues this) fresh = Normal parameters.
Proof.
  unfold functionParameters. split.
  - destruct (inputs this) as [ins| |]; cbn [bind]; try discriminate.
    match goal with
    | |- context [mapM ?f ins] =>
        destruct (mapM f ins) as [fresh| |] eqn:Hmap
    end; cbn [bind]; try discriminate.
    intros Hkept. exists ins, fresh.
    split; [reflexivity |]. split; [|exact Hkept].
    apply mapM_Forall2 in Hmap.
    eapply Forall2_impl; [|exact Hmap].
    intros input p. cbv beta.
    destruct (convertInputToParameter this this input); congruence.
  - intros (ins & fresh & -> & Hall & Hkept). cbn [bind].
    match goal with
    | |- bind ?m _ = _ => assert (Hmap : m = Normal fresh)
    end.
    { apply mapM_Forall2.
      eapply Forall2_impl; [|exact Hall].
      intros input p Hp. cbv beta. now rewrite Hp. }
    rewrite Hmap. exact Hkept.
Qed.

(** X9. The function parameters follow the inputs of the process
    description and keep what was set on them: there is one per input,
    in the same order; each is, but for its value, the parameter the
    first accepting converter makes of its input, has the input's
    Identifier as its id and belongs to this function; and each holds
    the value kept for its position, none when nothing was kept. *)
Theorem functionParameters_follow_inputs
  (this : WebProcessingServiceCatalogFunction)
  (parameters : list FunctionParameter) :
  functionParameters this = Normal parameters ->
  exists ins,
    inputs this = Normal ins
    /\ length parameters = length ins
    /\ Forall2
         (fun input p =>
            convertInputToParameter this this input = Some (clearValue p)
            /\ Identifier input = Some (id p)
            /\ catalogFunction p = this)
         ins parameters
    /\ (forall i p,
          nth_error parameters i = Some p ->
          value p = match nth_error (keptValues this) i with
                    | Some held => held
                    | None => None
                    end).
Proof.
  intros Hparameters.
  apply functionParameters_converted in Hparameters.
  destruct Hparameters as (ins & fresh & Hins & Hconv & Hkept).
  pose proof (converted_all_fresh this ins fresh Hconv) as Hfresh.
  destruct (keepValues_spec _ fresh parameters Hfresh Hkept)
    as [Hsame Hvalues].
  exists ins.
  split; [exact Hins |].
  split; [rewrite <- (Forall2_length Hsame);
          symmetry; exact (Forall2_length Hconv) |].
  split; [|exact Hvalues].
  clear Hkept Hvalues Hfresh Hins.
  revert parameters Hsame.
  induction Hconv as [|input p0 ins fresh Hp _ IH]; intros parameters Hsame;
    inversion Hsame as [|? p ? rest Hclear Hrest]; subst;
    constructor; [|now apply IH].
  split; [exact Hp |].
  destruct (converted_parameter this this input _ Hp)
    as (identifier & c & k & Hid & _ & Hnew & _ & _).
  split.
  - rewrite Hid. f_equal.
    apply (f_equal id) in Hnew. cbn in Hnew. now symmetry.
  - apply (f_equal catalogFunction) in Hnew. exact Hnew.
Qed.

(** X10. The identifier makes the round trip: when a parameter made from an
    input, with whatever value it was given since, is serialized, the
    input identifier sent is the Identifier of that input, and the
    value and type are the ones its converter produced. *)
Theorem identifier_round_trip
  (this cf : WebProcessingServiceCatalogFunction) (input : Input)
  (p0 p : FunctionParameter) (sent : WpsInput) :
  convertInputToParameter this cf input = Some p0 ->
  clearValue p = p0 ->
  convertParameterToInput p = Normal (Some sent) ->
  Identifier input = Some (wi_inputIdentifier sent)
  /\ exists c,
       In c parameterConverters
       /\ converter p = Some (ref c)
       /\ parameterToInput c p
          = Normal (Some {| inputValue := Some (wi_inputValue sent);
                            inputType := wi_inputType sent |}).
Proof.
  intros Hp0 Hclear Hsent.
  destruct (converted_parameter this cf input p0 Hp0)
    as (identifier & c & k & Hid & Hin & Hnew & _ & _).
  rewrite Hnew in Hclear.
  assert (Hconv : converter p = Some (ref c))
    by (apply (f_equal converter) in Hclear; exact Hclear).
  assert (Hidp : id p = identifier)
    by (apply (f_equal id) in Hclear; exact Hclear).
  unfold convertParameterToInput in Hsent.
  rewrite Hconv, (converterOf_ref c Hin) in Hsent.
  destruct (parameterToInput c p) as [[[[text|] type]|]| |] eqn:Eback;
    cbn [bind inputValue inputType] in Hsent; try discriminate.
  injection Hsent as <-. cbn [wi_inputIdentifier wi_inputValue wi_inputType].
  split; [congruence |].
  exists c. repeat split; assumption.
Qed.

(** X11. Serializing a parameter straight after it was made from an input,
    before any value is set: literal, rectangle and GeoJSON geometry
    parameters yield nothing; a point parameter throws, as the longitude
    of an undefined value is read; dateTime, line and polygon parameters
    hand the empty text, respectively the undefined value, to their
    class's [formatValueForUrl] and send what it returns as
    ComplexData. *)
Theorem unset_parameter_serialization
  (this cf : WebProcessingServiceCatalogFunction) (input : Input)
  (p : FunctionParameter) :
  convertInputToParameter this cf input = Some p ->
  let complex := fun formatted : Completion (option string) =>
    text <- formatted ;;
    Normal match text with
           | Some t => Some {| wi_inputIdentifier := id p;
                               wi_inputValue := t;
                               wi_inputType := "ComplexData" |}
           | None => None
           end in
  match converter p with
  | Some RefLiteralData | Some RefRectangle | Some RefGeoJsonGeometry =>
      convertParameterToInput p = Normal None
  | Some RefPoint =>
      convertParameterToInput p
      = Throw (ThrowTypeError "Cannot read property 'longitude' of undefined")
  | Some RefDateTime =>
      convertParameterToInput p
      = complex (DateTimeParameter_formatValueForUrl EmptyString)
  | Some RefLine =>
      convertParameterToInput p
      = complex (LineParameter_formatValueForUrl None)
  | Some RefPolygon =>
      convertParameterToInput p
      = complex (PolygonParameter_formatValueForUrl None)
  | None => False
  end.
Proof.
  intros Hp. cbv zeta.
  destruct (converted_parameter this cf input p Hp)
    as (identifier & c & k & _ & Hin & -> & Hk & Hv).
  unfold convertParameterToInput.
  cbn [converter newParameter optionsFor opt_converter id opt_id].
  rewrite (converterOf_ref c Hin).
  apply registry_cases in Hin.
  repeat destruct Hin as [->|Hin]; try subst c;
    unfold LiteralDataConverter, DateTimeConverter, PointConverter,
      LineConverter, PolygonConverter, simpleGeoJsonDataConverter,
      RectangleConverter, GeoJsonGeometryConverter in *;
    cbn [ref variantsOf parameterToInput] in *; unfold value;
    cbn [kind newParameter];
    destruct k as [pv v|v|v|v|v|v|crs v|rp v];
    cbn [variantOf In] in Hv;
    try (exfalso; intuition discriminate);
    cbn [clearKind] in Hk; injection Hk as <-;
    cbn [option_map formatValueForUrl PointParameter_class
         LineParameter_class PolygonParameter_class JsString.orElse bind];
    try reflexivity.
  - destruct (DateTimeParameter_formatValueForUrl EmptyString)
      as [[t|]| |]; reflexivity.
  - destruct (LineParameter_formatValueForUrl None) as [[t|]| |];
      reflexivity.
  - destruct (PolygonParameter_formatValueForUrl None) as [[t|]| |];
      reflexivity.
Qed.


End Parameters.

(* ================================================================== *)
(** ** Further properties: loading metadata and handling responses *)

Section Responses.

Context {ext : Externals}.

Lemma documentWithRoot_some (rootName : string) (xml : option XmlDocument)
  (doc : XmlDocument) :
  documentWithRoot rootName xml = Some doc ->
  xml = Some doc
  /\ exists root, documentElement doc = Some root
                  /\ localName root = rootName.
Proof.
  unfold documentWithRoot.
  destruct xml as [d|]; [|discriminate].
  destruct (documentElement d) as [root|] eqn:Hroot; [|discriminate].
  destruct (String.eqb_spec (localName root) rootName) as [Hname|];
    cbn [negb]; [|discriminate].
  intros [= <-]. split; [reflexivity |]. now exists root.
Qed.

Lemma createCatalogItem_identity
  (this : WebProcessingServiceCatalogFunction) (job : CatalogFunctionJob)
  (json : Json) (item : WebProcessingServiceCatalogItem) :
  createCatalogItem this job json = Normal item ->
  item_uniqueId item = "result-" ++ job_uniqueId job
  /\ item_name item = job_name job
  /\ item_description item = job_description job.
Proof.
  unfold createCatalogItem.
  destruct (functionParameters this); cbn [bind]; try discriminate.
  intros [= <-]. repeat split.
Qed.

(** X13. The shape of every run of the handler, whatever the documents
    and whatever the workbench: some polls, each a 500 millisecond timer
    followed by one GET, never more than one per round and one more, and
    then at most one final effect: the error set on the job, or the load
    of the result item, followed, when the load succeeded, by the item
    added and the job removed.  An item is added only by a run that is
    fulfilled, after its load succeeded; a load alone ends a run that is
    rejected as the load was.  A run that is not fulfilled has neither
    marked the job nor touched the workbench, and a run still waiting
    for a reply has had no final effect and has used up every round. *)
Theorem handler_trace_shape
  (this : WebProcessingServiceCatalogFunction) (rounds : list Round)
  (xml : option XmlDocument) (job : CatalogFunctionJob) (contains : bool) :
  exists locations ending,
    fst (handleExecuteResponse this rounds xml job contains)
    = (flat_map (pollEvents job) locations ++ ending)%list
    /\ Ending job ending
    /\ (length locations <= S (length rounds))%nat
    /\ (snd (handleExecuteResponse this rounds xml job contains)
        = AwaitingReply ->
        ending = [] /\ length locations = S (length rounds))
    /\ (snd (handleExecuteResponse this rounds xml job contains)
        <> Fulfilled ->
        ending = [] \/ exists item, ending = [LoadMapItems item])
    /\ (forall item,
          ending = [LoadMapItems item] ->
          loadMapItems item <> Normal tt
          /\ snd (handleExecuteResponse this rounds xml job contains)
             = rejectedBy (loadMapItems item))
    /\ (forall item,
          In (WorkbenchAdd item) ending ->
          loadMapItems item = Normal tt
          /\ snd (handleExecuteResponse this rounds xml job contains)
             = Fulfilled).
Proof.
  assert (Hquiet : forall (run : list Event * Settled) n locations,
             fst run = flat_map (pollEvents job) locations ->
             snd run <> AwaitingReply ->
             (length locations <= S n)%nat ->
             exists locations ending,
               fst run = (flat_map (pollEvents job) locations ++ ending)%list
               /\ Ending job ending
               /\ (length locations <= S n)%nat
               /\ (snd run = AwaitingReply ->
                   ending = [] /\ length locations = S n)
               /\ (snd run <> Fulfilled ->
                   ending = [] \/ exists item, ending = [LoadMapItems item])
               /\ (forall item,
                     ending = [LoadMapItems item] ->
                     loadMapItems item <> Normal tt
                     /\ snd run = rejectedBy (loadMapItems item))
               /\ (forall item,
                     In (WorkbenchAdd item) ending ->
                     loadMapItems item = Normal tt /\ snd run = Fulfilled)).
  { intros run n locations Hrun Hs Hn. exists locations, [].
    split; [now rewrite app_nil_r |]. split; [constructor |].
    split; [exact Hn |].
    split; [intros E; now elim Hs |]. split; [now left |].
    split; [intros item E; discriminate E | intros item []]. }
  assert (Hloaded : forall item n,
             item_uniqueId item = "result-" ++ job_uniqueId job ->
             item_name item = job_name job ->
             item_description item = job_description job ->
             let run :=
               match loadMapItems item with
               | Normal _ =>
                   ([LoadMapItems item; WorkbenchAdd item;
                     WorkbenchRemove job], Fulfilled)
               | failure => ([LoadMapItems item], rejectedBy failure)
               end in
             exists locations ending,
               fst run = (flat_map (pollEvents job) locations ++ ending)%list
               /\ Ending job ending
               /\ (length locations <= S n)%nat
               /\ (snd run = AwaitingReply ->
                   ending = [] /\ length locations = S n)
               /\ (snd run <> Fulfilled ->
                   ending = [] \/ exists item, ending = [LoadMapItems item])
               /\ (forall item,
                     ending = [LoadMapItems item] ->
                     loadMapItems item <> Normal tt
                     /\ snd run = rejectedBy (loadMapItems item))
               /\ (forall item,
                     In (WorkbenchAdd item) ending ->
                     loadMapItems item = Normal tt /\ snd run = Fulfilled)).
  { intros item n Hid Hname Hdescription. cbv zeta.
    destruct (loadMapItems item) as [[]|e|] eqn:Hload; cbn [fst snd rejectedBy].
    - exists [], [LoadMapItems item; WorkbenchAdd item; WorkbenchRemove job].
      split; [reflexivity |].
      split; [now apply EndsSucceeded |].
      split; [cbn; lia |]. split; [discriminate |].
      split; [intros E; now elim E |].
      split; [intros item' E; discriminate E |].
      intros item' [E|[E|[E|[]]]]; try discriminate E.
      injection E as <-. now split.
    - exists [], [LoadMapItems item].
      split; [reflexivity |].
      split; [now apply EndsUnloaded |].
      split; [cbn; lia |]. split; [discriminate |].
      split; [intros _; right; now exists item |].
      split; [|intros item' [E|[]]; discriminate E].
      intros item' [= <-]. rewrite Hload. split; [discriminate | reflexivity].
    - exists [], [LoadMapItems item].
      split; [reflexivity |].
      split; [now apply EndsUnloaded |].
      split; [cbn; lia |]. split; [discriminate |].
      split; [intros _; right; now exists item |].
      split; [|intros item' [E|[]]; discriminate E].
      intros item' [= <-]. rewrite Hload.
      split; [discriminate | reflexivity]. }
  revert xml contains.
  induction rounds as [|round later IH]; intros xml contains;
    cbn [handleExecuteResponse];
    (destruct (documentWithRoot "ExecuteResponse" xml) as [doc|];
       [|apply (Hquiet _ _ []); [reflexivity | discriminate | cbn; lia]]);
    (destruct (Status (xml2json doc)) as [status|];
       [|apply (Hquiet _ _ []); [reflexivity | discriminate | cbn; lia]]);
    (destruct (ProcessFailed status) as [failed|];
       [cbn [fst snd]; exists []; eexists; cbn [flat_map app length];
        split; [reflexivity |];
        split; [apply EndsFailed |]; split; [lia |];
        split; [discriminate |]; split; [intros E; now elim E |];
        split; [intros item E; discriminate E
               | intros item [E|[]]; discriminate E] |]);
    (destruct (ProcessSucceeded status) as [outcome|]; cbn [isDefined];
       [destruct (createCatalogItem this job (xml2json doc))
          as [item|e|] eqn:Hitem;
        [ destruct (createCatalogItem_identity this job _ item Hitem)
            as (Hid & Hname & Hdescription);
          exact (Hloaded item _ Hid Hname Hdescription)
        | apply (Hquiet _ _ []); [reflexivity | discriminate | cbn; lia]
        | apply (Hquiet _ _ []); [reflexivity | discriminate | cbn; lia] ] |]);
    (destruct (statusLocation (xml2json doc)) as [location|];
       [|apply (Hquiet _ _ []); [reflexivity | discriminate | cbn; lia]]);
    (destruct contains;
       [|apply (Hquiet _ _ []); [reflexivity | discriminate | cbn; lia]]).
  - (* no round left: the GET is out, the reply is awaited *)
    exists [location], []. cbn.
    split; [reflexivity |]. split; [constructor |]. split; [lia |].
    split; [intros _; split; reflexivity |]. split; [now left |].
    split; [intros item E; discriminate E | intros item []].
  - destruct (reply round) as [next|e|].
    + destruct (IH next (workbenchContains round))
        as (locations & ending & Hevents & Hending & Hlength & Hwait
            & Hfail & Hload & Hadd).
      destruct (handleExecuteResponse this later next job
                  (workbenchContains round)) as [events settled].
      cbn [fst snd] in *.
      exists (location :: locations), ending.
      rewrite Hevents. cbn [flat_map length].
      split; [now rewrite <- app_assoc |]. split; [exact Hending |].
      split; [lia |].
      split; [intros Hs; destruct (Hwait Hs) as [Hnone Hall];
              split; [exact Hnone | lia] |].
      split; [exact Hfail |]. split; [exact Hload | exact Hadd].
    + apply (Hquiet _ _ [location]);
        [reflexivity | discriminate | cbn; lia].
    + apply (Hquiet _ _ [location]);
        [reflexivity | discriminate | cbn; lia].
Qed.

(** One turn of the loop, whatever the reply. *)
Lemma handleExecuteResponse_round
  (this : WebProcessingServiceCatalogFunction) (doc : XmlDocument)
  (location : string) (job : CatalogFunctionJob)
  (round : Round) (later : list Round) :
  PollAt doc location ->
  handleExecuteResponse this (round :: later) (Some doc) job true
  = match reply round with
    | Normal next =>
        ((pollEvents job location
          ++ fst (handleExecuteResponse this later next job
                    (workbenchContains round)))%list,
         snd (handleExecuteResponse this later next job
                (workbenchContains round)))
    | failure => (pollEvents job location, rejectedBy failure)
    end.
Proof.
  intros [(status & Hdoc & Hfailed & Hsucceeded) Hlocation].
  cbn [handleExecuteResponse].
  rewrite (documentWithRoot_status doc status Hdoc).
  destruct Hdoc as [_ Hstatus].
  rewrite Hstatus, Hfailed, Hsucceeded, Hlocation. cbn [isDefined].
  destruct (reply round); try reflexivity.
  destruct (handleExecuteResponse this later a job (workbenchContains round)).
  reflexivity.
Qed.

(** A run of polls: each document says where to ask next, each reply
    but the last arrives while the job is on the workbench. *)
Lemma polling_run
  (this : WebProcessingServiceCatalogFunction) (job : CatalogFunctionJob)
  (first : XmlDocument * string) (pending : list (XmlDocument * string))
  (round : Round) (later : list Round) :
  Forall (fun d => PollAt (fst d) (snd d)) (first :: pending) ->
  handleExecuteResponse this
    (map (fun d => repliedOnWorkbench (fst d)) pending ++ round :: later)%list
    (Some (fst first)) job true
  = match reply round with
    | Normal next =>
        ((flat_map (fun d => pollEvents job (snd d)) (first :: pending)
          ++ fst (handleExecuteResponse this later next job
                    (workbenchContains round)))%list,
         snd (handleExecuteResponse this later next job
                (workbenchContains round)))
    | failure =>
        (flat_map (fun d => pollEvents job (snd d)) (first :: pending),
         rejectedBy failure)
    end.
Proof.
  revert first. induction pending as [|second pending IH];
    intros first Hpolls; inversion Hpolls as [|? ? Hfirst Hothers]; subst;
    cbn [map app].
  - rewrite (handleExecuteResponse_round this _ _ job round later Hfirst).
    cbn [flat_map]. rewrite app_nil_r. reflexivity.
  - rewrite (handleExecuteResponse_round this _ _ job _ _ Hfirst).
    cbn [reply repliedOnWorkbench workbenchContains].
    rewrite (IH second Hothers).
    destruct (reply round); cbn [fst snd flat_map];
      rewrite <- ?app_assoc; reflexivity.
Qed.

(** X14. The handler sets a timer and asks again exactly when the document is
    an ExecuteResponse whose Status has neither outcome, it names a
    status location, and the workbench holds the job; the request then
    goes to that location. *)
Theorem handler_polls_iff
  (this : WebProcessingServiceCatalogFunction) (rounds : list Round)
  (xml : option XmlDocument) (job : CatalogFunctionJob) (contains : bool)
  (delay : Z) (location : string) :
  (exists rest,
      fst (handleExecuteResponse this rounds xml job contains)
      = RunLater delay :: GetXml location :: rest)
  <-> (delay = 500
       /\ contains = true
       /\ exists doc, xml = Some doc /\ PollAt doc location).
Proof.
  split.
  - intros [rest Hevents].
    destruct rounds as [|round later]; cbn [handleExecuteResponse] in Hevents;
      (destruct (documentWithRoot "ExecuteResponse" xml) as [doc|] eqn:Hroot;
         [|discriminate Hevents]);
      apply documentWithRoot_some in Hroot;
      destruct Hroot as (-> & Hroot);
      (destruct (Status (xml2json doc)) as [status|] eqn:Hstatus;
         [|discriminate Hevents]);
      (destruct (ProcessFailed status) as [failed|] eqn:Hfailed;
         [discriminate Hevents |]);
      (destruct (ProcessSucceeded status) as [outcome|] eqn:Hsucceeded;
         cbn [isDefined] in Hevents;
         [destruct (createCatalogItem this job (xml2json doc)) as [item|e|];
          [destruct (loadMapItems item) | |];
          discriminate Hevents |]);
      (destruct (statusLocation (xml2json doc)) as [l|] eqn:Hlocation;
         [|discriminate Hevents]);
      (destruct contains; [|discriminate Hevents]);
      assert (Hhead : delay = 500 /\ l = location)
        by (try (destruct (reply round);
                 try destruct (handleExecuteResponse this later a job
                                 (workbenchContains round)));
            cbn in Hevents; injection Hevents as <- <- _; now split);
      destruct Hhead as [-> ->];
      (split; [reflexivity | split; [reflexivity |]]);
      exists doc; (split; [reflexivity |]);
      (split; [|exact Hlocation]);
      exists status; repeat split; assumption.
  - intros (-> & -> & doc & -> & Hpoll).
    destruct rounds as [|round later].
    + destruct Hpoll as [(status & Hdoc & Hfailed & Hsucceeded) Hlocation].
      cbn [handleExecuteResponse].
      rewrite (documentWithRoot_status doc status Hdoc).
      destruct Hdoc as [_ Hstatus].
      rewrite Hstatus, Hfailed, Hsucceeded, Hlocation. cbn. eauto.
    + rewrite (handleExecuteResponse_round this doc location job round later
                 Hpoll).
      destruct (reply round); unfold pollEvents; cbn; eauto.
Qed.

(** X15. Taking the job off the workbench ends the polling at the next reply:
    after a run of polls, a status document with neither outcome that
    arrives when the job is gone is followed by nothing, and the call is
    over with only the polls made so far. *)
Theorem polling_stops_when_removed
  (this : WebProcessingServiceCatalogFunction) (job : CatalogFunctionJob)
  (first : XmlDocument * string) (pending : list (XmlDocument * string))
  (last : XmlDocument) (later : list Round) :
  Forall (fun d => PollAt (fst d) (snd d)) (first :: pending) ->
  NonTerminal last ->
  handleExecuteResponse this
    (map (fun d => repliedOnWorkbench (fst d)) pending
     ++ {| reply := Normal (Some last); workbenchContains := false |}
        :: later)%list
    (Some (fst first)) job true
  = (flat_map (fun d => pollEvents job (snd d)) (first :: pending),
     Fulfilled).
Proof.
  intros Hpolls (status & Hdoc & Hfailed & Hsucceeded).
  rewrite (polling_run this job first pending _ later Hpolls).
  cbn [reply workbenchContains].
  assert (Hstop : handleExecuteResponse this later (Some last) job false
                  = ([], Fulfilled)).
  { pose proof (documentWithRoot_status last status Hdoc) as Hroot.
    destruct Hdoc as [_ Hstatus].
    destruct later; cbn [handleExecuteResponse];
      rewrite Hroot, Hstatus, Hfailed, Hsucceeded; cbn [isDefined];
      destruct (statusLocation (xml2json last)); reflexivity. }
  rewrite Hstop. cbn [fst snd]. now rewrite app_nil_r.
Qed.

(** X16. When a GET of the status location fails, the call is rejected with
    the loader's error after the polls made so far: the job is not marked
    as failed and stays on the workbench, and nothing is asked again. *)
Theorem polling_rejects_when_loader_fails
  (this : WebProcessingServiceCatalogFunction) (job : CatalogFunctionJob)
  (first : XmlDocument * string) (pending : list (XmlDocument * string))
  (e : Exception) (contains : bool) (later : list Round) :
  Forall (fun d => PollAt (fst d) (snd d)) (first :: pending) ->
  handleExecuteResponse this
    (map (fun d => repliedOnWorkbench (fst d)) pending
     ++ {| reply := Throw e; workbenchContains := contains |} :: later)%list
    (Some (fst first)) job true
  = (flat_map (fun d => pollEvents job (snd d)) (first :: pending),
     Rejected e).
Proof.
  intros Hpolls.
  rewrite (polling_run this job first pending _ later Hpolls).
  reflexivity.
Qed.

(** X17. A response whose Status holds ProcessFailed marks the job as failed
    and does nothing else, whether or not ProcessSucceeded or a status
    location is there too.  The text is the ExceptionText of the
    reported exception when there is one that is not empty, else the
    exception's own Exception entry, and undefined without a report. *)
Theorem failed_response_marks_job
  (this : WebProcessingServiceCatalogFunction) (rounds : list Round)
  (doc : XmlDocument) (job : CatalogFunctionJob) (contains : bool)
  (status : Status_t) (failed : ProcessFailed_t) :
  ExecuteResponseWith doc status ->
  ProcessFailed status = Some failed ->
  exists text,
    handleExecuteResponse this rounds (Some doc) job contains
    = ([SetErrorOnPendingItem job text], Fulfilled)
    /\ (forall report exception,
          ExceptionReport failed = Some report ->
          Exception_ report = Some exception ->
          (forall t, ExceptionText exception = Some t ->
                     t <> EmptyString -> text = Some t)
          /\ (ExceptionText exception = None
              \/ ExceptionText exception = Some EmptyString ->
              text = Exception_Exception exception))
    /\ (ExceptionReport failed = None -> text = None)
    /\ (forall report,
          ExceptionReport failed = Some report ->
          Exception_ report = None -> text = None).
Proof.
  intros Hdoc Hfailed.
  pose proof (documentWithRoot_status doc status Hdoc) as Hroot.
  destruct Hdoc as [_ Hstatus].
  eexists. split.
  - destruct rounds; cbn [handleExecuteResponse];
      rewrite Hroot, Hstatus, Hfailed; reflexivity.
  - split; [|split].
    + intros report exception -> ->. split.
      * intros t -> Ht. destruct t; [congruence | reflexivity].
      * intros [-> | ->]; reflexivity.
    + intros ->. reflexivity.
    + intros report -> ->. reflexivity.
Qed.

(** X18. A succeeded response is not turned into an item when the function
    parameters cannot be computed: the call is rejected with their
    error, nothing is loaded or added and the job stays. *)
Theorem succeeded_response_needs_parameters
  (this : WebProcessingServiceCatalogFunction) (rounds : list Round)
  (doc : XmlDocument) (job : CatalogFunctionJob) (contains : bool)
  (status : Status_t) (outcome : string) (e : Exception) :
  ExecuteResponseWith doc status ->
  ProcessFailed status = None ->
  ProcessSucceeded status = Some outcome ->
  functionParameters this = Throw e ->
  handleExecuteResponse this rounds (Some doc) job contains
  = ([], Rejected e).
Proof.
  intros Hdoc Hfailed Hsucceeded Hparameters.
  pose proof (documentWithRoot_status doc status Hdoc) as Hroot.
  destruct Hdoc as [_ Hstatus].
  destruct rounds; cbn [handleExecuteResponse];
    rewrite Hroot, Hstatus, Hfailed, Hsucceeded; cbn [isDefined];
    unfold createCatalogItem; rewrite Hparameters; reflexivity.
Qed.

(** X19. Loading the metadata.  A request is made exactly when the url and
    the identifier are both defined, and then it is one GET.  A failed
    GET fails the load with the same error.  A ProcessDescriptions
    document without a ProcessDescription fails it with the process
    description error.  With one, the description is stored, nothing
    else of the function changes, and from then on the inputs are the
    description's and storeSupported and statusSupported say whether the
    attribute is the text true. *)
Theorem forceLoadMetadata_outcomes
  (this : WebProcessingServiceCatalogFunction) :
  (describeProcessUrl this = None
   <-> url this = None \/ identifier this = None)
  /\ (describeProcessUrl this = None ->
      forall loaded, forceLoadMetadata this loaded = ([], Normal this))
  /\ (forall describeUrl,
        describeProcessUrl this = Some describeUrl ->
        (forall e,
            forceLoadMetadata this (Throw e)
            = ([GetXml describeUrl], Throw e))
        /\ (forall doc root,
              documentElement doc = Some root ->
              localName root = "ProcessDescriptions" ->
              (ProcessDescription (xml2json doc) = None ->
               forceLoadMetadata this (Normal (Some doc))
               = ([GetXml describeUrl],
                  Throw (ThrowTerriaError
                    {| title := i18next_t
                         "models.webProcessingService.processDescriptionErrorTitle" [];
                       message := i18next_t
                         "models.webProcessingService.processDescriptionErrorMessage" [] |})))
              /\ (forall pd,
                    ProcessDescription (xml2json doc) = Some pd ->
                    exists loaded,
                      forceLoadMetadata this (Normal (Some doc))
                      = ([GetXml describeUrl], Normal loaded)
                      /\ processDescription loaded = Some pd
                      /\ url loaded = url this
                      /\ identifier loaded = identifier this
                      /\ cf_name loaded = cf_name this
                      /\ terria loaded = terria this
                      /\ storeSupported loaded
                         = match pd_storeSupported pd with
                           | Some s => (s =? "true")%string
                           | None => false
                           end
                      /\ statusSupported loaded
                         = match pd_statusSupported pd with
                           | Some s => (s =? "true")%string
                           | None => false
                           end
                      /\ (forall input,
                            DataInputs pd
                            = Some {| DataInputs_Input := Some (One input) |} ->
                            inputs loaded = Normal [input])
                      /\ (forall several,
                            DataInputs pd
                            = Some {| DataInputs_Input := Some (Many several) |} ->
                            inputs loaded = Normal several)))).
Proof.
  split; [|split].
  - unfold describeProcessUrl.
    destruct (url this), (identifier this);
      split; (discriminate || tauto || intros [?|?]; discriminate).
  - intros Hnone loaded. unfold forceLoadMetadata. now rewrite Hnone.
  - intros describeUrl Hurl. split.
    + intros e. unfold forceLoadMetadata. now rewrite Hurl.
    + intros doc root Hroot Hname.
      assert (Hdoc : documentWithRoot "ProcessDescriptions" (Some doc)
                     = Some doc)
        by (unfold documentWithRoot; now rewrite Hroot, Hname).
      unfold forceLoadMetadata. rewrite Hurl. cbn [bind]. rewrite Hdoc.
      split.
      * intros ->. reflexivity.
      * intros pd Hpd. rewrite Hpd. cbn [isDefined negb].
        eexists. split; [reflexivity |].
        unfold storeSupported, statusSupported, inputs.
        cbn [setProcessDescription processDescription url identifier
             cf_name terria].
        repeat split; intros ? ->; reflexivity.
Qed.

End Responses.

(* ================================================================== *)
(** ** The further properties at work on the sample service *)

Lemma accepted_asks_again :
  PollAt acceptedResponse "http://example.com/status/1".
Proof.
  split; [|reflexivity].
  exists {| ProcessFailed := None; ProcessSucceeded := None |}.
  repeat split. eexists; split; reflexivity.
Qed.

Lemma started_is_not_final : NonTerminal startedResponse.
Proof.
  exists {| ProcessFailed := None; ProcessSucceeded := None |}.
  repeat split. eexists; split; reflexivity.
Qed.

Lemma accepted_run :
  Forall (fun d => PollAt (fst d) (snd d))
    [(acceptedResponse, "http://example.com/status/1")].
Proof. constructor; [exact accepted_asks_again | constructor]. Qed.

(** The point converter on the location input. *)
Lemma simpleGeoJsonDataConverter_accepts_iff_witness :
  inputToParameter PointConverter sampleFunction locationInput extentOptions
  = Some (newParameter sampleFunction extentOptions (PointParameter None)).
Proof.
  unfold PointConverter.
  apply (simpleGeoJsonDataConverter_accepts_iff "point").
  - apply indexOf_missing_iff. reflexivity.
  - exists "http://geojson.org/geojson-spec.html#point",
           "http://geojson.org/geojson-spec.html".
    repeat split.
Defined.

(** The location input, which the point converter accepts, among the
    other converters for ComplexData. *)
Lemma simple_converters_exclude_each_other_witness :
  inputToParameter LineConverter sampleFunction locationInput extentOptions
  = None
  /\ inputToParameter DateTimeConverter sampleFunction locationInput
       extentOptions = None
  /\ inputToParameter GeoJsonGeometryConverter sampleFunction locationInput
       extentOptions <> None.
Proof.
  destruct (@simple_converters_exclude_each_other sampleExternals
              sampleFunction locationInput PointConverter LineConverter
              extentOptions extentOptions extentOptions
              (or_introl eq_refl) (or_intror (or_introl eq_refl))
              ltac:(vm_compute; discriminate))
    as (Hother & Hdate & Hgeneric).
  split; [|split; assumption].
  destruct (inputToParameter LineConverter sampleFunction locationInput
              extentOptions) eqn:E; [|reflexivity].
  assert (Hrefs : ref PointConverter = ref LineConverter)
    by (apply Hother; discriminate).
  discriminate Hrefs.
Defined.

(** The rectangle parameter of the projected extent takes the first
    supported CRS with Terria's code; when that CRS is the only one
    supported, the loop walks its characters and the default CRS stays. *)
Lemma rectangle_parameter_crs_witness :
  inputToParameter RectangleConverter sampleFunction projectedExtentInput
    extentOptions
  = Some (newParameter sampleFunction extentOptions
            (RectangleParameter "EPSG:4326" None))
  /\ inputToParameter RectangleConverter sampleFunction loneCrsExtentInput
       extentOptions
     = Some (newParameter sampleFunction extentOptions
               (RectangleParameter "EPSG:3857" None)).
Proof.
  assert (Hdefault : crsStringToCode "EPSG:3857" <> Some TERRIA_CRS)
    by (vm_compute; discriminate).
  split.
  - destruct (inputToParameter RectangleConverter sampleFunction
                projectedExtentInput extentOptions) as [p|] eqn:Hp;
      [|vm_compute in Hp; discriminate Hp].
    destruct (@rectangle_parameter_crs sampleExternals sampleFunction
                projectedExtentInput extentOptions p
                _ _ "EPSG:3857" eq_refl eq_refl eq_refl Hp)
      as (crs & -> & _ & _ & Hloop).
    destruct (Hloop Hdefault) as (Hfirst & _).
    assert (Hearlier : Forall (fun s => crsStringToCode s <> Some TERRIA_CRS)
                         ["EPSG:28355"])
      by (constructor; [vm_compute; discriminate | constructor]).
    rewrite (Hfirst _ _ ["EPSG:28355"] "EPSG:4326"
               ["urn:ogc:def:crs:OGC:1.3:crs84"]
               eq_refl eq_refl eq_refl Hearlier eq_refl).
    reflexivity.
  - destruct (inputToParameter RectangleConverter sampleFunction
                loneCrsExtentInput extentOptions) as [p|] eqn:Hp;
      [|vm_compute in Hp; discriminate Hp].
    destruct (@rectangle_parameter_crs sampleExternals sampleFunction
                loneCrsExtentInput extentOptions p
                _ _ "EPSG:3857" eq_refl eq_refl eq_refl Hp)
      as (crs & -> & _ & _ & Hloop).
    destruct (Hloop Hdefault) as (_ & _ & _ & Hnone & _).
    assert (Hchars : Forall (fun c => crsStringToCode (String c EmptyString)
                                      <> Some TERRIA_CRS)
                       (chars "EPSG:4326"))
      by (repeat (constructor; [vm_compute; discriminate |]); constructor).
    rewrite (Hnone _ "EPSG:4326" eq_refl eq_refl Hchars).
    reflexivity.
Defined.

(** The parameters of the sample function after a distance and a location
    were chosen: three, for three inputs, the first with the distance. *)
Lemma functionParameters_follow_inputs_witness :
  exists parameters,
    functionParameters valuedFunction = Normal parameters
    /\ length parameters = 3%nat
    /\ (forall p, nth_error parameters 0 = Some p ->
                  value p = Some (VString "2.5")
                  /\ convertInputToParameter valuedFunction valuedFunction
                       distanceInput
                     = Some (clearValue p)).
Proof.
  destruct (functionParameters valuedFunction) as [parameters| |] eqn:Hcomputed;
    [|vm_compute in Hcomputed; discriminate Hcomputed
     |vm_compute in Hcomputed; discriminate Hcomputed].
  destruct (@functionParameters_follow_inputs sampleExternals valuedFunction
              parameters Hcomputed)
    as (ins & Hins & Hlength & Hall & Hvalues).
  injection Hins as <-.
  exists parameters. split; [reflexivity |]. split; [exact Hlength |].
  intros p Hp. split; [exact (Hvalues 0%nat p Hp) |].
  destruct parameters as [|first rest]; [discriminate Hp |].
  injection Hp as ->.
  inversion Hall as [|? ? ? ? (Hconverted & _) _]. exact Hconverted.
Defined.

(** The extent makes the round trip. *)
Lemma identifier_round_trip_witness :
  Identifier extentInput = Some "extent".
Proof.
  destruct (@identifier_round_trip sampleExternals sampleFunction
              sampleFunction extentInput
              (extentParameter None) (extentParameter (Some wholeGlobe))
              {| wi_inputIdentifier := "extent";
                 wi_inputValue := "-180,-90,180,90,urn:ogc:def:crs:OGC:1.3:CRS84";
                 wi_inputType := "BoundingBoxData" |}
              ltac:(vm_compute; reflexivity) eq_refl
              ltac:(vm_compute; reflexivity))
    as [Hidentifier _].
  exact Hidentifier.
Defined.

(** The point parameter of the location input, not yet set. *)
Lemma unset_parameter_serialization_witness :
  convertParameterToInput
    (newParameter sampleFunction
       (optionsFor locationInput "location" PointConverter)
       (PointParameter None))
  = Throw (ThrowTypeError "Cannot read property 'longitude' of undefined").
Proof.
  exact (@unset_parameter_serialization sampleExternals sampleFunction
           sampleFunction locationInput _ ltac:(vm_compute; reflexivity)).
Defined.

(** The job is taken off the workbench after the first poll. *)
Lemma polling_stops_when_removed_witness :
  handleExecuteResponse sampleFunction
    [ {| reply := Normal (Some startedResponse);
         workbenchContains := false |};
      {| reply := Normal (Some succeededResponse);
         workbenchContains := false |} ]
    (Some acceptedResponse) sampleJob true
  = ([ RunLater 500; GetXml "http://example.com/status/1";
       SetLoadPromise sampleJob "http://example.com/status/1" ],
     Fulfilled).
Proof.
  exact (@polling_stops_when_removed sampleExternals sampleFunction sampleJob
           (acceptedResponse, "http://example.com/status/1") []
           startedResponse _ accepted_run started_is_not_final).
Defined.

(** The first poll fails on the network. *)
Lemma polling_rejects_when_loader_fails_witness :
  handleExecuteResponse sampleFunction
    [ {| reply := Throw (ThrowTypeError "NetworkError");
         workbenchContains := true |} ]
    (Some acceptedResponse) sampleJob true
  = ([ RunLater 500; GetXml "http://example.com/status/1";
       SetLoadPromise sampleJob "http://example.com/status/1" ],
     Rejected (ThrowTypeError "NetworkError")).
Proof.
  exact (@polling_rejects_when_loader_fails sampleExternals sampleFunction
           sampleJob (acceptedResponse, "http://example.com/status/1") []
           _ true [] accepted_run).
Defined.

(** The failed response, which carries no exception report. *)
Lemma failed_response_marks_job_witness :
  handleExecuteResponse sampleFunction [] (Some failedResponse) sampleJob true
  = ([SetErrorOnPendingItem sampleJob None], Fulfilled).
Proof.
  assert (Hdoc : ExecuteResponseWith failedResponse
                   {| ProcessFailed := Some {| ExceptionReport := None |};
                      ProcessSucceeded := None |})
    by (split; [eexists; split; reflexivity | reflexivity]).
  destruct (@failed_response_marks_job sampleExternals sampleFunction []
              failedResponse sampleJob true _ _ Hdoc eq_refl)
    as (text & Hrun & _ & Hnone & _).
  rewrite Hrun, (Hnone eq_refl). reflexivity.
Defined.

(** The succeeded response for a function with a GML input. *)
Lemma succeeded_response_needs_parameters_witness :
  handleExecuteResponse gmlFunction [] (Some succeededResponse) sampleJob true
  = ([], Rejected (ThrowTerriaError
       {| title := "Unsupported parameter type";
          message := "The parameter zones is not a supported type of parameter." |})).
Proof.
  assert (Hdoc : ExecuteResponseWith succeededResponse
                   {| ProcessFailed := None;
                      ProcessSucceeded := Some EmptyString |})
    by (split; [eexists; split; reflexivity | reflexivity]).
  exact (@succeeded_response_needs_parameters sampleExternals gmlFunction []
           succeededResponse sampleJob true _ EmptyString _
           Hdoc eq_refl eq_refl ltac:(vm_compute; reflexivity)).
Defined.

(** Loading the metadata of the sample function from the sample
    DescribeProcess response. *)
Example forceLoadMetadata_sample :
  forceLoadMetadata
    (setProcessDescription sampleFunction None)
    (Normal (Some describeResponse))
  = ([GetXml "http://example.com/wps?service=WPS&request=DescribeProcess&version=1.0.0&Identifier=buffer"],
     Normal sampleFunction)
  /\ statusSupported sampleFunction = true
  /\ statusSupported (setProcessDescription sampleFunction None) = false
  /\ functionParameters (setProcessDescription sampleFunction None)
     = Normal [].
Proof. repeat split. Qed.

(* ================================================================== *)
(** ** Further properties: how computing the parameters can fail *)

Lemma mapM_throw {A B : Type} (f : A -> Completion B) (l : list A)
  (e : Exception) :
  (forall a, f a <> Untyped) ->
  mapM f l <> Untyped
  /\ (mapM f l = Throw e ->
      exists before x after,
        l = (before ++ x :: after)%list
        /\ Forall (fun a => exists b, f a = Normal b) before
        /\ f x = Throw e).
Proof.
  intros Htyped. induction l as [|a l [IHtyped IH]]; cbn [mapM].
  - split; discriminate.
  - specialize (Htyped a) as Ha.
    destruct (f a) as [b|e'|] eqn:Ea; cbn [bind]; [| |congruence].
    + destruct (mapM f l) as [bs|e'|] eqn:El; cbn [bind];
        [split; discriminate | |congruence].
      split; [discriminate |].
      intros [= ->]. destruct (IH eq_refl) as (before & x & after & -> & Hb & Hx).
      exists (a :: before), x, after.
      repeat split; [|exact Hx]. constructor; [now exists b | exact Hb].
    + split; [discriminate |].
      intros [= ->]. exists [], a, l. repeat split; [constructor | exact Ea].
Qed.

Section ParameterFailures.

Context {ext : Externals}.

(** X20. Computing the function parameters fails in two ways only.  Either
    the process description has no DataInputs or no Input in it, and
    the error is the process input error; or some input is not
    converted, and the error is the Unsupported parameter type error
    that names the first such input, every input before it being
    converted. *)
Theorem functionParameters_failure
  (this : WebProcessingServiceCatalogFunction) (e : Exception) :
  functionParameters this = Throw e ->
  (inputs this = Throw e
   /\ e = ThrowTerriaError
        {| title := i18next_t
             "models.webProcessingService.processInputErrorTitle" [];
           message := i18next_t
             "models.webProcessingService.processInputErrorMessage" [] |}
   /\ exists pd,
        processDescription this = Some pd
        /\ (DataInputs pd = None
            \/ DataInputs pd = Some {| DataInputs_Input := None |}))
  \/ (exists before input after,
        inputs this = Normal (before ++ input :: after)%list
        /\ Forall (fun i => convertInputToParameter this this i <> None)
             before
        /\ convertInputToParameter this this input = None
        /\ e = ThrowTerriaError (unsupportedParameterError input)).
Proof.
  unfold functionParameters.
  destruct (inputs this) as [ins|e'|] eqn:Hins; cbn [bind].
  - match goal with
    | |- context [mapM ?f ins] =>
        destruct (mapM f ins) as [fresh|e'|] eqn:Hmap
    end; cbn [bind]; [| |discriminate].
    { intros Hkept. now apply keepValues_never_throws in Hkept. }
    intros [= ->]. right.
    apply mapM_throw in Hmap.
    + destruct Hmap as (before & input & after & -> & Hbefore & Hinput).
      exists before, input, after. split; [reflexivity |].
      split.
      * eapply Forall_impl; [|exact Hbefore].
        intros i [p Hp]. cbv beta in Hp.
        destruct (convertInputToParameter this this i); congruence.
      * destruct (convertInputToParameter this this input);
          [discriminate | split; congruence].
    + intros input.
      destruct (convertInputToParameter this this input); discriminate.
  - intros [= ->]. left. split; [reflexivity |].
    unfold inputs in Hins.
    destruct (processDescription this) as [pd|]; [|discriminate].
    destruct (DataInputs pd) as [[[input|]]|] eqn:Hdata;
      try discriminate; injection Hins as <-;
      (split; [reflexivity |]); exists pd; (split; [reflexivity |]); tauto.
  - discriminate.
Qed.

End ParameterFailures.

(** The function with a GML input: the error names that input, the
    first that is not converted. *)
Lemma functionParameters_failure_witness :
  exists before input after,
    inputs gmlFunction = Normal (before ++ input :: after)%list
    /\ convertInputToParameter gmlFunction gmlFunction input = None
    /\ unsupportedParameterError input = unsupportedParameterError gmlInput.
Proof.
  destruct (@functionParameters_failure sampleExternals gmlFunction
              (ThrowTerriaError (unsupportedParameterError gmlInput))
              ltac:(vm_compute; reflexivity))
    as [(Hins & _)|(before & input & after & Hins & _ & Hnone & He)].
  - discriminate Hins.
  - exists before, input, after.
    split; [exact Hins | split; [exact Hnone | congruence]].
Defined.
